(** * Custom-action sync pipe ([src/pipe/pipe.js]): a shallow embedding

    The script is glue code: it reads the environment, asks git which files a
    commit touched, reads two files per action folder, and talks to a REST
    endpoint.  The embedding keeps that shape:

    - JavaScript strings are sequences of UTF-16 code units ([jsstring]);
      the text of a file is the UTF-8 decoding of its octets ([Utf8]);
    - JavaScript values (parsed YAML, parsed JSON, payload objects) are one
      inductive type [value], with objects as insertion-ordered association
      lists and numbers as IEEE-754 doubles;
    - everything the script does to the outside world (file system, child
      processes, HTTP, console, [process.exit]) is a constructor of the
      process type [prog]; exceptions and promise rejections are [Throw];
    - a process is run against a [Timeline] of [World]s, one per interaction,
      so that the outside world may change between two calls;
    - the library functions the script calls without defining them
      ([yaml.load], [JSON.parse], ...) and the environment variables are the
      fields of a [Host].

    The first part defines the model, function by function, in the order of
    the source; the second part states and proves its properties. *)

From Stdlib Require Import Strings.String Strings.Ascii Strings.Byte.
From Stdlib Require Import Floats.PrimFloat.
From Stdlib Require Import NArith ZArith List Bool Lia ZifyBool ZifyN.
Import ListNotations.

Set Implicit Arguments.
Set Warnings "-register-all".

(** ** JavaScript strings *)

(** A JavaScript string is a finite sequence of 16-bit code units. *)
Definition jsstring : Type := list N.

(** A [Buffer] is a sequence of octets. *)
Definition Buffer : Type := list byte.

Module Utf8.

(** [UTF16EncodeCodePoint] of ECMA-262. *)
Definition utf16_encode (cp : N) : jsstring :=
  if (cp <? 0x10000)%N then [cp]
  else [(0xD800 + (cp - 0x10000) / 0x400)%N; (0xDC00 + (cp - 0x10000) mod 0x400)%N].

(** State of the decoder between two octets of one multi-octet sequence:
    the bits read so far, the number of continuation octets still expected
    and the range allowed for the next one. *)
Record pending : Type := Pending {
  bits : N;
  needed : nat;
  lower : N;
  upper : N
}.

Definition replacement : N := 0xFFFD%N.

(** An octet met outside of a sequence. *)
Definition lead (b : N) : jsstring * option pending :=
  if (b <=? 0x7F)%N then ([b], None)
  else if (0xC2 <=? b)%N && (b <=? 0xDF)%N then
    ([], Some (Pending (N.land b 0x1F) 1 0x80 0xBF))
  else if (0xE0 <=? b)%N && (b <=? 0xEF)%N then
    ([], Some (Pending (N.land b 0xF) 2
                 (if (b =? 0xE0)%N then 0xA0 else 0x80)%N
                 (if (b =? 0xED)%N then 0x9F else 0xBF)%N))
  else if (0xF0 <=? b)%N && (b <=? 0xF4)%N then
    ([], Some (Pending (N.land b 0x7) 3
                 (if (b =? 0xF0)%N then 0x90 else 0x80)%N
                 (if (b =? 0xF4)%N then 0x8F else 0xBF)%N))
  else ([replacement], None).

(** A continuation octet accepted inside a sequence. *)
Definition continue (p : pending) (b : N) : jsstring * option pending :=
  let v := N.lor (N.shiftl (bits p) 6) (N.land b 0x3F) in
  match needed p with
  | S (S n) => ([], Some (Pending v (S n) 0x80 0xBF))
  | _ => (utf16_encode v, None)
  end.

(** The decoder of [buf.toString("utf-8")]: ill-formed input is not an
    error, every maximal ill-formed part becomes U+FFFD, and the octet that
    interrupted a sequence is read again as the start of the next one. *)
Fixpoint decode (st : option pending) (bs : list N) : jsstring :=
  match bs with
  | [] => match st with None => [] | Some _ => [replacement] end
  | b :: rest =>
      match st with
      | None => let (out, st') := lead b in out ++ decode st' rest
      | Some p =>
          if (lower p <=? b)%N && (b <=? upper p)%N then
            let (out, st') := continue p b in out ++ decode st' rest
          else
            let (out, st') := lead b in replacement :: out ++ decode st' rest
      end
  end.

Definition toString (buf : Buffer) : jsstring := decode None (map Byte.to_N buf).

End Utf8.

(** A string literal of the source file, as the JavaScript string it denotes
    (the source file is UTF-8). *)
Definition lit (s : string) : jsstring := Utf8.toString (list_byte_of_string s).

Module Str.

Fixpoint eqb (a b : jsstring) : bool :=
  match a, b with
  | [], [] => true
  | x :: a', y :: b' => (x =? y)%N && eqb a' b'
  | _, _ => false
  end.

(** [s.startsWith(p)], returning what follows the prefix. *)
Fixpoint strip_prefix (p s : jsstring) : option jsstring :=
  match p with
  | [] => Some s
  | x :: p' =>
      match s with
      | y :: s' => if (x =? y)%N then strip_prefix p' s' else None
      | [] => None
      end
  end.

Definition startsWith (s p : jsstring) : bool :=
  match strip_prefix p s with Some _ => true | None => false end.

(** [s.includes(p)]. *)
Fixpoint includes (s p : jsstring) : bool :=
  startsWith s p || match s with [] => false | _ :: s' => includes s' p end.

(** [s.split(sep)] for a separator of one code unit. *)
Fixpoint split (sep : N) (s : jsstring) : list jsstring :=
  match s with
  | [] => [[]]
  | c :: s' =>
      if (c =? sep)%N then [] :: split sep s'
      else match split sep s' with
           | h :: t => (c :: h) :: t
           | [] => [[c]]
           end
  end.

(** [parts.join(sep)]. *)
Fixpoint join (sep : jsstring) (parts : list jsstring) : jsstring :=
  match parts with
  | [] => []
  | [x] => x
  | x :: rest => x ++ sep ++ join sep rest
  end.

(** [s.replace(p, r)] with a string pattern: the first occurrence only. *)
Fixpoint replace_first (p r s : jsstring) : jsstring :=
  match strip_prefix p s with
  | Some rest => r ++ rest
  | None => match s with [] => [] | c :: s' => c :: replace_first p r s' end
  end.

(** The class [\s] of regular expressions, which is also what [trim]
    removes: WhiteSpace and LineTerminator of ECMA-262. *)
Definition is_space (c : N) : bool :=
  existsb (N.eqb c)
    [0x09; 0x0A; 0x0B; 0x0C; 0x0D; 0x20; 0xA0; 0x1680;
     0x2000; 0x2001; 0x2002; 0x2003; 0x2004; 0x2005; 0x2006; 0x2007;
     0x2008; 0x2009; 0x200A; 0x2028; 0x2029; 0x202F; 0x205F; 0x3000;
     0xFEFF]%N.

Fixpoint drop_spaces (s : jsstring) : jsstring :=
  match s with
  | c :: s' => if is_space c then drop_spaces s' else s
  | [] => []
  end.

Definition trim (s : jsstring) : jsstring :=
  rev (drop_spaces (rev (drop_spaces s))).

(** [s.replace(/\s+/g, "")]: every run of white space disappears. *)
Definition remove_spaces (s : jsstring) : jsstring :=
  filter (fun c => negb (is_space c)) s.

(** [s.replace(/\/$/, "")]: one final slash is removed. *)
Fixpoint strip_trailing_slash (s : jsstring) : jsstring :=
  match s with
  | [] => []
  | [c] => if (c =? 0x2F)%N then [] else [c]
  | c :: s' => c :: strip_trailing_slash s'
  end.

(** A string is falsy exactly when it is empty. *)
Definition is_empty (s : jsstring) : bool :=
  match s with [] => true | _ => false end.

End Str.

(** ** [sanitizeToken] (pipe.js, lines 42-52) *)

(** [token.replace(/^[Bb]earer\s+/, "")]: the first letter may be of either
    case, the five others are lower case, and at least one white-space
    character must follow; the whole run of white space goes with the
    prefix. *)
Definition strip_bearer (token : jsstring) : jsstring :=
  match token with
  | c :: t =>
      if (c =? 0x42)%N || (c =? 0x62)%N then
        match Str.strip_prefix (lit "earer") t with
        | Some (w :: t') => if Str.is_space w then Str.drop_spaces t' else token
        | _ => token
        end
      else token
  | [] => token
  end.

(** The argument is [None] for [null] and [undefined]. *)
Definition sanitizeToken (token : option jsstring) : jsstring :=
  match token with
  | None => []
  | Some t =>
      if Str.is_empty t then []
      else
        let cleanToken := strip_bearer t in
        let cleanToken := Str.remove_spaces cleanToken in
        cleanToken
  end.

(** ** JavaScript values *)

(** What [yaml.load] and [JSON.parse] return, and what the script builds:
    [undefined], [null], booleans, numbers (IEEE-754 doubles), strings, arrays
    and plain objects.  An object keeps its own properties in insertion
    order. *)
Inductive value : Type :=
| VUndefined
| VNull
| VBool (b : bool)
| VNum (x : float)
| VStr (s : jsstring)
| VArr (items : list value)
| VObj (fields : list (jsstring * value)).

(** The message of a thrown [Error] (the script reads nothing else of it). *)
Definition Error : Type := jsstring.

Module Val.

(** [ToBoolean]. *)
Definition truthy (v : value) : bool :=
  match v with
  | VUndefined | VNull => false
  | VBool b => b
  | VNum x => negb (PrimFloat.eqb x 0%float || PrimFloat.is_nan x)
  | VStr s => negb (Str.is_empty s)
  | VArr _ | VObj _ => true
  end.

Definition nullish (v : value) : bool :=
  match v with VUndefined | VNull => true | _ => false end.

(** [a || b]. *)
Definition or (a b : value) : value := if truthy a then a else b.

Fixpoint assoc (k : jsstring) (fields : list (jsstring * value)) : option value :=
  match fields with
  | [] => None
  | (k', v) :: rest => if Str.eqb k' k then Some v else assoc k rest
  end.

Definition digit (c : N) : option nat :=
  if (0x30 <=? c)%N && (c <=? 0x39)%N then Some (N.to_nat (c - 0x30)) else None.

Fixpoint digits (acc : nat) (s : jsstring) : option nat :=
  match s with
  | [] => Some acc
  | c :: s' => match digit c with
               | Some d => digits (10 * acc + d) s'
               | None => None
               end
  end.

(** A property key that is an array index: a canonical decimal numeral. *)
Definition array_index (k : jsstring) : option nat :=
  match k with
  | [] => None
  | [c] => digit c
  | c :: _ => if (c =? 0x30)%N then None else digits 0 k
  end.

(** [v[k]] for a value that is neither [null] nor [undefined]: an own
    property of an object, an element of an array, a code unit of a string.
    Inherited properties and [length] are not modelled; the script reads
    none of them. *)
Definition get (v : value) (k : jsstring) : value :=
  match v with
  | VObj fields => match assoc k fields with Some x => x | None => VUndefined end
  | VArr items =>
      match array_index k with
      | Some i => nth i items VUndefined
      | None => VUndefined
      end
  | VStr s =>
      match array_index k with
      | Some i => match nth_error s i with Some c => VStr [c] | None => VUndefined end
      | None => VUndefined
      end
  | _ => VUndefined
  end.

(** [v?.k] and [v?.[k]]. *)
Definition opt (v : value) (k : jsstring) : value :=
  if nullish v then VUndefined else get v k.

(** [obj.k = x] on a plain object: an existing property keeps its place, a
    new one comes last. *)
Fixpoint set_field (k : jsstring) (x : value) (fields : list (jsstring * value))
  : list (jsstring * value) :=
  match fields with
  | [] => [(k, x)]
  | (k', v) :: rest =>
      if Str.eqb k' k then (k', x) :: rest else (k', v) :: set_field k x rest
  end.

Definition set (v : value) (k : jsstring) (x : value) : value :=
  match v with
  | VObj fields => VObj (set_field k x fields)
  | _ => v
  end.

Definition is_object (v : value) : bool :=
  match v with VArr _ | VObj _ => true | _ => false end.

(** [k in v] for an object or an array ([None] otherwise: the operator
    throws a [TypeError] on a primitive).  Own properties only; none of the
    keys the script tests is inherited from a prototype. *)
Definition has (k : jsstring) (v : value) : option bool :=
  match v with
  | VObj fields =>
      Some (match assoc k fields with Some _ => true | None => false end)
  | VArr items =>
      Some (match array_index k with
            | Some i => Nat.ltb i (length items)
            | None => Str.eqb k (lit "length")
            end)
  | _ => None
  end.

End Val.

(** ** [path.join] and [path.basename] (POSIX) *)

Module Path.

Definition slash : N := 0x2F%N.
Definition dot : jsstring := [0x2E%N].
Definition dotdot : jsstring := [0x2E%N; 0x2E%N].

(** [normalizeString]: the segments kept so far are a stack, last first. *)
Definition push_segment (allowAboveRoot : bool) (stack : list jsstring) (seg : jsstring)
  : list jsstring :=
  if Str.is_empty seg || Str.eqb seg dot then stack
  else if Str.eqb seg dotdot then
    match stack with
    | top :: below =>
        if Str.eqb top dotdot then
          (if allowAboveRoot then dotdot :: stack else stack)
        else below
    | [] => if allowAboveRoot then [dotdot] else []
    end
  else seg :: stack.

Definition normalizeString (p : jsstring) (allowAboveRoot : bool) : jsstring :=
  Str.join [slash] (rev (fold_left (push_segment allowAboveRoot) (Str.split slash p) [])).

Definition normalize (p : jsstring) : jsstring :=
  match p with
  | [] => dot
  | c :: _ =>
      let isAbsolute := (c =? slash)%N in
      let trailingSeparator := (last p 0 =? slash)%N in
      let q := normalizeString p (negb isAbsolute) in
      if Str.is_empty q then
        (if isAbsolute then [slash] else if trailingSeparator then dot ++ [slash] else dot)
      else
        let q := if trailingSeparator then q ++ [slash] else q in
        if isAbsolute then slash :: q else q
  end.

Definition join (a b : jsstring) : jsstring :=
  match filter (fun s => negb (Str.is_empty s)) [a; b] with
  | [] => dot
  | parts => normalize (Str.join [slash] parts)
  end.

Fixpoint drop_slashes (s : jsstring) : jsstring :=
  match s with
  | c :: s' => if (c =? slash)%N then drop_slashes s' else s
  | [] => []
  end.

Fixpoint take_segment (s : jsstring) : jsstring :=
  match s with
  | c :: s' => if (c =? slash)%N then [] else c :: take_segment s'
  | [] => []
  end.

Definition basename (p : jsstring) : jsstring :=
  rev (take_segment (drop_slashes (rev p))).

End Path.

(** ** [encodeURIComponent] and its inverse (ECMA-262, 19.2.6) *)

Module Uri.

Definition is_high (c : N) : bool := (0xD800 <=? c)%N && (c <=? 0xDBFF)%N.
Definition is_low (c : N) : bool := (0xDC00 <=? c)%N && (c <=? 0xDFFF)%N.

(** A string in which every surrogate is half of a pair (and every element
    a 16-bit code unit): what [buf.toString("utf-8")] returns. *)
Fixpoint well_formed (s : jsstring) : bool :=
  match s with
  | [] => true
  | c :: s' =>
      if is_high c then
        match s' with
        | d :: s'' => is_low d && well_formed s''
        | [] => false
        end
      else negb (is_low c) && (c <? 0x10000)%N && well_formed s'
  end.

(** The unreserved set of [encodeURIComponent]: letters, digits and
    [-_.!~*'()]. *)
Definition unescaped (c : N) : bool :=
  ((0x41 <=? c)%N && (c <=? 0x5A)%N) || ((0x61 <=? c)%N && (c <=? 0x7A)%N) ||
  ((0x30 <=? c)%N && (c <=? 0x39)%N) ||
  existsb (N.eqb c) [0x2D; 0x5F; 0x2E; 0x21; 0x7E; 0x2A; 0x27; 0x28; 0x29]%N.

Definition hex_digit (n : N) : N :=
  if (n <? 10)%N then (0x30 + n)%N else (0x41 + (n - 10))%N.

(** One octet as [%XX], upper case. *)
Definition percent (octet : N) : jsstring :=
  [0x25%N; hex_digit (octet / 16); hex_digit (octet mod 16)].

(** The UTF-8 encoding of a code point. *)
Definition utf8_octets (cp : N) : list N :=
  if (cp <? 0x80)%N then [cp]
  else if (cp <? 0x800)%N then [0xC0 + cp / 0x40; 0x80 + cp mod 0x40]%N
  else if (cp <? 0x10000)%N then
    [0xE0 + cp / 0x1000; 0x80 + (cp / 0x40) mod 0x40; 0x80 + cp mod 0x40]%N
  else
    [0xF0 + cp / 0x40000; 0x80 + (cp / 0x1000) mod 0x40;
     0x80 + (cp / 0x40) mod 0x40; 0x80 + cp mod 0x40]%N.

(** [UTF16SurrogatePairToCodePoint]. *)
Definition pair_code_point (hi lo : N) : N :=
  ((hi - 0xD800) * 0x400 + (lo - 0xDC00) + 0x10000)%N.

Definition escape (cp : N) : jsstring := flat_map percent (utf8_octets cp).

(** [Encode(string, uriUnreserved)]; [None] is the [URIError] thrown on a
    lone surrogate. *)
Fixpoint encodeURIComponent (s : jsstring) : option jsstring :=
  match s with
  | [] => Some []
  | c :: s' =>
      if unescaped c then option_map (cons c) (encodeURIComponent s')
      else if is_high c then
        match s' with
        | d :: s'' =>
            if is_low d then
              option_map (app (escape (pair_code_point c d))) (encodeURIComponent s'')
            else None
        | [] => None
        end
      else if is_low c then None
      else option_map (app (escape c)) (encodeURIComponent s')
  end.

Definition hex_value (c : N) : option N :=
  if (0x30 <=? c)%N && (c <=? 0x39)%N then Some (c - 0x30)%N
  else if (0x41 <=? c)%N && (c <=? 0x46)%N then Some (c - 0x41 + 10)%N
  else if (0x61 <=? c)%N && (c <=? 0x66)%N then Some (c - 0x61 + 10)%N
  else None.

(** One escape sequence [%XX] at the head of the string. *)
Definition octet (s : jsstring) : option (N * jsstring) :=
  match s with
  | p :: h :: l :: rest =>
      if (p =? 0x25)%N then
        match hex_value h, hex_value l with
        | Some a, Some b => Some (16 * a + b, rest)%N
        | _, _ => None
        end
      else None
  | _ => None
  end.

Fixpoint octets (n : nat) (s : jsstring) : option (list N * jsstring) :=
  match n with
  | O => Some ([], s)
  | S n' =>
      match octet s with
      | Some (b, rest) =>
          match octets n' rest with
          | Some (bs, rest') => Some (b :: bs, rest')
          | None => None
          end
      | None => None
      end
  end.

(** Number of leading 1 bits of an octet (5 stands for five or more). *)
Definition leading_ones (b : N) : nat :=
  if (b <? 0x80)%N then 0
  else if (b <? 0xC0)%N then 1
  else if (b <? 0xE0)%N then 2
  else if (b <? 0xF0)%N then 3
  else if (b <? 0xF8)%N then 4
  else 5.

Definition continuation (b : N) : bool := (0x80 <=? b)%N && (b <=? 0xBF)%N.

(** The code point of a well-formed UTF-8 sequence of two to four octets:
    no overlong form, no surrogate, nothing above U+10FFFF. *)
Definition utf8_code_point (bs : list N) : option N :=
  match bs with
  | [b1; b2] =>
      let v := ((b1 - 0xC0) * 0x40 + (b2 - 0x80))%N in
      if (0xC0 <=? b1)%N && continuation b2 && (0x80 <=? v)%N then Some v else None
  | [b1; b2; b3] =>
      let v := ((b1 - 0xE0) * 0x1000 + (b2 - 0x80) * 0x40 + (b3 - 0x80))%N in
      if (0xE0 <=? b1)%N && continuation b2 && continuation b3 && (0x800 <=? v)%N
         && negb ((0xD800 <=? v)%N && (v <=? 0xDFFF)%N)
      then Some v else None
  | [b1; b2; b3; b4] =>
      let v := ((b1 - 0xF0) * 0x40000 + (b2 - 0x80) * 0x1000
                + (b3 - 0x80) * 0x40 + (b4 - 0x80))%N in
      if (0xF0 <=? b1)%N && continuation b2 && continuation b3 && continuation b4
         && (0x10000 <=? v)%N && (v <=? 0x10FFFF)%N
      then Some v else None
  | _ => None
  end.

(** [Decode(string, "")]: the loop of ECMA-262, one iteration per unit of
    fuel; [None] is the [URIError]. *)
Fixpoint Decode (fuel : nat) (s : jsstring) : option jsstring :=
  match s with
  | [] => Some []
  | c :: rest =>
      match fuel with
      | O => None
      | S fuel' =>
          if (c =? 0x25)%N then
            match octet s with
            | None => None
            | Some (b, rest1) =>
                match leading_ones b with
                | 0 => option_map (cons b) (Decode fuel' rest1)
                | 1 => None
                | S n =>
                    if Nat.ltb 3 n then None
                    else
                      match octets n rest1 with
                      | None => None
                      | Some (bs, rest2) =>
                          match utf8_code_point (b :: bs) with
                          | None => None
                          | Some v =>
                              option_map (app (Utf8.utf16_encode v)) (Decode fuel' rest2)
                          end
                      end
                end
            end
          else option_map (cons c) (Decode fuel' rest)
      end
  end.

(** Every iteration consumes at least one code unit, so the length of the
    string is fuel enough. *)
Definition decodeURIComponent (s : jsstring) : option jsstring :=
  Decode (List.length s) s.

End Uri.

(** ** The outside world *)

(** The two command lines the script hands to [execSync]:
    [git config --global --add safe.directory <cwd>] and
    [git log -m -1 --name-only --pretty=format: <commit>]. *)
Inductive Command : Type :=
| GitSafeDirectory (cwd : jsstring)
| GitLog (commit : jsstring).

(** What [makeRequest] hands to [http.request]; [body] is the value whose
    [JSON.stringify] is written to the socket, if any. *)
Record Request : Type := mkRequest {
  url : jsstring;
  method : jsstring;
  headers : list (jsstring * jsstring);
  body : option value
}.

(** What [makeRequest] resolves with. *)
Record Response : Type := mkResponse {
  status : N;
  data : value
}.

(** One state of the outside world: what each interaction would answer.
    A left answer is the message of the error thrown (or, for a request, of
    the [error] event that rejects the promise). *)
Record World : Type := mkWorld {
  w_cwd : Error + jsstring;
  w_exists : jsstring -> bool;
  w_read : jsstring -> Error + Buffer;
  w_exec : Command -> Error + jsstring;
  w_http : Request -> Error + (N * jsstring)
}.

(** The world at each interaction of a run. *)
Definition Timeline : Type := nat -> World.

Inductive level : Type := LOG | WARN | ERROR.

(** What a run leaves behind: console lines and requests sent, in order. *)
Inductive output : Type :=
| Logged (lvl : level) (args : list jsstring)
| Sent (r : Request).

(** A process: the script's control flow with every interaction made
    explicit.  [Throw] is a thrown exception or a rejected promise, [Exit] is
    [process.exit]. *)
Inductive prog (R : Type) : Type :=
| Ret (r : R)
| Throw (e : Error)
| Exit (code : Z)
| Cwd (k : Error + jsstring -> prog R)
| ExistsSync (path : jsstring) (k : bool -> prog R)
| ReadFileSync (path : jsstring) (k : Error + Buffer -> prog R)
| ExecSync (c : Command) (k : Error + jsstring -> prog R)
| HttpRequest (r : Request) (k : Error + (N * jsstring) -> prog R)
| Console (lvl : level) (args : list jsstring) (k : prog R).

Arguments Throw {R} e.
Arguments Exit {R} code.
Arguments Cwd {R} k.
Arguments ExistsSync {R} path k.
Arguments ReadFileSync {R} path k.
Arguments ExecSync {R} c k.
Arguments HttpRequest {R} r k.
Arguments Console {R} lvl args k.

Fixpoint bind {A B : Type} (p : prog A) (f : A -> prog B) : prog B :=
  match p with
  | Ret r => f r
  | Throw e => Throw e
  | Exit c => Exit c
  | Cwd k => Cwd (fun a => bind (k a) f)
  | ExistsSync path k => ExistsSync path (fun a => bind (k a) f)
  | ReadFileSync path k => ReadFileSync path (fun a => bind (k a) f)
  | ExecSync c k => ExecSync c (fun a => bind (k a) f)
  | HttpRequest r k => HttpRequest r (fun a => bind (k a) f)
  | Console lvl args k => Console lvl args (bind k f)
  end.

(** [try { p } catch (e) { h e }]; [process.exit] is not caught. *)
Fixpoint try_catch {A : Type} (p : prog A) (h : Error -> prog A) : prog A :=
  match p with
  | Ret r => Ret r
  | Throw e => h e
  | Exit c => Exit c
  | Cwd k => Cwd (fun a => try_catch (k a) h)
  | ExistsSync path k => ExistsSync path (fun a => try_catch (k a) h)
  | ReadFileSync path k => ReadFileSync path (fun a => try_catch (k a) h)
  | ExecSync c k => ExecSync c (fun a => try_catch (k a) h)
  | HttpRequest r k => HttpRequest r (fun a => try_catch (k a) h)
  | Console lvl args k => Console lvl args (try_catch k h)
  end.

(** [try { p } finally { q }]. *)
Fixpoint finally {A : Type} (p : prog A) (q : prog unit) : prog A :=
  match p with
  | Ret r => bind q (fun _ => Ret r)
  | Throw e => bind q (fun _ => Throw e)
  | Exit c => Exit c
  | Cwd k => Cwd (fun a => finally (k a) q)
  | ExistsSync path k => ExistsSync path (fun a => finally (k a) q)
  | ReadFileSync path k => ReadFileSync path (fun a => finally (k a) q)
  | ExecSync c k => ExecSync c (fun a => finally (k a) q)
  | HttpRequest r k => HttpRequest r (fun a => finally (k a) q)
  | Console lvl args k => Console lvl args (finally k q)
  end.

Declare Scope prog_scope.
Delimit Scope prog_scope with prog.
Bind Scope prog_scope with prog.

Notation "x <- p ;; k" := (bind p (fun x => k))
  (at level 61, p at next level, right associativity) : prog_scope.
Notation "p ;; k" := (bind p (fun _ => k))
  (at level 61, right associativity) : prog_scope.

Open Scope prog_scope.

(** A fallible pure step: the error, if any, is thrown. *)
Definition lift {A : Type} (r : Error + A) : prog A :=
  match r with inl e => Throw e | inr a => Ret a end.

Definition process_cwd : prog jsstring := Cwd lift.
Definition fs_existsSync (path : jsstring) : prog bool := ExistsSync path (@Ret bool).
Definition fs_readFileSync (path : jsstring) : prog Buffer := ReadFileSync path lift.
Definition execSync (c : Command) : prog jsstring := ExecSync c lift.
Definition console (lvl : level) (args : list jsstring) : prog unit :=
  Console lvl args (Ret tt).
Definition process_exit {A : Type} (code : Z) : prog A := Exit code.

(** [for (const x of xs) { await f(x) }]. *)
Fixpoint forEach {A : Type} (xs : list A) (f : A -> prog unit) : prog unit :=
  match xs with
  | [] => Ret tt
  | x :: rest => f x ;; forEach rest f
  end.

(** *** Running a process *)

Inductive outcome (R : Type) : Type :=
| Returned (r : R)
| Thrown (e : Error)
| Exited (code : Z).

Arguments Thrown {R} e.
Arguments Exited {R} code.

(** The result of a run: what it left behind, how it ended, and the index of
    the next interaction. *)
Record result (R : Type) : Type := mkResult {
  trace : list output;
  final : outcome R;
  next : nat
}.

Definition emit {R : Type} (o : output) (res : result R) : result R :=
  mkResult (o :: trace res) (final res) (next res).

(** [run tl i p]: the process [p] run when [i] interactions with the world
    have already taken place; the [n]-th interaction is answered by the world
    [tl n].  Writing to the console asks nothing of the world. *)
Fixpoint run {R : Type} (tl : Timeline) (i : nat) (p : prog R) : result R :=
  match p with
  | Ret r => mkResult [] (Returned r) i
  | Throw e => mkResult [] (Thrown e) i
  | Exit c => mkResult [] (Exited c) i
  | Cwd k => run tl (S i) (k (w_cwd (tl i)))
  | ExistsSync path k => run tl (S i) (k (w_exists (tl i) path))
  | ReadFileSync path k => run tl (S i) (k (w_read (tl i) path))
  | ExecSync c k => run tl (S i) (k (w_exec (tl i) c))
  | HttpRequest r k => emit (Sent r) (run tl (S i) (k (w_http (tl i) r)))
  | Console lvl args k => emit (Logged lvl args) (run tl i k)
  end.

(** A world that does not change while the process runs. *)
Definition still (w : World) : Timeline := fun _ => w.

(** The requests of a trace. *)
Fixpoint requests (t : list output) : list Request :=
  match t with
  | [] => []
  | Sent r :: t' => r :: requests t'
  | Logged _ _ :: t' => requests t'
  end.

(** ** [getVersion] (pipe.js, lines 21-35)

    The function runs once, when the module is loaded; [dirname] is the
    module's [__dirname].  The asynchronous [fs.readFile] of lines 24-28 is
    left out: its callback runs after the function has returned and what it
    returns is read by nobody. *)

(** One turn of the loop of [path.resolve]: an argument is put in front of
    what is resolved so far, unless an absolute one was met already or the
    argument is empty. *)
Definition prepend (path : jsstring) (resolved : jsstring * bool) : jsstring * bool :=
  let (resolvedPath, resolvedAbsolute) := resolved in
  if resolvedAbsolute then resolved
  else match path with
       | [] => resolved
       | c :: _ => (path ++ [Path.slash] ++ resolvedPath, (c =? Path.slash)%N)
       end.

(** [path.resolve(a, b)] (POSIX): the arguments are read from the last to
    the first; the working directory is asked for only when none of them is
    absolute. *)
Definition path_resolve (a b : jsstring) : prog jsstring :=
  let resolved := prepend a (prepend b ([], false)) in
  resolved <- (if snd resolved then Ret resolved
               else cwd <- process_cwd ;; Ret (prepend cwd resolved)) ;;
  let resolvedAbsolute := snd resolved in
  let resolvedPath := Path.normalizeString (fst resolved) (negb resolvedAbsolute) in
  Ret (if resolvedAbsolute then Path.slash :: resolvedPath
       else if Str.is_empty resolvedPath then Path.dot else resolvedPath).

Definition getVersion (dirname : jsstring) : prog jsstring :=
  try_catch
    (versionPath <- path_resolve dirname (lit "version.txt") ;;
     data <- fs_readFileSync versionPath ;;
     let version := Str.trim (Utf8.toString data) in
     Ret version)
    (fun error =>
       console WARN [lit "Warning: Could not read version.txt, using default"] ;;
       Ret (lit "unknown")).

(** ** The host: environment variables and library functions

    The parts of the run-time the script relies on and that are not its own
    code: the environment variables read at start-up, [js-yaml]'s [load],
    [JSON.parse], the conversions of arbitrary values to text, the texts of
    the engine's error messages and the [URL] class. *)
Record Host : Type := mkHost {
  env_SA_URL : option jsstring;
  env_SA_TOKEN : option jsstring;
  env_BITBUCKET_COMMIT : option jsstring;
  (** [getVersion()], evaluated once when the module is loaded *)
  VERSION : jsstring;
  (** [yaml.load]; left is the message of the exception *)
  yaml_load : jsstring -> Error + value;
  (** [JSON.parse]; [None] when it throws *)
  JSON_parse : jsstring -> option value;
  JSON_stringify : value -> jsstring;
  (** [ToString] of a value that is not a string *)
  ToString : value -> jsstring;
  (** message of the [TypeError] of [key in v] for a primitive [v] *)
  type_error_in : jsstring -> value -> Error;
  (** message of the [TypeError] of a method call on a value without it *)
  type_error_call : value -> jsstring -> Error;
  (** message of the [URIError] of [encodeURIComponent] *)
  uri_error : Error;
  (** [new URL(base)], then [searchParams.append("name", name)], then
      [toString()]; left when [base] is not a valid URL *)
  lookup_url : jsstring -> jsstring -> Error + jsstring
}.

(** ** The script *)

Section Pipe.

Variable h : Host.

(** [a || b] on an environment variable: unset and empty both give [b]. *)
Definition env_or (a : option jsstring) (b : jsstring) : jsstring :=
  match a with
  | Some s => if Str.is_empty s then b else s
  | None => b
  end.

(** Lines 13-16. *)
Definition SA_URL : jsstring := env_or (env_SA_URL h) (lit "https://zimmer.superannotate.com").
Definition SA_API_URL : jsstring := SA_URL ++ lit "/api/v1/custom_task".
Definition SA_TOKEN : option jsstring :=
  match env_SA_TOKEN h with
  | Some s => if Str.is_empty s then None else Some s
  | None => None
  end.
Definition BITBUCKET_COMMIT : jsstring := env_or (env_BITBUCKET_COMMIT h) (lit "HEAD").

(** A value inside a template literal. *)
Definition template (v : value) : jsstring :=
  match v with VStr s => s | _ => ToString h v end.

Definition newline : N := 0x0A%N.

(** The same preamble opens both change-detection functions (lines 59-68
    and 97-106): a failure of [git config] is ignored, a failure of
    [process.cwd] is not. *)
Definition trust_cwd : prog unit :=
  cwd <- process_cwd ;;
  try_catch (execSync (GitSafeDirectory cwd) ;; Ret tt) (fun configError => Ret tt).

(** Lines 70-85, once the listing is known. *)
Definition files_in_folder (folder changedFiles : jsstring) : list jsstring :=
  let normalizedFolder := Str.strip_trailing_slash folder ++ [Path.slash] in
  map (fun file => Str.replace_first normalizedFolder [] file)
    (filter (fun file =>
               negb (Str.is_empty (Str.trim file)) && Str.startsWith file normalizedFolder)
       (Str.split newline changedFiles)).

(** [getChangedFilesInFolder] (lines 57-90). *)
Definition getChangedFilesInFolder (folder : jsstring) : prog (list jsstring) :=
  try_catch
    (trust_cwd ;;
     changedFiles <- execSync (GitLog BITBUCKET_COMMIT) ;;
     Ret (files_in_folder folder changedFiles))
    (fun error =>
       console ERROR [lit "Error getting changed files in " ++ folder ++ lit ":"; error] ;;
       Ret []).

(** [folders.add(x)] on a [Set], kept in insertion order. *)
Definition set_add (x : jsstring) (folders : list jsstring) : list jsstring :=
  if existsb (Str.eqb x) folders then folders else folders ++ [x].

(** The body of the [forEach] of lines 116-123. *)
Definition add_folder (folders : list jsstring) (file : jsstring) : list jsstring :=
  if Str.startsWith file (lit "actions/") then
    let parts := Str.split Path.slash file in
    if Nat.leb 2 (List.length parts)
    then set_add (lit "actions/" ++ nth 1 parts []) folders
    else folders
  else folders.

(** Lines 115-124, once the listing is known. *)
Definition changed_folders (changedFiles : jsstring) : list jsstring :=
  fold_left add_folder (Str.split newline changedFiles) [].

(** [getChangedFolders] (lines 95-129). *)
Definition getChangedFolders : prog (list jsstring) :=
  try_catch
    (trust_cwd ;;
     changedFiles <- execSync (GitLog BITBUCKET_COMMIT) ;;
     Ret (changed_folders changedFiles))
    (fun error =>
       console ERROR [lit "Error detecting changed folders:"; error] ;;
       Ret []).

Definition requiredKeys : list jsstring :=
  [lit "description"; lit "memory"; lit "interpreter"; lit "time_limit"; lit "concurrency"].

(** The loop of lines 145-149; [key in config] throws on a primitive. *)
Fixpoint check_keys (config : value) (keys errors : list jsstring)
  : Error + list jsstring :=
  match keys with
  | [] => inr errors
  | key :: rest =>
      match Val.has key config with
      | None => inl (type_error_in h key config)
      | Some true => check_keys config rest errors
      | Some false =>
          check_keys config rest (errors ++ [lit "'" ++ key ++ lit "' is required"])
      end
  end.

Definition error_object (message : jsstring) : value :=
  VObj [(lit "error", VStr message)].

Definition bullet : jsstring := newline :: lit "  - ".

(** [validateConfig] (lines 134-158): [null] when every key is there. *)
Definition validateConfig (config : value) (folder : jsstring) : Error + value :=
  match check_keys config requiredKeys [] with
  | inl e => inl e
  | inr errors =>
      if Nat.ltb 0 (List.length errors) then
        inr (error_object (lit "Invalid config.yaml in " ++ folder ++ lit ":"
                           ++ bullet ++ Str.join bullet errors))
      else inr VNull
  end.

(** [encodeURIComponent(fileContent.toString("utf-8"))]. *)
Definition encode_file (fileContent : Buffer) : Error + jsstring :=
  match Uri.encodeURIComponent (Utf8.toString fileContent) with
  | Some s => inr s
  | None => inl (uri_error h)
  end.

(** [generatePayload] (lines 163-220).  [taskConfig] and [config] are one
    object: the two assignments of lines 202-203 are made on [config]
    itself, before the payload reads it. *)
Definition generatePayload (folder : jsstring) : prog value :=
  try_catch
    (let configPath := Path.join folder (lit "config.yaml") in
     found <- fs_existsSync configPath ;;
     if negb found then Ret (error_object (lit "No config.yaml found"))
     else
       loaded <- try_catch
                   (configContent <- fs_readFileSync configPath ;;
                    config <- lift (yaml_load h (Utf8.toString configContent)) ;;
                    Ret (inr config))
                   (fun error => Ret (inl (error_object (lit "Invalid YAML: " ++ error)))) ;;
       match loaded with
       | inl invalid => Ret invalid
       | inr config =>
           validationError <- lift (validateConfig config folder) ;;
           if Val.truthy validationError then Ret validationError
           else
             let mainPyPath := Path.join folder (lit "main.py") in
             found <- fs_existsSync mainPyPath ;;
             if negb found then Ret (error_object (lit "No main.py file found"))
             else
               fileContent <- fs_readFileSync mainPyPath ;;
               encodedFile <- lift (encode_file fileContent) ;;
               let taskName := Path.basename folder in
               let config :=
                 Val.set config (lit "interpreter") (Val.get config (lit "interpreter")) in
               let config :=
                 Val.set config (lit "requirements") (Val.get config (lit "requirements")) in
               let taskConfig := config in
               Ret (VObj [(lit "name", VStr taskName);
                          (lit "description", Val.get config (lit "description"));
                          (lit "memory", Val.get config (lit "memory"));
                          (lit "time_limit", Val.get config (lit "time_limit"));
                          (lit "concurrency", Val.get config (lit "concurrency"));
                          (lit "config", taskConfig);
                          (lit "file", VStr encodedFile)])
       end)
    (fun error => Ret (error_object error)).

(** [generateFileOnlyPayload] (lines 225-245). *)
Definition generateFileOnlyPayload (folder : jsstring) : prog value :=
  try_catch
    (let mainPyPath := Path.join folder (lit "main.py") in
     found <- fs_existsSync mainPyPath ;;
     if negb found then Ret (error_object (lit "No main.py file found"))
     else
       fileContent <- fs_readFileSync mainPyPath ;;
       encodedFile <- lift (encode_file fileContent) ;;
       Ret (VObj [(lit "file", VStr encodedFile)]))
    (fun error => Ret (error_object error)).

(** Line 282: [if (data)], nothing is written for a falsy [data]. *)
Definition written (data : option value) : option value :=
  match data with
  | Some v => if Val.truthy v then Some v else None
  | None => None
  end.

(** [makeRequest] (lines 250-288): the promise is rejected on a transport
    error; a body that is not JSON is passed on as text. *)
Definition makeRequest (url method : jsstring) (headers : list (jsstring * jsstring))
    (data : option value) : prog Response :=
  HttpRequest (mkRequest url method headers (written data))
    (fun answer =>
       match answer with
       | inl error => Throw error
       | inr (statusCode, body) =>
           match JSON_parse h body with
           | Some parsed => Ret (mkResponse statusCode parsed)
           | None => Ret (mkResponse statusCode (VStr body))
           end
       end).

Definition user_agent : jsstring := lit "Bitbucket Pipeline: " ++ VERSION h.
Definition referer : jsstring := lit "https://app.superannotate.com/".

(** The headers of the lookup (lines 300-306). *)
Definition lookup_headers (apiToken : jsstring) : list (jsstring * jsstring) :=
  [(lit "Authorization", apiToken); (lit "Auth-Type", lit "sdk");
   (lit "Referer", referer); (lit "Content-Type", lit "application/json");
   (lit "User-Agent", user_agent)].

(** The headers of the create and update requests (lines 366-372, 410-416). *)
Definition write_headers (apiToken : jsstring) : list (jsstring * jsstring) :=
  [(lit "Content-Type", lit "application/json"); (lit "Authorization", apiToken);
   (lit "Auth-Type", lit "sdk"); (lit "Referer", referer);
   (lit "User-Agent", user_agent)].

(** Line 309: [response.data?.results?.[0]?.id || response.data?.id || null]. *)
Definition parse_id (response : Response) : value :=
  Val.or
    (Val.or (Val.opt (Val.opt (Val.opt (data response) (lit "results")) (lit "0")) (lit "id"))
            (Val.opt (data response) (lit "id")))
    VNull.

(** [checkTaskExists] (lines 293-315); the [URL] is built outside the
    [try]. *)
Definition checkTaskExists (name apiToken : jsstring) : prog value :=
  url <- lift (lookup_url h SA_API_URL name) ;;
  try_catch
    (response <- makeRequest url (lit "GET") (lookup_headers apiToken) None ;;
     let id := parse_id response in
     Ret id)
    (fun error =>
       console ERROR [lit "Error checking task existence:"; error] ;;
       Ret VNull).

Definition ok_status (response : Response) : bool :=
  (200 <=? status response)%N && (status response <? 300)%N.

(** Lines 388-391. *)
Definition onlyPyFilesChanged (changedFiles : list jsstring) : bool :=
  Nat.ltb 0 (List.length changedFiles)
  && forallb (fun file => Str.eqb file (lit "main.py")) changedFiles
  && negb (existsb (fun file => Str.eqb file (lit "config.yaml")) changedFiles).

(** Lines 359-383: the task does not exist yet. *)
Definition create_task (taskName apiToken : jsstring) (fullPayload : value) : prog unit :=
  console LOG [lit "🆕 Creating new action: " ++ taskName] ;;
  response <- makeRequest SA_API_URL (lit "POST") (write_headers apiToken) (Some fullPayload) ;;
  if ok_status response then
    console LOG [lit "✔ Created successfully ("
                 ++ template (Val.opt (data response) (lit "id")) ++ lit ")"]
  else
    console ERROR [lit "❌ Failed to create task: " ++ JSON_stringify h (data response)].

(** Lines 385-426: the task exists. *)
Definition update_task (cleanFolder taskName apiToken : jsstring)
    (taskId fullPayload : value) : prog unit :=
  console LOG [lit "✔ Existing task found (id=" ++ template taskId ++ lit ")"] ;;
  changedFiles <- getChangedFilesInFolder cleanFolder ;;
  patchPayload <-
    (if onlyPyFilesChanged changedFiles then
       patchPayload <- generateFileOnlyPayload cleanFolder ;;
       if Val.truthy (Val.get patchPayload (lit "error")) then
         console WARN [lit "⚠️  Error generating file-only payload, using full payload: "
                       ++ template (Val.get patchPayload (lit "error"))] ;;
         Ret fullPayload
       else Ret patchPayload
     else Ret fullPayload) ;;
  console LOG [lit "♻ Updating action: " ++ taskName] ;;
  response <- makeRequest (SA_API_URL ++ lit "/" ++ template taskId) (lit "PATCH")
                (write_headers apiToken) (Some patchPayload) ;;
  if ok_status response then console LOG [lit "✔ Update successful"]
  else console ERROR [lit "❌ Failed to update task: " ++ JSON_stringify h (data response)].

(** Lines 351-432: the folder has a payload. *)
Definition sync_payload (cleanFolder apiToken : jsstring) (fullPayload : value)
  : prog unit :=
  let taskName := template (Val.get fullPayload (lit "name")) in
  console LOG [lit "🔍 Checking existence"] ;;
  taskId <- checkTaskExists taskName apiToken ;;
  finally
    (try_catch
       (if negb (Val.truthy taskId) then create_task taskName apiToken fullPayload
        else update_task cleanFolder taskName apiToken taskId fullPayload)
       (fun error =>
          console ERROR [lit "❌ Error syncing task " ++ taskName ++ lit ":"; error]))
    (console LOG [lit "----------------------------------"]).

(** Lines 342-349: the folder has none. *)
Definition payload_failed (cleanFolder : jsstring) (failure : value) : prog unit :=
  console ERROR [lit "❌ Error processing " ++ cleanFolder ++ lit ": " ++ template failure] ;;
  match failure with
  | VStr message =>
      if Str.includes message (lit "Invalid config.yaml") then process_exit 1
      else Ret tt
  | _ => Throw (type_error_call h failure (lit "includes"))
  end.

(** [syncTask] (lines 320-433). *)
Definition syncTask (folder apiToken : jsstring) : prog unit :=
  let cleanFolder := Str.strip_trailing_slash folder in
  found <- fs_existsSync (Path.join cleanFolder (lit "config.yaml")) ;;
  if negb found then
    console LOG [lit "⚠️  Skipping " ++ cleanFolder ++ lit ": No config.yaml found."]
  else
    found <- fs_existsSync (Path.join cleanFolder (lit "main.py")) ;;
    if negb found then
      console LOG [lit "⚠️  Skipping " ++ cleanFolder ++ lit ": No main.py found."]
    else
      console LOG [lit "🔧 Processing folder: " ++ cleanFolder] ;;
      console LOG [lit " 📄 Found config.yaml"] ;;
      console LOG [lit " 📄 Found main.py"] ;;
      fullPayload <- generatePayload cleanFolder ;;
      if Val.truthy (Val.get fullPayload (lit "error"))
      then payload_failed cleanFolder (Val.get fullPayload (lit "error"))
      else sync_payload cleanFolder apiToken fullPayload.

(** [main] (lines 438-456). *)
Definition main : prog unit :=
  match SA_TOKEN with
  | None =>
      console ERROR [lit "Please check environment variables."] ;;
      console ERROR [lit "Ensure SA_TOKEN is defined."] ;;
      process_exit 1
  | Some token =>
      let apiToken := sanitizeToken (Some token) in
      changedFolders <- getChangedFolders ;;
      forEach changedFolders (fun folder => syncTask folder apiToken)
  end.

(** Lines 459-464: an exception that reaches the top is fatal.  (The two
    [console.log] statements of lines 9-10, which run when the module is
    loaded and print the environment, are not part of the model.) *)
Definition script : prog unit :=
  try_catch main
    (fun error => console ERROR [lit "Fatal error:"; error] ;; process_exit 1).

End Pipe.

(** ** Reference notions *)

(** The letters of [A-Z] folded to lower case. *)
Definition lower_ascii (c : N) : N :=
  if (0x41 <=? c)%N && (c <=? 0x5A)%N then (c + 0x20)%N else c.

(** The token starts with the seven characters of [Bearer ] in some casing. *)
Definition bearer_prefix_any_case (token : jsstring) : bool :=
  Str.eqb (map lower_ascii (firstn 7 token)) (lit "bearer ").

(** The second segment of a path. *)
Definition second_segment (file : jsstring) : jsstring :=
  nth 1 (Str.split Path.slash file) [].

(** The distinct elements of a list, each at the place of its first
    occurrence. *)
Fixpoint distinct (l : list jsstring) : list jsstring :=
  match l with
  | [] => []
  | x :: rest => x :: filter (fun y => negb (Str.eqb y x)) (distinct rest)
  end.

(** Folder detection as the specification words it: of the lines of the
    listing, those under [actions/]; of each, [actions/] and its second
    segment; of these, the distinct ones in order of first appearance. *)
Definition action_folders (listing : jsstring) : list jsstring :=
  distinct
    (map (fun file => lit "actions/" ++ second_segment file)
       (filter (fun file => Str.startsWith file (lit "actions/"))
          (Str.split 0x0A%N listing))).

(** A console line with this one text is in the trace. *)
Definition logged (message : jsstring) (t : list output) : bool :=
  existsb (fun o => match o with
                    | Logged _ [m] => Str.eqb m message
                    | _ => false
                    end) t.

(** *** Runs of composed processes *)

(** The run of [p ;; k], from the run of [p]. *)
Definition and_then {A B : Type} (r : result A) (k : A -> nat -> result B) : result B :=
  match final r with
  | Returned a =>
      let r' := k a (next r) in
      mkResult (trace r ++ trace r') (final r') (next r')
  | Thrown e => mkResult (trace r) (Thrown e) (next r)
  | Exited c => mkResult (trace r) (Exited c) (next r)
  end.

(** The run of [try { p } catch (e) { k e }], from the run of [p]. *)
Definition or_catch {A : Type} (r : result A) (k : Error -> nat -> result A) : result A :=
  match final r with
  | Thrown e =>
      let r' := k e (next r) in
      mkResult (trace r ++ trace r') (final r') (next r')
  | _ => r
  end.

(** The run of [try { p } finally { q }], from the run of [p]. *)
Definition and_finally {A : Type} (r : result A) (q : nat -> result unit) : result A :=
  match final r with
  | Exited c => r
  | o =>
      let r' := q (next r) in
      mkResult (trace r ++ trace r')
        (match final r' with
         | Returned _ => o
         | Thrown e => Thrown e
         | Exited c => Exited c
         end)
        (next r')
  end.

(** ** Sample hosts and worlds *)

Module Demo.

Definition quote : jsstring := [0x22%N].

Definition config_ok : string := "description: demo
memory: 256
interpreter: '3.11'
time_limit: 300
concurrency: 1
".

Definition config_ok_value : value :=
  VObj [(lit "description", VStr (lit "demo")); (lit "memory", VNum 256%float);
        (lit "interpreter", VStr (lit "3.11")); (lit "time_limit", VNum 300%float);
        (lit "concurrency", VNum 1%float)].

(** Two of the five required keys. *)
Definition config_partial : string := "memory: 256
interpreter: '3.11'
".

Definition config_partial_value : value :=
  VObj [(lit "memory", VNum 256%float); (lit "interpreter", VStr (lit "3.11"))].

(** A flow sequence that is never closed. *)
Definition config_broken : string := "description: [demo
memory: 256
".

Definition yaml (s : jsstring) : Error + value :=
  if Str.eqb s (lit config_ok) then inr config_ok_value
  else if Str.eqb s (lit config_partial) then inr config_partial_value
  else if Str.is_empty s then inr VUndefined
  else inl (lit "unexpected end of the stream within a flow collection (3:1)").

(** [{"results":[{"id":"t1"}]}] *)
Definition body_found : jsstring :=
  lit "{" ++ quote ++ lit "results" ++ quote ++ lit ":[{" ++ quote ++ lit "id" ++ quote
  ++ lit ":" ++ quote ++ lit "t1" ++ quote ++ lit "}]}".

(** [{"results":[]}] *)
Definition body_none : jsstring :=
  lit "{" ++ quote ++ lit "results" ++ quote ++ lit ":[]}".

(** [{"id":"t2"}] *)
Definition body_created : jsstring :=
  lit "{" ++ quote ++ lit "id" ++ quote ++ lit ":" ++ quote ++ lit "t2" ++ quote ++ lit "}".

Definition body_html : jsstring := lit "<html>502 Bad Gateway</html>".

Definition json (s : jsstring) : option value :=
  if Str.eqb s body_found then
    Some (VObj [(lit "results", VArr [VObj [(lit "id", VStr (lit "t1"))]])])
  else if Str.eqb s body_none then Some (VObj [(lit "results", VArr [])])
  else if Str.eqb s body_created then Some (VObj [(lit "id", VStr (lit "t2"))])
  else None.

Definition to_string (v : value) : jsstring :=
  match v with
  | VUndefined => lit "undefined"
  | VNull => lit "null"
  | VBool true => lit "true"
  | VBool false => lit "false"
  | VStr s => s
  | _ => lit "[object Object]"
  end.

Definition host : Host :=
  {| env_SA_URL := None;
     env_SA_TOKEN := Some (lit "Bearer secret");
     env_BITBUCKET_COMMIT := None;
     VERSION := lit "1.0.0";
     yaml_load := yaml;
     JSON_parse := json;
     JSON_stringify := to_string;
     ToString := to_string;
     type_error_in := fun key v =>
       lit "Cannot use 'in' operator to search for '" ++ key ++ lit "' in " ++ to_string v;
     type_error_call := fun v name => to_string v ++ lit "." ++ name ++ lit " is not a function";
     uri_error := lit "URI malformed";
     lookup_url := fun base name => inr (base ++ lit "?name=" ++ name) |}.

Definition script_text : string := "print('héllo')
".

(** A checkout with one action folder, [actions/a]; [config] and [main] are
    the contents of its two files, when they exist. *)
Definition world (git : Command -> Error + jsstring) (config main : option string)
    (http : Request -> Error + (N * jsstring)) : World :=
  let file (content : option string) : Error + Buffer :=
    match content with
    | Some text => inr (list_byte_of_string text)
    | None => inl (lit "ENOENT: no such file or directory")
    end in
  {| w_cwd := inr (lit "/opt/atlassian/pipelines/agent/build");
     w_exists := fun path =>
       if Str.eqb path (lit "actions/a/config.yaml") then
         match config with Some _ => true | None => false end
       else if Str.eqb path (lit "actions/a/main.py") then
         match main with Some _ => true | None => false end
       else false;
     w_read := fun path =>
       if Str.eqb path (lit "actions/a/config.yaml") then file config
       else if Str.eqb path (lit "actions/a/main.py") then file main
       else file None;
     w_exec := git;
     w_http := http |}.

(** [git log] prints the given listing. *)
Definition git_lists (listing : string) (c : Command) : Error + jsstring :=
  match c with
  | GitLog _ => inr (lit listing)
  | GitSafeDirectory _ => inr []
  end.

(** The directory is not a repository. *)
Definition git_fails (c : Command) : Error + jsstring :=
  match c with
  | GitLog _ => inl (lit "Command failed: git log: fatal: not a git repository")
  | GitSafeDirectory _ => inr []
  end.

(** A server that knows the task [a] under the identifier [t1]. *)
Definition server_knows (r : Request) : Error + (N * jsstring) :=
  if Str.eqb (method r) (lit "GET") then inr (200%N, body_found)
  else inr (200%N, body_created).

(** A server that knows no task. *)
Definition server_empty (r : Request) : Error + (N * jsstring) :=
  if Str.eqb (method r) (lit "GET") then inr (200%N, body_none)
  else inr (201%N, body_created).

(** A server behind a failing proxy: every answer is an error page. *)
Definition server_down (r : Request) : Error + (N * jsstring) := inr (502%N, body_html).

(** A server that answers the lookup with an error status and a body that
    carries an identifier. *)
Definition server_error_with_id (r : Request) : Error + (N * jsstring) :=
  if Str.eqb (method r) (lit "GET") then inr (500%N, body_created)
  else inr (200%N, body_created).

(** No server at all. *)
Definition unreachable (r : Request) : Error + (N * jsstring) :=
  inl (lit "connect ECONNREFUSED 127.0.0.1:443").

(** The full payload of [actions/a] when its files are [config_ok] and
    [script_text]. *)
Definition full_payload : value :=
  VObj [(lit "name", VStr (lit "a"));
        (lit "description", VStr (lit "demo"));
        (lit "memory", VNum 256%float);
        (lit "time_limit", VNum 300%float);
        (lit "concurrency", VNum 1%float);
        (lit "config",
          VObj [(lit "description", VStr (lit "demo"));
                (lit "memory", VNum 256%float);
                (lit "interpreter", VStr (lit "3.11"));
                (lit "time_limit", VNum 300%float);
                (lit "concurrency", VNum 1%float);
                (lit "requirements", VUndefined)]);
        (lit "file", VStr (lit "print('h%C3%A9llo')%0A"))].

Definition lookup_url_a : jsstring :=
  lit "https://zimmer.superannotate.com/api/v1/custom_task?name=a".

(** The script disappears after [n] interactions. *)
Definition script_vanishes (n : nat) (w : World) : Timeline :=
  fun i =>
    if Nat.ltb i n then w
    else {| w_cwd := w_cwd w;
            w_exists := fun path =>
              if Str.eqb path (lit "actions/a/main.py") then false else w_exists w path;
            w_read := fun path =>
              if Str.eqb path (lit "actions/a/main.py")
              then inl (lit "ENOENT: no such file or directory")
              else w_read w path;
            w_exec := w_exec w;
            w_http := w_http w |}.

(** A checkout with two action folders, [actions/a] and [actions/b], both
    complete. *)
Definition two_folders (git : Command -> Error + jsstring)
    (http : Request -> Error + (N * jsstring)) : World :=
  let known (path : jsstring) : option string :=
    if Str.eqb path (lit "actions/a/config.yaml") then Some config_ok
    else if Str.eqb path (lit "actions/a/main.py") then Some script_text
    else if Str.eqb path (lit "actions/b/config.yaml") then Some config_ok
    else if Str.eqb path (lit "actions/b/main.py") then Some script_text
    else None in
  {| w_cwd := inr (lit "/opt/atlassian/pipelines/agent/build");
     w_exists := fun path => match known path with Some _ => true | None => false end;
     w_read := fun path =>
       match known path with
       | Some text => inr (list_byte_of_string text)
       | None => inl (lit "ENOENT: no such file or directory")
       end;
     w_exec := git;
     w_http := http |}.

(** A server that knows the task [b] under the identifier [t1], and no
    other. *)
Definition server_knows_b (r : Request) : Error + (N * jsstring) :=
  if Str.eqb (method r) (lit "GET") then
    if Str.includes (url r) (lit "?name=b") then inr (200%N, body_found)
    else inr (200%N, body_none)
  else if Str.eqb (method r) (lit "POST") then inr (201%N, body_created)
  else inr (200%N, body_found).

Definition listing_three : string := "actions/a/config.yaml
actions/b/main.py
other/file.txt".

End Demo.

(** A Unicode scalar value: a code point that is not a surrogate. *)
Definition scalar (cp : N) : Prop :=
  (cp < 0xD800 \/ 0xE000 <= cp <= 0x10FFFF)%N.

(** What the decoder may hold between two octets: with the octets still
    allowed, the bits read so far can only complete to a scalar value. *)
Definition pending_ok (p : Utf8.pending) : Prop :=
  (0x80 <= Utf8.lower p)%N /\ (Utf8.upper p <= 0xBF)%N /\
  match Utf8.needed p with
  | 1 => (Utf8.bits p < 0x360 \/ 0x380 <= Utf8.bits p < 0x4400)%N
  | 2 => (Utf8.bits p <> 0xD /\ Utf8.bits p < 0x110)%N
         \/ (Utf8.bits p = 0xD /\ Utf8.upper p <= 0x9F)%N
  | 3 => (Utf8.bits p <= 4)%N
         /\ (Utf8.bits p = 4%N -> (Utf8.upper p <= 0x8F)%N)
         /\ (Utf8.bits p = 0%N -> (0x90 <= Utf8.lower p)%N)
  | _ => False
  end.

Definition state_ok (st : option Utf8.pending) : Prop :=
  match st with Some p => pending_ok p | None => True end.

(** The three requests of the script, as [makeRequest] sends them. *)
Definition lookup_request (h : Host) (url apiToken : jsstring) : Request :=
  mkRequest url (lit "GET") (lookup_headers h apiToken) None.

Definition create_request (h : Host) (apiToken : jsstring) (payload : value) : Request :=
  mkRequest (SA_API_URL h) (lit "POST") (write_headers h apiToken) (written (Some payload)).

Definition patch_request (h : Host) (apiToken : jsstring) (taskId payload : value) : Request :=
  mkRequest (SA_API_URL h ++ lit "/" ++ template h taskId) (lit "PATCH")
    (write_headers h apiToken) (written (Some payload)).

(** The [data] of the response to a body: the parsed JSON, or the text. *)
Definition response_data (h : Host) (body : jsstring) : value :=
  match JSON_parse h body with
  | Some parsed => parsed
  | None => VStr body
  end.

(** The condition of the specification for the partial payload: every
    changed file is the script, and the configuration is not among them. *)
Definition every_change_is_script (changedFiles : list jsstring) : Prop :=
  (forall file, In file changedFiles -> file = lit "main.py")
  /\ ~ In (lit "config.yaml") changedFiles.

(** The required keys that a configuration lacks, in the order of
    [requiredKeys]. *)
Definition missing_keys (config : value) : list jsstring :=
  filter (fun key => match Val.has key config with Some true => false | _ => true end)
    requiredKeys.

Definition required_line (key : jsstring) : jsstring :=
  lit "'" ++ key ++ lit "' is required".

(** The message of [validateConfig] for a list of missing keys. *)
Definition invalid_config_message (folder : jsstring) (missing : list jsstring) : jsstring :=
  lit "Invalid config.yaml in " ++ folder ++ lit ":" ++ bullet
  ++ Str.join bullet (map required_line missing).

(** What the lookup makes of the answer to its request. *)
Definition lookup_result (h : Host) (answer : Error + (N * jsstring)) : value :=
  match answer with
  | inl _ => VNull
  | inr (statusCode, body) => parse_id (mkResponse statusCode (response_data h body))
  end.

(** The two places where the lookup reads an identifier. *)
Definition first_result_id (d : value) : value :=
  Val.opt (Val.opt (Val.opt d (lit "results")) (lit "0")) (lit "id").

Definition top_level_id (d : value) : value := Val.opt d (lit "id").

(** The file-only payload. *)
Definition file_only (encodedFile : jsstring) : value :=
  VObj [(lit "file", VStr encodedFile)].

(** The warning of the fall-back to the full payload. *)
Definition fallback_warning (h : Host) (failure : value) : output :=
  Logged WARN [lit "⚠️  Error generating file-only payload, using full payload: "
               ++ template h failure].

(** The value of a header of a request. *)
Definition header (name : jsstring) (r : Request) : option jsstring :=
  match find (fun kv => Str.eqb (fst kv) name) (headers r) with
  | Some kv => Some (snd kv)
  | None => None
  end.

(** The payload of lines 199-214, by the folder, the configuration loaded
    from [config.yaml] and the encoded script. *)
Definition payload_of (folder : jsstring) (config : value) (encodedFile : jsstring) : value :=
  let config := Val.set config (lit "interpreter") (Val.get config (lit "interpreter")) in
  let config := Val.set config (lit "requirements") (Val.get config (lit "requirements")) in
  VObj [(lit "name", VStr (Path.basename folder));
        (lit "description", Val.get config (lit "description"));
        (lit "memory", Val.get config (lit "memory"));
        (lit "time_limit", Val.get config (lit "time_limit"));
        (lit "concurrency", Val.get config (lit "concurrency"));
        (lit "config", config);
        (lit "file", VStr encodedFile)].

(** The five headers that go with every request of the script. *)
Definition script_headers (h : Host) (apiToken : jsstring) (r : Request) : Prop :=
  header (lit "Authorization") r = Some apiToken
  /\ header (lit "Auth-Type") r = Some (lit "sdk")
  /\ header (lit "Referer") r = Some (lit "https://app.superannotate.com/")
  /\ header (lit "Content-Type") r = Some (lit "application/json")
  /\ header (lit "User-Agent") r = Some (lit "Bitbucket Pipeline: " ++ VERSION h)
  /\ List.length (headers r) = 5.

(** The console line that follows a create request: the error of the
    transport, or the verdict on the status of the answer. *)
Definition create_verdict (h : Host) (taskName : jsstring)
    (answer : Error + (N * jsstring)) : output :=
  match answer with
  | inl error => Logged ERROR [lit "❌ Error syncing task " ++ taskName ++ lit ":"; error]
  | inr (statusCode, body) =>
      if (200 <=? statusCode)%N && (statusCode <? 300)%N then
        Logged LOG [lit "✔ Created successfully ("
                    ++ template h (Val.opt (response_data h body) (lit "id")) ++ lit ")"]
      else
        Logged ERROR [lit "❌ Failed to create task: "
                      ++ JSON_stringify h (response_data h body)]
  end.

(** The console line that follows an update request. *)
Definition update_verdict (h : Host) (taskName : jsstring)
    (answer : Error + (N * jsstring)) : output :=
  match answer with
  | inl error => Logged ERROR [lit "❌ Error syncing task " ++ taskName ++ lit ":"; error]
  | inr (statusCode, body) =>
      if (200 <=? statusCode)%N && (statusCode <? 300)%N then
        Logged LOG [lit "✔ Update successful"]
      else
        Logged ERROR [lit "❌ Failed to update task: "
                      ++ JSON_stringify h (response_data h body)]
  end.

(** ** More sample hosts and worlds *)

Module Sample.

(** The host of [Demo] with another token and another [URL] class. *)
Definition host_with (token : option jsstring)
    (lookup : jsstring -> jsstring -> Error + jsstring) : Host :=
  {| env_SA_URL := env_SA_URL Demo.host;
     env_SA_TOKEN := token;
     env_BITBUCKET_COMMIT := env_BITBUCKET_COMMIT Demo.host;
     VERSION := VERSION Demo.host;
     yaml_load := yaml_load Demo.host;
     JSON_parse := JSON_parse Demo.host;
     JSON_stringify := JSON_stringify Demo.host;
     ToString := ToString Demo.host;
     type_error_in := type_error_in Demo.host;
     type_error_call := type_error_call Demo.host;
     uri_error := uri_error Demo.host;
     lookup_url := lookup |}.

(** No token in the environment. *)
Definition host_without_token : Host := host_with None (lookup_url Demo.host).

(** [SA_URL] is not a URL. *)
Definition host_bad_url : Host :=
  {| env_SA_URL := Some (lit "zimmer");
     env_SA_TOKEN := env_SA_TOKEN Demo.host;
     env_BITBUCKET_COMMIT := env_BITBUCKET_COMMIT Demo.host;
     VERSION := VERSION Demo.host;
     yaml_load := yaml_load Demo.host;
     JSON_parse := JSON_parse Demo.host;
     JSON_stringify := JSON_stringify Demo.host;
     ToString := ToString Demo.host;
     type_error_in := type_error_in Demo.host;
     type_error_call := type_error_call Demo.host;
     uri_error := uri_error Demo.host;
     lookup_url := fun base name => inl (lit "Invalid URL") |}.

(** The checkout of [Demo.world] with both files of [actions/a]. *)
Definition checkout (git : Command -> Error + jsstring)
    (http : Request -> Error + (N * jsstring)) : World :=
  Demo.world git (Some Demo.config_ok) (Some Demo.script_text) http.

(** A checkout in which every file is there, and only the configuration of
    [actions/a] can be read. *)
Definition locked_script : World :=
  {| w_cwd := inr (lit "/opt/atlassian/pipelines/agent/build");
     w_exists := fun _ => true;
     w_read := fun path =>
       if Str.eqb path (lit "actions/a/config.yaml")
       then inr (list_byte_of_string Demo.config_ok)
       else inl (lit "EACCES: permission denied");
     w_exec := Demo.git_lists "actions/a/main.py";
     w_http := Demo.unreachable |}.

(** The directory of the pipe's module, with its [version.txt]. *)
Definition pipe_module : World :=
  {| w_cwd := inr (lit "/opt/atlassian/pipelines/agent/build");
     w_exists := fun _ => true;
     w_read := fun path =>
       if Str.eqb path (lit "/usr/src/pipe/version.txt")
       then inr (list_byte_of_string "1.4.2
")
       else inl (lit "ENOENT: no such file or directory");
     w_exec := fun _ => inr [];
     w_http := Demo.unreachable |}.

End Sample.

(** * Properties *)

Unset Implicit Arguments.

(** ** The model on small inputs *)

Example sanitize_ex1 : sanitizeToken (Some (lit "Bearer abc def ")) = lit "abcdef".
Proof. vm_compute. reflexivity. Qed.

Example lit_ex1 : lit "⚠ x" = [0x26A0; 0x20; 0x78]%N.
Proof. vm_compute. reflexivity. Qed.

Example lit_ex2 : lit "🔧" = [0xD83D; 0xDD27]%N.
Proof. vm_compute. reflexivity. Qed.

Example join_ex1 : Path.join (lit "actions/a") (lit "config.yaml") = lit "actions/a/config.yaml".
Proof. vm_compute. reflexivity. Qed.

Example join_ex2 : Path.join (lit "actions/a/../b/") (lit "./main.py") = lit "actions/b/main.py".
Proof. vm_compute. reflexivity. Qed.

Example basename_ex1 : Path.basename (lit "actions/my_task") = lit "my_task".
Proof. vm_compute. reflexivity. Qed.

Example encode_ex1 :
  Uri.encodeURIComponent (lit "print('é')" ++ [0x0A; 0x22; 0xD83D; 0xDD27]%N)
  = Some (lit "print('%C3%A9')%0A%22%F0%9F%94%A7").
Proof. vm_compute. reflexivity. Qed.

Example decode_ex1 :
  Uri.decodeURIComponent (lit "print('%C3%A9')%0A%22%F0%9F%94%A7")
  = Some (lit "print('é')" ++ [0x0A; 0x22; 0xD83D; 0xDD27]%N).
Proof. vm_compute. reflexivity. Qed.

Example encode_ex2 : Uri.encodeURIComponent [0xD83D%N; 0x41%N] = None.
Proof. vm_compute. reflexivity. Qed.

(** Overlong forms, encoded surrogates, truncated sequences, stray
    continuation octets and malformed escapes are all refused. *)
Example decode_ex2 :
  map Uri.decodeURIComponent
    [lit "%C0%80"; lit "%ED%A0%80"; lit "%E4%B8"; lit "%F4%90%80%80"; lit "%80";
     lit "%zz"; lit "%4"; lit "%E4%B8x%AD"]
  = [None; None; None; None; None; None; None; None].
Proof. vm_compute. reflexivity. Qed.

Example decode_ex3 : Uri.decodeURIComponent (lit "a%2fb%E4%b8%AD") = Some (lit "a/b中").
Proof. vm_compute. reflexivity. Qed.

Example toString_ex1 :
  Utf8.toString ["226"; "130"; "172"; "237"; "160"; "128"; "240"; "159"]%byte
  = [0x20AC; 0xFFFD; 0xFFFD; 0xFFFD; 0xFFFD]%N.
Proof. vm_compute. reflexivity. Qed.

Example join_ex3 :
  map (fun p => Path.join (fst p) (snd p))
    [(lit "actions/a/", lit "config.yaml"); ([], lit "x"); (lit "a", lit "..");
     (lit "/a/../..", lit "b"); (lit "..", lit "a"); (lit "a/", lit "../")]
  = [lit "actions/a/config.yaml"; lit "x"; lit "."; lit "/b"; lit "../a"; lit "./"].
Proof. vm_compute. reflexivity. Qed.

Example split_ex1 :
  Str.split 0x2F%N (lit "actions/a/main.py") = [lit "actions"; lit "a"; lit "main.py"]
  /\ Str.split 0x2F%N [] = [[]]
  /\ Str.split 0x2F%N (lit "actions/") = [lit "actions"; []].
Proof. vm_compute. split; [|split]; reflexivity. Qed.

Example files_in_folder_ex1 :
  files_in_folder (lit "actions/a/")
    (lit "actions/a/main.py
actions/a/lib/util.py
actions/ab/main.py

other/actions/a/main.py")
  = [lit "main.py"; lit "lib/util.py"].
Proof. vm_compute. reflexivity. Qed.


(** ** Strings *)

Opaque lit.

Module StrFacts.

Lemma eqb_refl (a : jsstring) : Str.eqb a a = true.
Proof.
  induction a as [|x a IH]; simpl; [reflexivity|].
  now rewrite N.eqb_refl, IH.
Qed.

Lemma eqb_eq (a b : jsstring) : Str.eqb a b = true <-> a = b.
Proof.
  split; [|intros ->; apply eqb_refl].
  revert b; induction a as [|x a IH]; intros [|y b]; simpl; try discriminate; auto.
  intros H. apply andb_true_iff in H as [Hx Hab].
  apply N.eqb_eq in Hx. apply IH in Hab. congruence.
Qed.

Lemma eqb_neq (a b : jsstring) : Str.eqb a b = false <-> a <> b.
Proof.
  split.
  - intros H E. apply eqb_eq in E. congruence.
  - intros H. destruct (Str.eqb a b) eqn:E; [|reflexivity].
    apply eqb_eq in E. contradiction.
Qed.

Lemma eqb_sym (a b : jsstring) : Str.eqb a b = Str.eqb b a.
Proof.
  destruct (Str.eqb a b) eqn:E.
  - apply eqb_eq in E. subst. symmetry. apply eqb_refl.
  - symmetry. apply eqb_neq. apply eqb_neq in E. congruence.
Qed.

Lemma strip_prefix_app (p s : jsstring) : Str.strip_prefix p (p ++ s) = Some s.
Proof.
  induction p as [|x p IH]; simpl; [reflexivity|].
  now rewrite N.eqb_refl.
Qed.

Lemma strip_prefix_inv (p s rest : jsstring) :
  Str.strip_prefix p s = Some rest -> s = p ++ rest.
Proof.
  revert s; induction p as [|x p IH]; intros s; simpl.
  - now intros [= ->].
  - destruct s as [|y s]; [discriminate|].
    destruct (x =? y)%N eqn:E; [|discriminate].
    apply N.eqb_eq in E. subst y. intros H. apply IH in H. now subst.
Qed.

Lemma startsWith_app (p s : jsstring) : Str.startsWith (p ++ s) p = true.
Proof. unfold Str.startsWith. now rewrite strip_prefix_app. Qed.

Lemma startsWith_inv (p s : jsstring) :
  Str.startsWith s p = true -> exists rest, s = p ++ rest.
Proof.
  unfold Str.startsWith. destruct (Str.strip_prefix p s) as [rest|] eqn:E; [|discriminate].
  intros _. exists rest. now apply strip_prefix_inv.
Qed.

Lemma includes_app (p s : jsstring) : Str.includes (p ++ s) p = true.
Proof.
  destruct (p ++ s) eqn:E; simpl; rewrite <- E, startsWith_app; reflexivity.
Qed.

(** A prefix, then the pattern: [includes] finds it. *)
Lemma includes_skip (a p s : jsstring) : Str.includes (a ++ p ++ s) p = true.
Proof.
  induction a as [|x a IH]; simpl.
  - apply includes_app.
  - rewrite IH. apply orb_true_r.
Qed.

Lemma remove_spaces_drop_spaces (s : jsstring) :
  Str.remove_spaces (Str.drop_spaces s) = Str.remove_spaces s.
Proof.
  induction s as [|c s IH]; simpl; [reflexivity|].
  destruct (Str.is_space c) eqn:E; simpl; [exact IH|].
  now rewrite E.
Qed.

Lemma remove_spaces_no_space (s : jsstring) (c : N) :
  In c (Str.remove_spaces s) -> Str.is_space c = false.
Proof.
  unfold Str.remove_spaces. intros H. apply filter_In in H as [_ H].
  now apply negb_true_iff in H.
Qed.

Lemma remove_spaces_fixed (s : jsstring) :
  (forall c, In c s -> Str.is_space c = false) -> Str.remove_spaces s = s.
Proof.
  induction s as [|c s IH]; simpl; intros H; [reflexivity|].
  rewrite (H c (or_introl eq_refl)). simpl. f_equal. apply IH. intros d Hd. apply H. now right.
Qed.

End StrFacts.

(** ** Token sanitizer *)

(** Without white space, there is no prefix to remove. *)
Lemma strip_bearer_no_space (t : jsstring) :
  (forall c, In c t -> Str.is_space c = false) -> strip_bearer t = t.
Proof.
  intros H. destruct t as [|c t]; [reflexivity|]. unfold strip_bearer.
  destruct ((c =? 0x42)%N || (c =? 0x62)%N); [|reflexivity].
  destruct (Str.strip_prefix (lit "earer") t) as [[|w t']|] eqn:E; try reflexivity.
  apply StrFacts.strip_prefix_inv in E.
  rewrite (H w); [reflexivity|].
  right. rewrite E. apply in_or_app. right. now left.
Qed.

Lemma sanitizeToken_no_space (token : option jsstring) (c : N) :
  In c (sanitizeToken token) -> Str.is_space c = false.
Proof.
  destruct token as [t|]; simpl; [|contradiction].
  destruct (Str.is_empty t); [contradiction|].
  apply StrFacts.remove_spaces_no_space.
Qed.

(** C4, as stated, fails: the prefix [BEARER ] is a casing of [Bearer ], yet
    its letters stay in the result; only the white space goes. *)
Lemma sanitizeToken_upper_case_prefix_kept :
  bearer_prefix_any_case (lit "BEARER abc") = true
  /\ sanitizeToken (Some (lit "BEARER abc")) = lit "BEARERabc"
  /\ sanitizeToken (Some (lit "BEARER abc")) <> Str.remove_spaces (skipn 7 (lit "BEARER abc")).
Proof.
  split; [vm_compute; reflexivity|].
  split; [vm_compute; reflexivity|].
  vm_compute. discriminate.
Qed.

(** C4 (amended): a token that starts with [Bearer] or [bearer] (first letter
    of either case, the others in lower case) followed by at least one
    white-space character is returned without that prefix and without any
    white space; an absent token gives the empty string; sanitizing twice is
    sanitizing once. *)
Theorem sanitizeToken_spec :
  (forall (c w : N) (rest : jsstring),
      c = 0x42%N \/ c = 0x62%N ->
      Str.is_space w = true ->
      sanitizeToken (Some (c :: lit "earer" ++ w :: rest)) = Str.remove_spaces rest)
  /\ sanitizeToken None = []
  /\ (forall token : option jsstring,
         sanitizeToken (Some (sanitizeToken token)) = sanitizeToken token).
Proof.
  split; [|split].
  - intros c w rest Hc Hw. unfold sanitizeToken. simpl Str.is_empty. cbv iota.
    unfold strip_bearer.
    assert (Hb : ((c =? 0x42)%N || (c =? 0x62)%N) = true).
    { destruct Hc as [-> | ->]; reflexivity. }
    rewrite Hb, StrFacts.strip_prefix_app, Hw.
    apply StrFacts.remove_spaces_drop_spaces.
  - reflexivity.
  - intros token.
    pose proof (sanitizeToken_no_space token) as Hns.
    remember (sanitizeToken token) as r eqn:Hr. clear Hr.
    simpl. destruct r as [|c r]; [reflexivity|]. simpl Str.is_empty. cbv iota.
    rewrite (strip_bearer_no_space _ Hns).
    now apply StrFacts.remove_spaces_fixed.
Qed.

Lemma sanitizeToken_spec_witness :
  sanitizeToken (Some (lit "bearer" ++ [0x09%N] ++ lit " a b" ++ [0x0A%N])) = lit "ab".
Proof.
  apply (proj1 sanitizeToken_spec 0x62%N 0x09%N (lit " a b" ++ [0x0A%N])).
  - right; reflexivity.
  - reflexivity.
Defined.

(** ** Folder detection *)

Lemma filter_filter_andb {A : Type} (f g : A -> bool) (l : list A) :
  filter f (filter g l) = filter (fun x => g x && f x) l.
Proof.
  induction l as [|x l IH]; simpl; [reflexivity|].
  destruct (g x); simpl; [destruct (f x)|]; now rewrite IH.
Qed.

Lemma distinct_In (l : list jsstring) (x : jsstring) : In x (distinct l) <-> In x l.
Proof.
  induction l as [|y l IH]; cbn [distinct In]; [tauto|].
  rewrite filter_In, IH. split.
  - intros [H | [H _]]; auto.
  - intros [H | H]; auto.
    destruct (Str.eqb x y) eqn:E.
    + apply StrFacts.eqb_eq in E. auto.
    + right. auto.
Qed.

Lemma distinct_NoDup (l : list jsstring) : NoDup (distinct l).
Proof.
  induction l as [|y l IH]; cbn [distinct]; constructor.
  - rewrite filter_In. intros [_ H]. cbv beta in H. now rewrite StrFacts.eqb_refl in H.
  - now apply NoDup_filter.
Qed.

Lemma split_not_nil (sep : N) (s : jsstring) : Str.split sep s <> [].
Proof.
  destruct s as [|c s]; simpl; [discriminate|].
  destruct (c =? sep)%N; [discriminate|].
  destruct (Str.split sep s); discriminate.
Qed.

(** A path under [actions/] has at least two segments. *)
Lemma actions_two_segments (file : jsstring) :
  Str.startsWith file (lit "actions/") = true ->
  Nat.leb 2 (List.length (Str.split Path.slash file)) = true.
Proof.
  intros H. apply StrFacts.startsWith_inv in H as [rest ->].
  pose proof (split_not_nil Path.slash rest) as Hne.
  let v := eval vm_compute in (lit "actions/") in change (lit "actions/") with v.
  cbn. destruct (Str.split Path.slash rest); [contradiction|reflexivity].
Qed.

Lemma add_folder_under (folders : list jsstring) (file : jsstring) :
  Str.startsWith file (lit "actions/") = true ->
  add_folder folders file = set_add (lit "actions/" ++ second_segment file) folders.
Proof.
  intros H. unfold add_folder. now rewrite H, (actions_two_segments _ H).
Qed.

Lemma add_folder_other (folders : list jsstring) (file : jsstring) :
  Str.startsWith file (lit "actions/") = false -> add_folder folders file = folders.
Proof. intros H. unfold add_folder. now rewrite H. Qed.

(** The [Set] filled by the loop, with what it held before the loop. *)
Lemma fold_add_folder (files folders : list jsstring) :
  fold_left add_folder files folders
  = folders
      ++ filter (fun x => negb (existsb (Str.eqb x) folders))
           (distinct
              (map (fun file => lit "actions/" ++ second_segment file)
                 (filter (fun file => Str.startsWith file (lit "actions/")) files))).
Proof.
  revert folders; induction files as [|file files IH]; intros folders;
    cbn [fold_left filter map distinct].
  - now rewrite app_nil_r.
  - destruct (Str.startsWith file (lit "actions/")) eqn:Hs.
    + rewrite (add_folder_under _ _ Hs), IH. cbn [map distinct filter]. unfold set_add.
      set (x := lit "actions/" ++ second_segment file).
      destruct (existsb (Str.eqb x) folders) eqn:Hx; cbn [negb].
      * f_equal. rewrite filter_filter_andb. apply filter_ext_in. intros y _.
        destruct (Str.eqb y x) eqn:E; cbn [negb andb]; [|reflexivity].
        apply StrFacts.eqb_eq in E. subst y. now rewrite Hx.
      * rewrite <- app_assoc. cbn [app]. do 2 f_equal.
        rewrite filter_filter_andb. apply filter_ext_in. intros y _.
        rewrite existsb_app. cbn [existsb]. rewrite orb_false_r, negb_orb.
        apply andb_comm.
    + rewrite (add_folder_other _ _ Hs). apply IH.
Qed.

Lemma changed_folders_spec (listing : jsstring) :
  changed_folders listing = action_folders listing.
Proof.
  unfold changed_folders, action_folders, newline. rewrite fold_add_folder.
  cbn [app existsb negb].
  induction (distinct _) as [|x l IH]; cbn [filter]; [reflexivity|]. now rewrite IH.
Qed.

(** ** Runs of composed processes *)

Lemma result_eta {R : Type} (r : result R) : mkResult (trace r) (final r) (next r) = r.
Proof. now destruct r. Qed.

Lemma and_then_emit {A B : Type} (o : output) (r : result A) (k : A -> nat -> result B) :
  and_then (emit o r) k = emit o (and_then r k).
Proof. unfold and_then. cbn [emit final trace next]. destruct (final r); reflexivity. Qed.

Lemma run_bind {A B : Type} (tl : Timeline) (p : prog A) (f : A -> prog B) (i : nat) :
  run tl i (bind p f) = and_then (run tl i p) (fun a j => run tl j (f a)).
Proof.
  revert i; induction p as [r|e|c|k IH|path k IH|path k IH|c k IH|r k IH|lvl args k IH];
    intros i; cbn [bind run]; auto.
  - unfold and_then. cbn. now rewrite result_eta.
  - now rewrite IH, and_then_emit.
  - now rewrite IH, and_then_emit.
Qed.

Lemma or_catch_emit {A : Type} (o : output) (r : result A) (k : Error -> nat -> result A) :
  or_catch (emit o r) k = emit o (or_catch r k).
Proof. unfold or_catch. cbn [emit final trace next]. destruct (final r); reflexivity. Qed.

Lemma run_try_catch {A : Type} (tl : Timeline) (p : prog A) (f : Error -> prog A) (i : nat) :
  run tl i (try_catch p f) = or_catch (run tl i p) (fun e j => run tl j (f e)).
Proof.
  revert i; induction p as [r|e|c|k IH|path k IH|path k IH|c k IH|r k IH|lvl args k IH];
    intros i; cbn [try_catch run]; auto.
  - unfold or_catch. cbn. now rewrite result_eta.
  - now rewrite IH, or_catch_emit.
  - now rewrite IH, or_catch_emit.
Qed.

Lemma and_finally_emit {A : Type} (o : output) (r : result A) (q : nat -> result unit) :
  and_finally (emit o r) q = emit o (and_finally r q).
Proof. unfold and_finally. cbn [emit final trace next]. destruct (final r); reflexivity. Qed.

Lemma run_finally {A : Type} (tl : Timeline) (p : prog A) (q : prog unit) (i : nat) :
  run tl i (finally p q) = and_finally (run tl i p) (fun j => run tl j q).
Proof.
  revert i; induction p as [r|e|c|k IH|path k IH|path k IH|c k IH|r k IH|lvl args k IH];
    intros i; cbn [finally run]; auto.
  - rewrite run_bind. unfold and_then, and_finally. cbn.
    destruct (final (run tl i q)); rewrite ?app_nil_r; reflexivity.
  - rewrite run_bind. unfold and_then, and_finally. cbn.
    destruct (final (run tl i q)); rewrite ?app_nil_r; reflexivity.
  - now rewrite IH, and_finally_emit.
  - now rewrite IH, and_finally_emit.
Qed.

(** [process.exit] ends the loop over the folders: what follows does not run. *)
Lemma run_forEach_exit {A : Type} (tl : Timeline) (f : A -> prog unit) (x : A)
    (rest : list A) (i : nat) (code : Z) :
  final (run tl i (f x)) = Exited code ->
  run tl i (forEach (x :: rest) f) = run tl i (f x).
Proof.
  intros H. cbn [forEach]. rewrite run_bind. unfold and_then. rewrite H.
  rewrite <- H. apply result_eta.
Qed.

(** The folders of a listing, without reference to [distinct]: no folder
    twice, and exactly the folders of the listed paths under [actions/]. *)
Lemma action_folders_characterised (listing folder : jsstring) :
  NoDup (action_folders listing)
  /\ (In folder (action_folders listing)
      <-> exists file,
            In file (Str.split 0x0A%N listing)
            /\ Str.startsWith file (lit "actions/") = true
            /\ folder = lit "actions/" ++ second_segment file).
Proof.
  unfold action_folders. split; [apply distinct_NoDup|].
  rewrite distinct_In, in_map_iff. split.
  - intros (file & <- & Hin). apply filter_In in Hin as [Hin Hs]. eauto.
  - intros (file & Hin & Hs & ->). exists file. split; [reflexivity|].
    apply filter_In. auto.
Qed.

(** C5: for every listing of changed files that [git log] prints, folder
    detection returns [actions/<child>] for the second segment [<child>] of
    every listed path under [actions/], each once, in order of first
    appearance (and nothing else: no console line, no request). *)
Theorem getChangedFolders_spec (h : Host) (w : World) (i : nat) (cwd listing : jsstring) :
  w_cwd w = inr cwd ->
  w_exec w (GitLog (BITBUCKET_COMMIT h)) = inr listing ->
  run (still w) i (getChangedFolders h)
  = mkResult [] (Returned (action_folders listing)) (3 + i).
Proof.
  intros Hcwd Hlog.
  unfold getChangedFolders, trust_cwd, process_cwd, execSync, still.
  cbn. rewrite Hcwd. cbn.
  destruct (w_exec w (GitSafeDirectory cwd)); cbn; rewrite Hlog; cbn;
    now rewrite changed_folders_spec.
Qed.

Lemma getChangedFolders_spec_witness :
  final (run (still (Demo.world (Demo.git_lists Demo.listing_three) None None Demo.server_empty)) 0
           (getChangedFolders Demo.host))
  = Returned [lit "actions/a"; lit "actions/b"].
Proof.
  rewrite (getChangedFolders_spec Demo.host
             (Demo.world (Demo.git_lists Demo.listing_three) None None Demo.server_empty) 0
             (lit "/opt/atlassian/pipelines/agent/build") (lit Demo.listing_three)
             eq_refl eq_refl).
  vm_compute. reflexivity.
Defined.

(** ** Percent-encoding *)

Lemma hex_value_hex_digit (n : N) : (n < 16)%N -> Uri.hex_value (Uri.hex_digit n) = Some n.
Proof.
  intros H. unfold Uri.hex_digit, Uri.hex_value.
  destruct (n <? 10)%N eqn:E.
  - replace ((48 <=? 48 + n)%N && (48 + n <=? 57)%N) with true by lia.
    f_equal. lia.
  - replace ((48 <=? 65 + (n - 10))%N && (65 + (n - 10) <=? 57)%N) with false by lia.
    replace ((65 <=? 65 + (n - 10))%N && (65 + (n - 10) <=? 70)%N) with true by lia.
    f_equal. lia.
Qed.

Lemma octet_percent (b : N) (rest : jsstring) :
  (b < 256)%N -> Uri.octet (Uri.percent b ++ rest) = Some (b, rest).
Proof.
  intros H. unfold Uri.percent, Uri.octet. cbn [app]. rewrite N.eqb_refl.
  rewrite (hex_value_hex_digit (b / 16)) by lia.
  rewrite (hex_value_hex_digit (b mod 16)) by lia.
  now replace (16 * (b / 16) + b mod 16)%N with b by lia.
Qed.

Lemma octets_escape (bs : list N) (rest : jsstring) :
  Forall (fun b => (b < 256)%N) bs ->
  Uri.octets (List.length bs) (flat_map Uri.percent bs ++ rest) = Some (bs, rest).
Proof.
  induction 1 as [|b bs Hb _ IH]; cbn [List.length flat_map Uri.octets]; [reflexivity|].
  rewrite <- app_assoc, octet_percent by exact Hb. now rewrite IH.
Qed.

Lemma utf8_octets_ascii (cp : N) : (cp < 0x80)%N -> Uri.utf8_octets cp = [cp].
Proof. intros H. unfold Uri.utf8_octets. now replace (cp <? 128)%N with true by lia. Qed.

(** The UTF-8 form of a scalar value above U+007F: its octets, their number
    announced by the first one, and the code point read back from them. *)
Lemma utf8_octets_multi (cp : N) :
  scalar cp -> (0x80 <= cp)%N ->
  exists b bs,
    Uri.utf8_octets cp = b :: bs
    /\ Forall (fun x => (x < 256)%N) (b :: bs)
    /\ Uri.leading_ones b = S (List.length bs)
    /\ Nat.ltb 3 (List.length bs) = false
    /\ bs <> []
    /\ Uri.utf8_code_point (b :: bs) = Some cp.
Proof.
  intros Hs Hlo. unfold scalar in Hs. unfold Uri.utf8_octets.
  replace (cp <? 128)%N with false by lia.
  destruct (cp <? 0x800)%N eqn:E2; [|destruct (cp <? 0x10000)%N eqn:E3];
    eexists; eexists; (split; [reflexivity|]);
    (split; [repeat (apply Forall_cons; [lia|]); apply Forall_nil|]);
    (split; [unfold Uri.leading_ones;
             repeat match goal with
                    | |- context [(?a <? ?b)%N] =>
                        first [ replace (a <? b)%N with true by lia
                              | replace (a <? b)%N with false by lia ]
                    end; reflexivity|]);
    (split; [reflexivity|]); (split; [discriminate|]);
    unfold Uri.utf8_code_point, Uri.continuation;
    match goal with
    | |- (if _ then Some ?v else None) = _ => replace v with cp by lia
    end;
    match goal with
    | |- (if ?c then _ else None) = _ => replace c with true by lia
    end; reflexivity.
Qed.

Lemma utf16_encode_bmp (c : N) : (c < 0x10000)%N -> Utf8.utf16_encode c = [c].
Proof. intros H. unfold Utf8.utf16_encode. now replace (c <? 65536)%N with true by lia. Qed.

Lemma pair_code_point_range (hi lo : N) :
  Uri.is_high hi = true -> Uri.is_low lo = true ->
  (0x10000 <= Uri.pair_code_point hi lo <= 0x10FFFF)%N.
Proof. unfold Uri.is_high, Uri.is_low, Uri.pair_code_point. lia. Qed.

Lemma utf16_encode_pair (hi lo : N) :
  Uri.is_high hi = true -> Uri.is_low lo = true ->
  Utf8.utf16_encode (Uri.pair_code_point hi lo) = [hi; lo].
Proof.
  intros Hh Hl. pose proof (pair_code_point_range hi lo Hh Hl) as R.
  unfold Utf8.utf16_encode. replace (_ <? _)%N with false by lia.
  unfold Uri.is_high, Uri.is_low, Uri.pair_code_point in *. f_equal; [|f_equal]; lia.
Qed.

(** One iteration of the decoding loop undoes the escape of one code point. *)
Lemma Decode_escape (cp : N) (fuel : nat) (rest : jsstring) :
  scalar cp ->
  Uri.Decode (S fuel) (Uri.escape cp ++ rest)
  = option_map (app (Utf8.utf16_encode cp)) (Uri.Decode fuel rest).
Proof.
  intros Hs. unfold Uri.escape. destruct (cp <? 0x80)%N eqn:E.
  - assert (Hlt : (cp < 0x80)%N) by lia.
    rewrite (utf8_octets_ascii cp Hlt). cbn [flat_map]. rewrite app_nil_r.
    assert (Ho := octet_percent cp rest ltac:(lia)).
    rewrite utf16_encode_bmp by lia.
    change (Uri.percent cp ++ rest) with (0x25%N :: (tl (Uri.percent cp) ++ rest)) in *.
    cbn [Uri.Decode]. rewrite N.eqb_refl, Ho.
    unfold Uri.leading_ones. replace (cp <? 128)%N with true by lia. reflexivity.
  - destruct (utf8_octets_multi cp Hs ltac:(lia)) as (b & bs & -> & Hall & Hn & Hle & Hne & Hv).
    cbn [flat_map]. rewrite <- app_assoc.
    inversion Hall as [|? ? Hb Hbs]; subst.
    assert (Ho := octet_percent b (flat_map Uri.percent bs ++ rest) Hb).
    change (Uri.percent b ++ flat_map Uri.percent bs ++ rest)
      with (0x25%N :: (tl (Uri.percent b) ++ flat_map Uri.percent bs ++ rest)) in *.
    cbn [Uri.Decode]. rewrite N.eqb_refl, Ho, Hn.
    destruct bs as [|b2 bs]; [contradiction|].
    cbn [List.length]. cbn [List.length] in Hle. rewrite Hle.
    change (S (List.length bs)) with (List.length (b2 :: bs)).
    rewrite (octets_escape (b2 :: bs) rest Hbs), Hv. reflexivity.
Qed.

Lemma Decode_unescaped (c : N) (fuel : nat) (rest : jsstring) :
  Uri.unescaped c = true ->
  Uri.Decode (S fuel) (c :: rest) = option_map (cons c) (Uri.Decode fuel rest).
Proof.
  intros H. cbn [Uri.Decode].
  destruct (c =? 0x25)%N eqn:E; [|reflexivity].
  apply N.eqb_eq in E. subst c. discriminate H.
Qed.

Lemma escape_not_nil (cp : N) : Uri.escape cp <> [].
Proof.
  unfold Uri.escape, Uri.utf8_octets.
  destruct (cp <? 0x80)%N; [|destruct (cp <? 0x800)%N; [|destruct (cp <? 0x10000)%N]];
    discriminate.
Qed.

Lemma length_app_escape (cp : N) (e : jsstring) (fuel : nat) :
  (List.length (Uri.escape cp ++ e) <= S fuel)%nat -> (List.length e <= fuel)%nat.
Proof.
  rewrite length_app. pose proof (escape_not_nil cp) as H.
  destruct (Uri.escape cp); [contradiction|]. cbn [List.length]. lia.
Qed.

(** Encoding succeeds on a well-formed string, and decoding gives it back,
    whatever the fuel above the length of the encoded text. *)
Lemma encode_then_Decode (n : nat) :
  forall s : jsstring,
    (List.length s <= n)%nat ->
    Uri.well_formed s = true ->
    exists e,
      Uri.encodeURIComponent s = Some e
      /\ forall fuel, (List.length e <= fuel)%nat -> Uri.Decode fuel e = Some s.
Proof.
  induction n as [|n IH]; intros s Hn Hwf.
  - destruct s; [|cbn in Hn; lia]. exists []. split; [reflexivity|]. now intros [|fuel].
  - destruct s as [|c s]; [exists []; split; [reflexivity|]; now intros [|fuel] |].
    cbn [List.length] in Hn. cbn [Uri.well_formed] in Hwf. cbn [Uri.encodeURIComponent].
    destruct (Uri.unescaped c) eqn:Hu.
    + assert (Hc : Uri.is_high c = false).
      { unfold Uri.unescaped, Uri.is_high in *. cbn [existsb] in Hu. lia. }
      rewrite Hc in Hwf. apply andb_true_iff in Hwf as [_ Hwf].
      destruct (IH s ltac:(lia) Hwf) as (e & -> & Hd).
      exists (c :: e). split; [reflexivity|]. intros [|fuel] Hf; [cbn in Hf; lia|].
      rewrite (Decode_unescaped c fuel e Hu), Hd by (cbn in Hf; lia). reflexivity.
    + destruct (Uri.is_high c) eqn:Hh.
      * destruct s as [|d s]; [discriminate|].
        apply andb_true_iff in Hwf as [Hl Hwf]. rewrite Hl.
        cbn [List.length] in Hn.
        destruct (IH s ltac:(lia) Hwf) as (e & -> & Hd).
        eexists. split; [reflexivity|]. intros [|fuel] Hf.
        { exfalso. revert Hf. rewrite length_app.
          match goal with
          | |- context [Uri.escape ?x] =>
              pose proof (escape_not_nil x); destruct (Uri.escape x)
          end; [contradiction|cbn [List.length]; lia]. }
        rewrite Decode_escape, Hd.
        -- cbn [option_map]. now rewrite (utf16_encode_pair c d Hh Hl).
        -- now apply length_app_escape in Hf.
        -- pose proof (pair_code_point_range c d Hh Hl). unfold scalar. lia.
      * apply andb_true_iff in Hwf as [Hwf' Hwf].
        apply andb_true_iff in Hwf' as [Hnl Hc].
        apply negb_true_iff in Hnl. rewrite Hnl.
        destruct (IH s ltac:(lia) Hwf) as (e & -> & Hd).
        eexists. split; [reflexivity|]. intros [|fuel] Hf.
        { exfalso. revert Hf. rewrite length_app.
          match goal with
          | |- context [Uri.escape ?x] =>
              pose proof (escape_not_nil x); destruct (Uri.escape x)
          end; [contradiction|cbn [List.length]; lia]. }
        rewrite Decode_escape, Hd.
        -- cbn [option_map]. rewrite utf16_encode_bmp by lia. reflexivity.
        -- now apply length_app_escape in Hf.
        -- unfold scalar, Uri.is_high, Uri.is_low in *. lia.
Qed.

Lemma encodeURIComponent_roundtrip (s : jsstring) :
  Uri.well_formed s = true ->
  exists e, Uri.encodeURIComponent s = Some e /\ Uri.decodeURIComponent e = Some s.
Proof.
  intros Hwf. destruct (encode_then_Decode (List.length s) s (le_n _) Hwf) as (e & He & Hd).
  exists e. split; [exact He|]. apply Hd. apply le_n.
Qed.

(** ** The text of a file is a well-formed string *)

Lemma well_formed_app (n : nat) :
  forall a b : jsstring,
    (List.length a <= n)%nat ->
    Uri.well_formed a = true -> Uri.well_formed b = true ->
    Uri.well_formed (a ++ b) = true.
Proof.
  induction n as [|n IH]; intros a b Hn Ha Hb.
  - destruct a; [exact Hb | cbn in Hn; lia].
  - destruct a as [|c a]; [exact Hb|].
    cbn [List.length] in Hn. cbn [app Uri.well_formed] in *.
    destruct (Uri.is_high c).
    + destruct a as [|d a]; [discriminate|]. cbn [app List.length] in *.
      apply andb_true_iff in Ha as [Hd Ha]. rewrite Hd. cbn [andb].
      apply IH; [lia|assumption..].
    + apply andb_true_iff in Ha as [Hc Ha]. rewrite Hc. cbn [andb].
      apply IH; [lia|assumption..].
Qed.

Lemma well_formed_utf16_encode (v : N) : scalar v -> Uri.well_formed (Utf8.utf16_encode v) = true.
Proof.
  intros Hs. unfold scalar in Hs. unfold Utf8.utf16_encode.
  destruct (v <? 0x10000)%N eqn:E; cbn [Uri.well_formed]; unfold Uri.is_high, Uri.is_low.
  - destruct ((55296 <=? v)%N && (v <=? 56319)%N) eqn:Eh; lia.
  - replace ((55296 <=? 55296 + (v - 65536) / 1024)%N
             && (55296 + (v - 65536) / 1024 <=? 56319)%N) with true by lia.
    lia.
Qed.

Lemma well_formed_bmp (c : N) :
  scalar c -> (c < 0x10000)%N -> Uri.well_formed [c] = true.
Proof.
  intros Hs Hc. rewrite <- (utf16_encode_bmp c Hc). now apply well_formed_utf16_encode.
Qed.

Lemma land_shiftl_low (a x : N) : (x < 64)%N -> N.land (N.shiftl a 6) x = 0%N.
Proof.
  intros Hx. apply N.bits_inj_0. intros n. rewrite N.land_spec.
  destruct (N.ltb n 6) eqn:E.
  - rewrite N.shiftl_spec_low by lia. reflexivity.
  - destruct (N.eq_dec x 0) as [->|Hx0]; [now rewrite N.bits_0, andb_false_r|].
    rewrite (N.bits_above_log2 x n), andb_false_r; [reflexivity|].
    apply N.lt_le_trans with 6%N; [|lia].
    apply N.log2_lt_pow2; [lia|]. exact Hx.
Qed.

Lemma lor_shiftl_6 (a x : N) : (x < 64)%N -> N.lor (N.shiftl a 6) x = (a * 64 + x)%N.
Proof.
  intros Hx. rewrite <- N.lxor_lor, <- N.add_nocarry_lxor by now apply land_shiftl_low.
  now rewrite N.shiftl_mul_pow2.
Qed.

Lemma land_low_bits (b : N) :
  N.land b 0x3F = (b mod 64)%N /\ N.land b 0x1F = (b mod 32)%N
  /\ N.land b 0xF = (b mod 16)%N /\ N.land b 0x7 = (b mod 8)%N.
Proof.
  repeat split.
  - exact (N.land_ones b 6).
  - exact (N.land_ones b 5).
  - exact (N.land_ones b 4).
  - exact (N.land_ones b 3).
Qed.

(** Outside of a sequence, an octet gives a whole character or opens a
    sequence that can only end well. *)
Lemma lead_ok (b : N) :
  Uri.well_formed (fst (Utf8.lead b)) = true /\ state_ok (snd (Utf8.lead b)).
Proof.
  destruct (land_low_bits b) as (_ & H5 & H4 & H3).
  unfold Utf8.lead. rewrite H5, H4, H3.
  destruct (b <=? 127)%N eqn:E1.
  { cbn [fst snd]. split; [|exact I]. apply well_formed_bmp; unfold scalar; lia. }
  destruct ((194 <=? b)%N && (b <=? 223)%N) eqn:E2.
  { cbn. unfold pending_ok. cbn. split; [reflexivity|]. lia. }
  destruct ((224 <=? b)%N && (b <=? 239)%N) eqn:E3.
  { cbn. unfold pending_ok. cbn. split; [reflexivity|].
    destruct (b =? 224)%N eqn:Ea; destruct (b =? 237)%N eqn:Eb; lia. }
  destruct ((240 <=? b)%N && (b <=? 244)%N) eqn:E4.
  { cbn. unfold pending_ok. cbn. split; [reflexivity|].
    destruct (b =? 240)%N eqn:Ea; destruct (b =? 244)%N eqn:Eb; lia. }
  cbn. split; [reflexivity|exact I].
Qed.

(** Inside a sequence, an allowed octet brings it closer to a scalar value,
    or completes it. *)
Lemma continue_ok (p : Utf8.pending) (b : N) :
  pending_ok p ->
  (Utf8.lower p <= b)%N -> (b <= Utf8.upper p)%N ->
  Uri.well_formed (fst (Utf8.continue p b)) = true /\ state_ok (snd (Utf8.continue p b)).
Proof.
  intros (Hl & Hu & Hp) Hb1 Hb2.
  destruct (land_low_bits b) as (H6 & _).
  unfold Utf8.continue. rewrite H6, lor_shiftl_6 by lia.
  destruct p as [bits needed lower upper]. cbn in *.
  destruct needed as [|[|[|[|needed]]]]; try contradiction; cbn.
  - split; [|exact I]. apply well_formed_utf16_encode. unfold scalar. lia.
  - split; [reflexivity|]. unfold pending_ok. cbn. lia.
  - split; [reflexivity|]. unfold pending_ok. cbn. lia.
Qed.

Lemma decode_well_formed (bs : list N) :
  forall st, state_ok st -> Uri.well_formed (Utf8.decode st bs) = true.
Proof.
  induction bs as [|b bs IH]; intros st Hst; cbn [Utf8.decode].
  - destruct st; reflexivity.
  - destruct st as [p|].
    + destruct ((Utf8.lower p <=? b)%N && (b <=? Utf8.upper p)%N) eqn:E.
      * destruct (continue_ok p b Hst ltac:(lia) ltac:(lia)) as [Ho Hs].
        destruct (Utf8.continue p b) as [out st']. cbn [fst snd] in *.
        apply (well_formed_app (List.length out)); auto.
      * destruct (lead_ok b) as [Ho Hs].
        destruct (Utf8.lead b) as [out st']. cbn [fst snd] in *.
        change (Utf8.replacement :: out ++ Utf8.decode st' bs)
          with ([Utf8.replacement] ++ (out ++ Utf8.decode st' bs)).
        apply (well_formed_app 1); [apply le_n|reflexivity|].
        apply (well_formed_app (List.length out)); auto.
    + destruct (lead_ok b) as [Ho Hs].
      destruct (Utf8.lead b) as [out st']. cbn [fst snd] in *.
      apply (well_formed_app (List.length out)); auto.
Qed.

(** Whatever the octets of a file, [buf.toString("utf-8")] is well formed:
    [encodeURIComponent] cannot throw on it. *)
Lemma toString_well_formed (buf : Buffer) : Uri.well_formed (Utf8.toString buf) = true.
Proof. apply decode_well_formed. exact I. Qed.

(** ** The script text survives the encoding *)

(** The encoding of the payload builders never fails and is undone by
    [decodeURIComponent]. *)
Lemma script_text_roundtrip_lemma (h : Host) (fileContent : Buffer) :
  exists encodedFile,
    encode_file h fileContent = inr encodedFile
    /\ Uri.decodeURIComponent encodedFile = Some (Utf8.toString fileContent).
Proof.
  destruct (encodeURIComponent_roundtrip _ (toString_well_formed fileContent)) as (e & He & Hd).
  exists e. unfold encode_file. rewrite He. split; [reflexivity|exact Hd].
Qed.

(** C8: the text of a script file, percent-encoded as both payload builders
    do ([encodeURIComponent(fileContent.toString("utf-8"))]), decodes back to
    the same text, whatever the octets of the file: the encoding never
    fails, and [decodeURIComponent] of its result is the original text.  The
    same holds of every well-formed string. *)
Theorem script_text_roundtrip :
  (forall (h : Host) (fileContent : Buffer),
      exists encodedFile,
        encode_file h fileContent = inr encodedFile
        /\ Uri.decodeURIComponent encodedFile = Some (Utf8.toString fileContent))
  /\ (forall text : jsstring,
         Uri.well_formed text = true ->
         exists encoded,
           Uri.encodeURIComponent text = Some encoded
           /\ Uri.decodeURIComponent encoded = Some text).
Proof.
  split.
  - exact script_text_roundtrip_lemma.
  - exact encodeURIComponent_roundtrip.
Qed.

(** A text with an accent, an arrow, quote characters of both kinds, a
    newline and a character outside the basic plane. *)
Lemma script_text_roundtrip_witness :
  exists encoded,
    Uri.encodeURIComponent (lit "s = 'héllo →" ++ [0x22; 0x0A; 0x22]%N ++ lit " 🔧'")
    = Some encoded
    /\ Uri.decodeURIComponent encoded
       = Some (lit "s = 'héllo →" ++ [0x22; 0x0A; 0x22]%N ++ lit " 🔧'").
Proof.
  apply (proj2 script_text_roundtrip). vm_compute. reflexivity.
Defined.

(** Non-ASCII characters, a newline, quote characters of both kinds and a
    character outside the basic plane. *)
Example roundtrip_mixed_text :
  let text := lit "s = 'héllo →" ++ [0x22; 0x0A; 0x22]%N ++ lit " 🔧'" in
  Uri.encodeURIComponent text
  = Some (lit "s%20%3D%20'h%C3%A9llo%20%E2%86%92%22%0A%22%20%F0%9F%94%A7'")
  /\ Uri.decodeURIComponent
       (lit "s%20%3D%20'h%C3%A9llo%20%E2%86%92%22%0A%22%20%F0%9F%94%A7'")
     = Some text.
Proof. split; vm_compute; reflexivity. Qed.

(** Ill-formed UTF-8 in the file becomes U+FFFD in the text, and the text
    still goes through. *)
Example roundtrip_ill_formed_file :
  let fileContent := ["a"; "255"; "237"; "160"; "128"; "b"]%byte in
  Utf8.toString fileContent = [0x61; 0xFFFD; 0xFFFD; 0xFFFD; 0xFFFD; 0x62]%N
  /\ encode_file Demo.host fileContent
     = inr (lit "a%EF%BF%BD%EF%BF%BD%EF%BF%BD%EF%BF%BDb").
Proof. split; vm_compute; reflexivity. Qed.

(** ** The existence lookup *)

(** The first truthy of [data.results[0].id] and [data.id], else [null]. *)
Lemma parse_id_cases (response : Response) :
  let first := Val.opt (Val.opt (Val.opt (data response) (lit "results")) (lit "0")) (lit "id") in
  let top := Val.opt (data response) (lit "id") in
  parse_id response
  = if Val.truthy first then first else if Val.truthy top then top else VNull.
Proof.
  cbv zeta. unfold parse_id, Val.or.
  destruct (Val.truthy (Val.opt (Val.opt (Val.opt _ _) _) _)) eqn:E1; rewrite ?E1; [reflexivity|].
  destruct (Val.truthy (Val.opt (data response) (lit "id"))) eqn:E2; rewrite ?E2; reflexivity.
Qed.

(** Text has no [results] and no [id]. *)
Lemma parse_id_text (statusCode : N) (body : jsstring) :
  parse_id (mkResponse statusCode (VStr body)) = VNull.
Proof. reflexivity. Qed.

(** The status of the response plays no part. *)
Lemma parse_id_status (s1 s2 : N) (d : value) :
  parse_id (mkResponse s1 d) = parse_id (mkResponse s2 d).
Proof. reflexivity. Qed.

Lemma run_makeRequest (h : Host) (tl : Timeline) (i : nat) (url method : jsstring)
    (headers : list (jsstring * jsstring)) (payload : option value) :
  run tl i (makeRequest h url method headers payload)
  = emit (Sent (mkRequest url method headers (written payload)))
      (match w_http (tl i) (mkRequest url method headers (written payload)) with
       | inl error => mkResult [] (Thrown error) (S i)
       | inr (statusCode, body) =>
           mkResult [] (Returned (mkResponse statusCode (response_data h body))) (S i)
       end).
Proof.
  unfold makeRequest, response_data. cbn [run].
  destruct (w_http _ _) as [error|[statusCode body]]; [reflexivity|].
  destruct (JSON_parse h body); reflexivity.
Qed.

(** The lookup, once its URL is built: a transport error is logged and
    gives [null]; any answer of the server gives the identifier read from
    its body. *)
Lemma run_checkTaskExists (h : Host) (tl : Timeline) (i : nat)
    (name apiToken url : jsstring) :
  lookup_url h (SA_API_URL h) name = inr url ->
  run tl i (checkTaskExists h name apiToken)
  = match w_http (tl i) (lookup_request h url apiToken) with
    | inl error =>
        mkResult [Sent (lookup_request h url apiToken);
                  Logged ERROR [lit "Error checking task existence:"; error]]
          (Returned VNull) (S i)
    | inr (statusCode, body) =>
        mkResult [Sent (lookup_request h url apiToken)]
          (Returned (parse_id (mkResponse statusCode (response_data h body)))) (S i)
    end.
Proof.
  intros Hurl. unfold checkTaskExists. rewrite Hurl. cbn [lift bind].
  rewrite run_try_catch, run_bind, run_makeRequest.
  unfold lookup_request. cbn [written].
  destruct (w_http _ _) as [error|[statusCode body]]; reflexivity.
Qed.

(** ** What a run sends *)

Lemma requests_app (a b : list output) : requests (a ++ b) = requests a ++ requests b.
Proof.
  induction a as [|[lvl args|r] a IH]; cbn [app requests]; [reflexivity|exact IH|].
  now rewrite IH.
Qed.

(** [bind] with a process that always returns, seen from the run. *)
Lemma run_bind_returned {A B : Type} (tl : Timeline) (i : nat) (p : prog A)
    (f : A -> prog B) (a : A) :
  final (run tl i p) = Returned a ->
  run tl i (bind p f)
  = mkResult (trace (run tl i p) ++ trace (run tl (next (run tl i p)) (f a)))
      (final (run tl (next (run tl i p)) (f a)))
      (next (run tl (next (run tl i p)) (f a))).
Proof. intros H. rewrite run_bind. unfold and_then. now rewrite H. Qed.

Lemma run_console {A : Type} (tl : Timeline) (i : nat) (lvl : level) (args : list jsstring)
    (f : unit -> prog A) :
  run tl i (bind (console lvl args) f) = emit (Logged lvl args) (run tl i (f tt)).
Proof. reflexivity. Qed.

(** The change detector never throws and sends nothing. *)
Lemma getChangedFilesInFolder_returns (h : Host) (tl : Timeline) (i : nat) (folder : jsstring) :
  exists changedFiles,
    final (run tl i (getChangedFilesInFolder h folder)) = Returned changedFiles
    /\ requests (trace (run tl i (getChangedFilesInFolder h folder))) = [].
Proof.
  unfold getChangedFilesInFolder, trust_cwd, process_cwd, execSync. cbn.
  destruct (w_cwd (tl i)) as [e|cwd]; cbn; [eauto|].
  destruct (w_exec (tl (S i)) (GitSafeDirectory cwd)) as [e|out]; cbn;
    destruct (w_exec (tl (S (S i))) (GitLog (BITBUCKET_COMMIT h))) as [e'|listing]; cbn; eauto.
Qed.

(** A history query that fails gives an empty list of changed files. *)
Lemma getChangedFilesInFolder_history_failed (h : Host) (tl : Timeline) (i : nat)
    (folder cwd error : jsstring) :
  w_cwd (tl i) = inr cwd ->
  w_exec (tl (2 + i)) (GitLog (BITBUCKET_COMMIT h)) = inl error ->
  final (run tl i (getChangedFilesInFolder h folder)) = Returned [].
Proof.
  intros Hcwd Hlog. unfold getChangedFilesInFolder, trust_cwd, process_cwd, execSync. cbn.
  rewrite Hcwd. cbn.
  destruct (w_exec (tl (S i)) (GitSafeDirectory cwd)) as [e|out]; cbn; cbn in Hlog;
    rewrite Hlog; reflexivity.
Qed.

Lemma getChangedFilesInFolder_listing (h : Host) (tl : Timeline) (i : nat)
    (folder cwd listing : jsstring) :
  w_cwd (tl i) = inr cwd ->
  w_exec (tl (2 + i)) (GitLog (BITBUCKET_COMMIT h)) = inr listing ->
  run tl i (getChangedFilesInFolder h folder)
  = mkResult [] (Returned (files_in_folder folder listing)) (3 + i).
Proof.
  intros Hcwd Hlog. unfold getChangedFilesInFolder, trust_cwd, process_cwd, execSync. cbn.
  rewrite Hcwd. cbn.
  destruct (w_exec (tl (S i)) (GitSafeDirectory cwd)) as [e|out]; cbn; cbn in Hlog;
    rewrite Hlog; reflexivity.
Qed.

(** Building the file-only payload never throws, logs nothing and sends
    nothing. *)
Lemma generateFileOnlyPayload_returns (h : Host) (tl : Timeline) (i : nat) (folder : jsstring) :
  exists payload,
    final (run tl i (generateFileOnlyPayload h folder)) = Returned payload
    /\ trace (run tl i (generateFileOnlyPayload h folder)) = [].
Proof.
  unfold generateFileOnlyPayload, fs_existsSync, fs_readFileSync. cbn.
  destruct (w_exists (tl i) _); cbn; [|eauto].
  destruct (w_read (tl (S i)) _) as [e|buf]; cbn; [eauto|].
  destruct (encode_file h buf); cbn; eauto.
Qed.

Lemma run_update_request (h : Host) (tl : Timeline) (i : nat) (taskName apiToken : jsstring)
    (taskId payload : value) (k : Response -> prog unit) :
  (forall response j, requests (trace (run tl j (k response))) = []) ->
  requests (trace (run tl i
     (bind (console LOG [lit "♻ Updating action: " ++ taskName])
        (fun _ => bind (makeRequest h (SA_API_URL h ++ lit "/" ++ template h taskId)
                          (lit "PATCH") (write_headers h apiToken) (Some payload)) k))))
  = [patch_request h apiToken taskId payload].
Proof.
  intros Hk. rewrite run_console. cbn [emit trace requests].
  rewrite run_bind, run_makeRequest. fold (patch_request h apiToken taskId payload).
  destruct (w_http (tl i) _) as [e|[statusCode body]]; unfold and_then; cbn.
  - reflexivity.
  - now rewrite Hk.
Qed.

(** The one request of an update, by what the change detector and the
    file-only builder return. *)
Lemma requests_update_task (h : Host) (tl : Timeline) (i : nat)
    (cleanFolder taskName apiToken : jsstring) (taskId fullPayload : value)
    (changedFiles : list jsstring) (partial : value) :
  final (run tl i (getChangedFilesInFolder h cleanFolder)) = Returned changedFiles ->
  final (run tl (next (run tl i (getChangedFilesInFolder h cleanFolder)))
           (generateFileOnlyPayload h cleanFolder)) = Returned partial ->
  requests (trace (run tl i (update_task h cleanFolder taskName apiToken taskId fullPayload)))
  = [patch_request h apiToken taskId
       (if onlyPyFilesChanged changedFiles
        then (if Val.truthy (Val.get partial (lit "error")) then fullPayload else partial)
        else fullPayload)].
Proof.
  intros Hc Hp.
  destruct (getChangedFilesInFolder_returns h tl i cleanFolder) as (c' & Hc' & Hreq).
  assert (c' = changedFiles) by congruence. subst c'. clear Hc'.
  destruct (generateFileOnlyPayload_returns h tl
              (next (run tl i (getChangedFilesInFolder h cleanFolder))) cleanFolder)
    as (p' & Hp' & Htr).
  assert (p' = partial) by congruence. subst p'. clear Hp'.
  assert (Hk : forall response j,
             requests (trace (run tl j
               (if ok_status response then console LOG [lit "✔ Update successful"]
                else console ERROR [lit "❌ Failed to update task: "
                                    ++ JSON_stringify h (data response)]))) = []).
  { intros response j. destruct (ok_status response); reflexivity. }
  unfold update_task. rewrite run_console. cbn [emit trace requests].
  rewrite (run_bind_returned tl i _ _ changedFiles Hc). cbn [trace].
  rewrite requests_app, Hreq. cbn [app].
  destruct (onlyPyFilesChanged changedFiles).
  - rewrite run_bind, (run_bind_returned tl _ _ _ partial Hp). unfold and_then. cbn [final trace next].
    rewrite Htr. cbn [app].
    destruct (Val.truthy (Val.get partial (lit "error"))).
    + cbn. apply (run_update_request h tl _ taskName apiToken taskId fullPayload _ Hk).
    + cbn. apply (run_update_request h tl _ taskName apiToken taskId partial _ Hk).
  - cbn [bind]. apply (run_update_request h tl _ taskName apiToken taskId fullPayload _ Hk).
Qed.

(** ** Creating or updating *)

Lemma requests_create_task (h : Host) (tl : Timeline) (j : nat)
    (taskName apiToken : jsstring) (fullPayload : value) :
  requests (trace (run tl j (create_task h taskName apiToken fullPayload)))
  = [create_request h apiToken fullPayload].
Proof.
  unfold create_task. rewrite run_console. cbn [emit trace requests].
  rewrite run_bind, run_makeRequest. fold (create_request h apiToken fullPayload).
  destruct (w_http (tl j) _) as [e|[statusCode body]]; unfold and_then;
    cbn [emit trace final next requests app]; [reflexivity|].
  destruct (ok_status _); reflexivity.
Qed.

(** The handlers around the create and update branches send nothing. *)
Lemma requests_guarded (tl : Timeline) (j : nat) (taskName : jsstring) (p : prog unit) :
  requests (trace (run tl j
    (finally
       (try_catch p
          (fun error =>
             console ERROR [lit "❌ Error syncing task " ++ taskName ++ lit ":"; error]))
       (console LOG [lit "----------------------------------"]))))
  = requests (trace (run tl j p)).
Proof.
  rewrite run_finally, run_try_catch. unfold and_finally, or_catch.
  destruct (final (run tl j p)) eqn:E; cbn [final trace next run console emit];
    rewrite ?E; cbn [final trace next run console emit];
    rewrite ?requests_app; cbn [requests]; now rewrite ?app_nil_r.
Qed.

(** What a folder with a payload sends: the lookup, then one request, a
    create when the lookup found nothing and an update otherwise. *)
Lemma requests_sync_payload (h : Host) (tl : Timeline) (i : nat)
    (cleanFolder apiToken url : jsstring) (fullPayload : value) :
  let taskName := template h (Val.get fullPayload (lit "name")) in
  let taskId := lookup_result h (w_http (tl i) (lookup_request h url apiToken)) in
  lookup_url h (SA_API_URL h) taskName = inr url ->
  requests (trace (run tl i (sync_payload h cleanFolder apiToken fullPayload)))
  = lookup_request h url apiToken
    :: (if Val.truthy taskId
        then requests (trace (run tl (S i)
               (update_task h cleanFolder taskName apiToken taskId fullPayload)))
        else [create_request h apiToken fullPayload]).
Proof.
  intros taskName taskId Hurl. unfold sync_payload. fold taskName.
  rewrite run_console. cbn [emit trace requests].
  rewrite run_bind, (run_checkTaskExists h tl i taskName apiToken url Hurl).
  unfold taskId, lookup_result, and_then.
  destruct (w_http (tl i) (lookup_request h url apiToken)) as [e|[statusCode body]];
    cbn [final trace next Val.truthy negb app requests].
  - rewrite requests_guarded, requests_create_task. reflexivity.
  - rewrite requests_guarded.
    destruct (Val.truthy (parse_id _)); cbn [negb]; [reflexivity|].
    now rewrite requests_create_task.
Qed.

(** The update sends exactly one request, to the identifier found. *)
Lemma requests_update_task_shape (h : Host) (tl : Timeline) (i : nat)
    (cleanFolder taskName apiToken : jsstring) (taskId fullPayload : value) :
  exists payload,
    requests (trace (run tl i (update_task h cleanFolder taskName apiToken taskId fullPayload)))
    = [patch_request h apiToken taskId payload].
Proof.
  destruct (getChangedFilesInFolder_returns h tl i cleanFolder) as (changedFiles & Hc & _).
  destruct (generateFileOnlyPayload_returns h tl
              (next (run tl i (getChangedFilesInFolder h cleanFolder))) cleanFolder)
    as (partial & Hp & _).
  eexists. apply (requests_update_task h tl i cleanFolder taskName apiToken taskId fullPayload
                    changedFiles partial Hc Hp).
Qed.

Lemma onlyPyFilesChanged_spec (changedFiles : list jsstring) :
  onlyPyFilesChanged changedFiles = true
  <-> changedFiles <> [] /\ every_change_is_script changedFiles.
Proof.
  unfold onlyPyFilesChanged, every_change_is_script. split.
  - intros H. apply andb_true_iff in H as [H Hno]. apply andb_true_iff in H as [Hlen Hall].
    split; [|split].
    + destruct changedFiles; [discriminate|discriminate].
    + intros file Hin. rewrite forallb_forall in Hall. now apply StrFacts.eqb_eq, Hall.
    + intros Hin. apply negb_true_iff in Hno.
      assert (E : existsb (fun file => Str.eqb file (lit "config.yaml")) changedFiles = true).
      { apply existsb_exists. exists (lit "config.yaml"). split; [exact Hin|].
        apply StrFacts.eqb_refl. }
      congruence.
  - intros (Hne & Hall & Hno). repeat (apply andb_true_iff; split).
    + destruct changedFiles; [contradiction|reflexivity].
    + apply forallb_forall. intros file Hin. apply StrFacts.eqb_eq. now apply Hall.
    + apply negb_true_iff. destruct (existsb _ changedFiles) eqn:E; [|reflexivity].
      apply existsb_exists in E as (file & Hin & Heq). apply StrFacts.eqb_eq in Heq.
      subst file. contradiction.
Qed.

(** Building the file-only payload when the script can be read. *)
Lemma generateFileOnlyPayload_readable (h : Host) (tl : Timeline) (j : nat)
    (cleanFolder : jsstring) (fileContent : Buffer) :
  w_exists (tl j) (Path.join cleanFolder (lit "main.py")) = true ->
  w_read (tl (S j)) (Path.join cleanFolder (lit "main.py")) = inr fileContent ->
  exists encodedFile,
    encode_file h fileContent = inr encodedFile
    /\ Uri.decodeURIComponent encodedFile = Some (Utf8.toString fileContent)
    /\ run tl j (generateFileOnlyPayload h cleanFolder)
       = mkResult [] (Returned (file_only encodedFile)) (2 + j).
Proof.
  intros Hex Hrd.
  destruct (encodeURIComponent_roundtrip _ (toString_well_formed fileContent)) as (e & He & Hd).
  exists e. unfold encode_file. rewrite He. split; [reflexivity|]. split; [exact Hd|].
  unfold generateFileOnlyPayload, fs_existsSync, fs_readFileSync, encode_file. cbn.
  rewrite Hex. cbn. rewrite Hrd. cbn. rewrite He. reflexivity.
Qed.

Lemma get_error_file_only (encodedFile : jsstring) :
  Val.get (file_only encodedFile) (lit "error") = VUndefined.
Proof. reflexivity. Qed.

(** C1, as stated, fails on an empty change set.  The commit moves the
    gitlink [actions/a]: the folder is detected, none of its files is listed,
    so no changed file is other than [main.py] and [config.yaml] is not
    among them; yet the full payload is sent. *)
Lemma empty_change_set_sends_full_payload :
  every_change_is_script (files_in_folder (lit "actions/a") (lit "actions/a"))
  /\ requests (trace (run (still (Demo.world (Demo.git_lists "actions/a")
                                    (Some Demo.config_ok) (Some Demo.script_text)
                                    Demo.server_knows)) 0
                        (script Demo.host)))
     = [lookup_request Demo.host Demo.lookup_url_a (lit "secret");
        patch_request Demo.host (lit "secret") (VStr (lit "t1")) Demo.full_payload]
  /\ Demo.full_payload <> file_only (lit "print('h%C3%A9llo')%0A").
Proof.
  split; [|split].
  - split; [intros file []|intros []].
  - vm_compute. reflexivity.
  - vm_compute. discriminate.
Qed.

(** The choice of the payload of an update, for every timeline in which the
    script can be read when the file-only payload is built. *)
Lemma update_task_payload_choice (h : Host) (tl : Timeline) (i : nat)
    (cleanFolder taskName apiToken : jsstring) (taskId fullPayload : value)
    (changedFiles : list jsstring) (fileContent : Buffer) :
  let j := next (run tl i (getChangedFilesInFolder h cleanFolder)) in
  final (run tl i (getChangedFilesInFolder h cleanFolder)) = Returned changedFiles ->
  w_exists (tl j) (Path.join cleanFolder (lit "main.py")) = true ->
  w_read (tl (S j)) (Path.join cleanFolder (lit "main.py")) = inr fileContent ->
  exists encodedFile,
    encode_file h fileContent = inr encodedFile
    /\ requests (trace (run tl i
         (update_task h cleanFolder taskName apiToken taskId fullPayload)))
       = [patch_request h apiToken taskId
            (if onlyPyFilesChanged changedFiles then file_only encodedFile else fullPayload)].
Proof.
  intros j Hc Hex Hrd.
  destruct (generateFileOnlyPayload_readable h tl j cleanFolder fileContent Hex Hrd)
    as (e & He & _ & Hrun).
  exists e. split; [exact He|].
  assert (Hp : final (run tl j (generateFileOnlyPayload h cleanFolder))
               = Returned (file_only e)) by now rewrite Hrun.
  rewrite (requests_update_task h tl i cleanFolder taskName apiToken taskId fullPayload
             changedFiles (file_only e) Hc Hp).
  now rewrite get_error_file_only.
Qed.

(** C1 (amended): when the lookup finds the task, the PATCH carries the
    file-only payload exactly when at least one file of the folder changed,
    every changed file is [main.py] and [config.yaml] is not among them;
    otherwise, and in particular when [config.yaml] changed, it carries the
    full payload.  (The lookup is the interaction [i]; the script is read
    again when the file-only payload is built, from the instant [j] on.) *)
Theorem update_payload_choice (h : Host) (tl : Timeline) (i : nat)
    (cleanFolder apiToken url : jsstring) (fullPayload : value)
    (changedFiles : list jsstring) (fileContent : Buffer) :
  let taskName := template h (Val.get fullPayload (lit "name")) in
  let lookup := lookup_request h url apiToken in
  let taskId := lookup_result h (w_http (tl i) lookup) in
  let j := next (run tl (S i) (getChangedFilesInFolder h cleanFolder)) in
  let sent := requests (trace (run tl i (sync_payload h cleanFolder apiToken fullPayload))) in
  lookup_url h (SA_API_URL h) taskName = inr url ->
  Val.truthy taskId = true ->
  final (run tl (S i) (getChangedFilesInFolder h cleanFolder)) = Returned changedFiles ->
  w_exists (tl j) (Path.join cleanFolder (lit "main.py")) = true ->
  w_read (tl (S j)) (Path.join cleanFolder (lit "main.py")) = inr fileContent ->
  exists encodedFile,
    encode_file h fileContent = inr encodedFile
    /\ (changedFiles <> [] /\ every_change_is_script changedFiles ->
        sent = [lookup; patch_request h apiToken taskId (file_only encodedFile)])
    /\ (~ (changedFiles <> [] /\ every_change_is_script changedFiles) ->
        sent = [lookup; patch_request h apiToken taskId fullPayload])
    /\ (In (lit "config.yaml") changedFiles ->
        sent = [lookup; patch_request h apiToken taskId fullPayload]).
Proof.
  intros taskName lookup taskId j sent Hurl Hfound Hc Hex Hrd.
  destruct (update_task_payload_choice h tl (S i) cleanFolder taskName apiToken taskId
              fullPayload changedFiles fileContent Hc Hex Hrd) as (e & He & Hreq).
  exists e. split; [exact He|].
  assert (Hsent : sent = [lookup; patch_request h apiToken taskId
                            (if onlyPyFilesChanged changedFiles then file_only e
                             else fullPayload)]).
  { unfold sent.
    rewrite (requests_sync_payload h tl i cleanFolder apiToken url fullPayload Hurl).
    fold taskName lookup taskId. now rewrite Hfound, Hreq. }
  assert (Hfull : ~ (changedFiles <> [] /\ every_change_is_script changedFiles) ->
                  sent = [lookup; patch_request h apiToken taskId fullPayload]).
  { intros Hn. rewrite Hsent.
    destruct (onlyPyFilesChanged changedFiles) eqn:E; [|reflexivity].
    apply onlyPyFilesChanged_spec in E. contradiction. }
  split; [|split].
  - intros Hy. apply onlyPyFilesChanged_spec in Hy. now rewrite Hsent, Hy.
  - exact Hfull.
  - intros Hin. apply Hfull. intros (_ & _ & Hno). contradiction.
Qed.

(** Only [main.py] changed and the server knows the task: the PATCH carries
    the script alone. *)
Lemma update_payload_choice_witness :
  requests (trace (run (still (Demo.world (Demo.git_lists "actions/a/main.py")
                                 (Some Demo.config_ok) (Some Demo.script_text)
                                 Demo.server_knows)) 0
                     (sync_payload Demo.host (lit "actions/a") (lit "secret")
                        Demo.full_payload)))
  = [lookup_request Demo.host Demo.lookup_url_a (lit "secret");
     patch_request Demo.host (lit "secret") (VStr (lit "t1"))
       (file_only (lit "print('h%C3%A9llo')%0A"))].
Proof.
  destruct (update_payload_choice Demo.host
              (still (Demo.world (Demo.git_lists "actions/a/main.py")
                        (Some Demo.config_ok) (Some Demo.script_text) Demo.server_knows))
              0 (lit "actions/a") (lit "secret") Demo.lookup_url_a
              Demo.full_payload [lit "main.py"] (list_byte_of_string Demo.script_text)
              ltac:(vm_compute; reflexivity) ltac:(vm_compute; reflexivity)
              ltac:(vm_compute; reflexivity) ltac:(vm_compute; reflexivity)
              ltac:(vm_compute; reflexivity))
    as (encodedFile & He & Hyes & _).
  vm_compute in He. injection He as <-.
  apply Hyes. split; [discriminate|].
  split.
  - intros file [<-|[]]. reflexivity.
  - intros [E|[]]. vm_compute in E. discriminate E.
Defined.

(** The warning of the fall-back is in the trace of the update. *)
Lemma update_task_warns (h : Host) (tl : Timeline) (i : nat)
    (cleanFolder taskName apiToken : jsstring) (taskId fullPayload : value)
    (changedFiles : list jsstring) (partial : value) :
  final (run tl i (getChangedFilesInFolder h cleanFolder)) = Returned changedFiles ->
  onlyPyFilesChanged changedFiles = true ->
  final (run tl (next (run tl i (getChangedFilesInFolder h cleanFolder)))
           (generateFileOnlyPayload h cleanFolder)) = Returned partial ->
  Val.truthy (Val.get partial (lit "error")) = true ->
  In (fallback_warning h (Val.get partial (lit "error")))
     (trace (run tl i (update_task h cleanFolder taskName apiToken taskId fullPayload))).
Proof.
  intros Hc Hy Hp He.
  unfold update_task. rewrite run_console. cbn [emit trace]. right.
  rewrite (run_bind_returned tl i _ _ changedFiles Hc). cbn [trace].
  apply in_or_app. right. rewrite Hy.
  rewrite run_bind, (run_bind_returned tl _ _ _ partial Hp). unfold and_then.
  cbn [final trace next]. rewrite He.
  cbn [run bind console emit trace final next].
  apply in_or_app. left. apply in_or_app. right. left. reflexivity.
Qed.

(** What the update logs is logged by the folder. *)
Lemma trace_sync_payload_update (h : Host) (tl : Timeline) (i : nat)
    (cleanFolder apiToken url : jsstring) (fullPayload : value) (o : output) :
  let taskName := template h (Val.get fullPayload (lit "name")) in
  let taskId := lookup_result h (w_http (tl i) (lookup_request h url apiToken)) in
  lookup_url h (SA_API_URL h) taskName = inr url ->
  Val.truthy taskId = true ->
  In o (trace (run tl (S i)
          (update_task h cleanFolder taskName apiToken taskId fullPayload))) ->
  In o (trace (run tl i (sync_payload h cleanFolder apiToken fullPayload))).
Proof.
  intros taskName taskId Hurl Hfound Hin. unfold sync_payload. fold taskName.
  rewrite run_console. cbn [emit trace]. right.
  rewrite run_bind, (run_checkTaskExists h tl i taskName apiToken url Hurl).
  unfold taskId, lookup_result in Hfound, Hin. unfold and_then.
  destruct (w_http (tl i) (lookup_request h url apiToken)) as [e|[statusCode body]];
    [discriminate Hfound|].
  cbn [final trace next app]. right. rewrite Hfound. cbn [negb].
  rewrite run_finally, run_try_catch. unfold and_finally, or_catch.
  destruct (final (run tl (S i) (update_task _ _ _ _ _ _))) eqn:E;
    cbn [final trace next]; rewrite ?E; cbn [final trace next];
    repeat (apply in_or_app; left); exact Hin.
Qed.

(** C7: when the task exists, the decision selects the partial payload (at
    least one file changed, and all the changed files are [main.py]) and
    the construction of the file-only payload fails, a warning is logged and
    the PATCH carries the full payload built before. *)
Theorem file_only_failure_falls_back (h : Host) (tl : Timeline) (i : nat)
    (cleanFolder apiToken url : jsstring) (fullPayload : value)
    (changedFiles : list jsstring) (partial : value) :
  let taskName := template h (Val.get fullPayload (lit "name")) in
  let lookup := lookup_request h url apiToken in
  let taskId := lookup_result h (w_http (tl i) lookup) in
  let j := next (run tl (S i) (getChangedFilesInFolder h cleanFolder)) in
  lookup_url h (SA_API_URL h) taskName = inr url ->
  Val.truthy taskId = true ->
  final (run tl (S i) (getChangedFilesInFolder h cleanFolder)) = Returned changedFiles ->
  changedFiles <> [] /\ every_change_is_script changedFiles ->
  final (run tl j (generateFileOnlyPayload h cleanFolder)) = Returned partial ->
  Val.truthy (Val.get partial (lit "error")) = true ->
  In (fallback_warning h (Val.get partial (lit "error")))
     (trace (run tl i (sync_payload h cleanFolder apiToken fullPayload)))
  /\ requests (trace (run tl i (sync_payload h cleanFolder apiToken fullPayload)))
     = [lookup; patch_request h apiToken taskId fullPayload].
Proof.
  intros taskName lookup taskId j Hurl Hfound Hc Hy Hp He.
  apply onlyPyFilesChanged_spec in Hy. split.
  - apply (trace_sync_payload_update h tl i cleanFolder apiToken url fullPayload _ Hurl Hfound).
    now apply (update_task_warns h tl (S i) cleanFolder taskName apiToken taskId fullPayload
                 changedFiles partial).
  - rewrite (requests_sync_payload h tl i cleanFolder apiToken url fullPayload Hurl).
    fold taskName lookup taskId. rewrite Hfound.
    rewrite (requests_update_task h tl (S i) cleanFolder taskName apiToken taskId fullPayload
               changedFiles partial Hc Hp).
    now rewrite Hy, He.
Qed.

(** In a run of the whole script the first folder is looked up at
    interaction 9; here the script file is gone from the next interaction
    on. *)
Lemma file_only_failure_falls_back_witness :
  let tl := Demo.script_vanishes 10
              (Demo.world (Demo.git_lists "actions/a/main.py")
                 (Some Demo.config_ok) (Some Demo.script_text) Demo.server_knows) in
  In (fallback_warning Demo.host (VStr (lit "No main.py file found")))
     (trace (run tl 9 (sync_payload Demo.host (lit "actions/a") (lit "secret")
                         Demo.full_payload)))
  /\ requests (trace (run tl 9
       (sync_payload Demo.host (lit "actions/a") (lit "secret") Demo.full_payload)))
     = [lookup_request Demo.host Demo.lookup_url_a (lit "secret");
        patch_request Demo.host (lit "secret") (VStr (lit "t1")) Demo.full_payload].
Proof.
  intros tl.
  apply (file_only_failure_falls_back Demo.host tl 9 (lit "actions/a") (lit "secret")
           Demo.lookup_url_a Demo.full_payload [lit "main.py"]
           (error_object (lit "No main.py file found"))).
  - vm_compute. reflexivity.
  - vm_compute. reflexivity.
  - vm_compute. reflexivity.
  - split; [discriminate|]. split.
    + intros file [<-|[]]. reflexivity.
    + intros [E|[]]. vm_compute in E. discriminate E.
  - vm_compute. reflexivity.
  - vm_compute. reflexivity.
Defined.

(** C10: when the task exists and the change detector returns no changed
    file for the folder, as it does when the history query fails, the PATCH
    carries the full payload. *)
Theorem empty_change_set_full_payload (h : Host) (tl : Timeline) (i : nat)
    (cleanFolder apiToken url : jsstring) (fullPayload : value) :
  let taskName := template h (Val.get fullPayload (lit "name")) in
  let lookup := lookup_request h url apiToken in
  let taskId := lookup_result h (w_http (tl i) lookup) in
  let sent := requests (trace (run tl i (sync_payload h cleanFolder apiToken fullPayload))) in
  lookup_url h (SA_API_URL h) taskName = inr url ->
  Val.truthy taskId = true ->
  (final (run tl (S i) (getChangedFilesInFolder h cleanFolder)) = Returned [] ->
   sent = [lookup; patch_request h apiToken taskId fullPayload])
  /\ (forall cwd error : jsstring,
        w_cwd (tl (S i)) = inr cwd ->
        w_exec (tl (3 + i)) (GitLog (BITBUCKET_COMMIT h)) = inl error ->
        sent = [lookup; patch_request h apiToken taskId fullPayload]).
Proof.
  intros taskName lookup taskId sent Hurl Hfound.
  assert (H : final (run tl (S i) (getChangedFilesInFolder h cleanFolder)) = Returned [] ->
              sent = [lookup; patch_request h apiToken taskId fullPayload]).
  { intros Hc.
    destruct (generateFileOnlyPayload_returns h tl
                (next (run tl (S i) (getChangedFilesInFolder h cleanFolder))) cleanFolder)
      as (partial & Hp & _).
    unfold sent.
    rewrite (requests_sync_payload h tl i cleanFolder apiToken url fullPayload Hurl).
    fold taskName lookup taskId. rewrite Hfound.
    now rewrite (requests_update_task h tl (S i) cleanFolder taskName apiToken taskId
                   fullPayload [] partial Hc Hp). }
  split; [exact H|].
  intros cwd error Hcwd Hlog. apply H.
  now apply (getChangedFilesInFolder_history_failed h tl (S i) cleanFolder cwd error).
Qed.

(** The history is there when the folders are detected and gone afterwards:
    the existing task is updated with the full payload. *)
Lemma empty_change_set_full_payload_witness :
  requests (trace (run (still (Demo.world Demo.git_fails
                                 (Some Demo.config_ok) (Some Demo.script_text)
                                 Demo.server_knows)) 9
                     (sync_payload Demo.host (lit "actions/a") (lit "secret")
                        Demo.full_payload)))
  = [lookup_request Demo.host Demo.lookup_url_a (lit "secret");
     patch_request Demo.host (lit "secret") (VStr (lit "t1")) Demo.full_payload].
Proof.
  apply (proj2 (empty_change_set_full_payload Demo.host
                  (still (Demo.world Demo.git_fails (Some Demo.config_ok)
                            (Some Demo.script_text) Demo.server_knows))
                  9 (lit "actions/a") (lit "secret") Demo.lookup_url_a Demo.full_payload
                  ltac:(vm_compute; reflexivity) ltac:(vm_compute; reflexivity))
           (lit "/opt/atlassian/pipelines/agent/build")
           (lit "Command failed: git log: fatal: not a git repository")).
  - reflexivity.
  - reflexivity.
Defined.

(** ** From the folder to its requests *)

(** Building the full payload never throws, logs nothing and sends
    nothing. *)
Lemma generatePayload_returns (h : Host) (tl : Timeline) (i : nat) (folder : jsstring) :
  exists payload,
    final (run tl i (generatePayload h folder)) = Returned payload
    /\ trace (run tl i (generatePayload h folder)) = [].
Proof.
  unfold generatePayload, fs_existsSync, fs_readFileSync.
  cbn [run bind try_catch lift negb final trace].
  destruct (w_exists (tl i) _); cbn [run bind try_catch lift negb final trace]; [|eauto].
  destruct (w_read (tl (S i)) _) as [e|buf]; cbn [run bind try_catch lift negb final trace];
    [eauto|].
  destruct (yaml_load h _) as [e|config]; cbn [run bind try_catch lift negb final trace];
    [eauto|].
  destruct (validateConfig h config folder) as [e|validationError];
    cbn [run bind try_catch lift negb final trace]; [eauto|].
  destruct (Val.truthy validationError); cbn [run bind try_catch lift negb final trace];
    [eauto|].
  destruct (w_exists (tl (S (S i))) _); cbn [run bind try_catch lift negb final trace];
    [|eauto].
  destruct (w_read (tl (S (S (S i)))) _) as [e|buf'];
    cbn [run bind try_catch lift negb final trace]; [eauto|].
  destruct (encode_file h buf'); cbn [run bind try_catch lift negb final trace]; eauto.
Qed.

(** A folder that has its two files and a payload goes on to the lookup. *)
Lemma run_syncTask_payload (h : Host) (tl : Timeline) (i : nat)
    (folder apiToken : jsstring) (fullPayload : value) :
  let cleanFolder := Str.strip_trailing_slash folder in
  let j := next (run tl (2 + i) (generatePayload h cleanFolder)) in
  w_exists (tl i) (Path.join cleanFolder (lit "config.yaml")) = true ->
  w_exists (tl (S i)) (Path.join cleanFolder (lit "main.py")) = true ->
  final (run tl (2 + i) (generatePayload h cleanFolder)) = Returned fullPayload ->
  Val.truthy (Val.get fullPayload (lit "error")) = false ->
  requests (trace (run tl i (syncTask h folder apiToken)))
  = requests (trace (run tl j (sync_payload h cleanFolder apiToken fullPayload)))
  /\ final (run tl i (syncTask h folder apiToken))
     = final (run tl j (sync_payload h cleanFolder apiToken fullPayload)).
Proof.
  intros cleanFolder j Hcfg Hmain Hfull Hok.
  destruct (generatePayload_returns h tl (2 + i) cleanFolder) as (p & Hp & Htr).
  assert (p = fullPayload) by congruence. subst p.
  unfold syncTask. fold cleanFolder. unfold fs_existsSync.
  cbn [run bind]. rewrite Hcfg. cbn [negb run bind]. rewrite Hmain.
  cbn [negb run bind console]. cbn [emit trace final next requests].
  rewrite (run_bind_returned tl _ _ _ fullPayload Hfull). cbn [trace final].
  rewrite Htr, Hok. cbn [app]. fold j. split; reflexivity.
Qed.

(** An update ends normally or with the error of its request; it never
    exits. *)
Lemma update_task_no_exit (h : Host) (tl : Timeline) (i : nat)
    (cleanFolder taskName apiToken : jsstring) (taskId fullPayload : value) (code : Z) :
  final (run tl i (update_task h cleanFolder taskName apiToken taskId fullPayload))
  <> Exited code.
Proof.
  destruct (getChangedFilesInFolder_returns h tl i cleanFolder) as (changedFiles & Hc & _).
  destruct (generateFileOnlyPayload_returns h tl
              (next (run tl i (getChangedFilesInFolder h cleanFolder))) cleanFolder)
    as (partial & Hp & _).
  assert (Hsend : forall j payload,
             final (run tl j
               (bind (console LOG [lit "♻ Updating action: " ++ taskName])
                  (fun _ =>
                     bind (makeRequest h (SA_API_URL h ++ lit "/" ++ template h taskId)
                             (lit "PATCH") (write_headers h apiToken) (Some payload))
                       (fun response =>
                          if ok_status response then console LOG [lit "✔ Update successful"]
                          else console ERROR [lit "❌ Failed to update task: "
                                              ++ JSON_stringify h (data response)]))))
             <> Exited code).
  { intros j payload. rewrite run_console. cbn [emit final].
    rewrite run_bind, run_makeRequest. unfold and_then.
    destruct (w_http (tl j) _) as [e|[statusCode body]]; cbn [emit final trace next];
      [discriminate|].
    destruct (ok_status _); discriminate. }
  unfold update_task. rewrite run_console. cbn [emit final].
  rewrite (run_bind_returned tl i _ _ changedFiles Hc). cbn [final].
  destruct (onlyPyFilesChanged changedFiles).
  - rewrite run_bind, (run_bind_returned tl _ _ _ partial Hp). unfold and_then.
    cbn [final trace next].
    destruct (Val.truthy (Val.get partial (lit "error")));
      cbn [run bind console emit final trace next]; apply Hsend.
  - cbn [bind]. apply Hsend.
Qed.

(** The lookup and what follows end normally once the URL of the lookup is
    built. *)
Lemma sync_payload_returned (h : Host) (tl : Timeline) (i : nat)
    (cleanFolder apiToken url : jsstring) (fullPayload : value) :
  lookup_url h (SA_API_URL h) (template h (Val.get fullPayload (lit "name"))) = inr url ->
  final (run tl i (sync_payload h cleanFolder apiToken fullPayload)) = Returned tt.
Proof.
  intros Hurl. unfold sync_payload.
  set (taskName := template h (Val.get fullPayload (lit "name"))) in *.
  rewrite run_console. cbn [emit final].
  rewrite run_bind, (run_checkTaskExists h tl i taskName apiToken url Hurl).
  assert (Hguard : forall j (p : prog unit),
             (forall code, final (run tl j p) <> Exited code) ->
             final (run tl j
               (finally
                  (try_catch p
                     (fun error =>
                        console ERROR [lit "❌ Error syncing task " ++ taskName ++ lit ":";
                                       error]))
                  (console LOG [lit "----------------------------------"])))
             = Returned tt).
  { intros j p Hp. rewrite run_finally, run_try_catch. unfold and_finally, or_catch.
    destruct (final (run tl j p)) as [[]|e|code] eqn:E; cbn [final trace next run console emit];
      rewrite ?E; cbn [final trace next run console emit]; try reflexivity.
    now destruct (Hp code). }
  assert (Hcreate : forall j code,
             final (run tl j (create_task h taskName apiToken fullPayload)) <> Exited code).
  { intros j code. unfold create_task. rewrite run_console. cbn [emit final].
    rewrite run_bind, run_makeRequest. unfold and_then.
    destruct (w_http (tl j) _) as [e|[statusCode body]]; cbn [emit final trace next];
      [discriminate|].
    destruct (ok_status _); discriminate. }
  unfold and_then.
  destruct (w_http (tl i) (lookup_request h url apiToken)) as [e|[statusCode body]];
    cbn [final trace next Val.truthy negb].
  - apply Hguard, Hcreate.
  - destruct (Val.truthy (parse_id _)); cbn [negb].
    + apply Hguard. intros code. apply update_task_no_exit.
    + apply Hguard, Hcreate.
Qed.



(** ** The script from its entry point *)

(** The scenario of the specification: two changed folders, one unknown
    to the server and one known whose script alone changed.  One POST with
    the full payload, one PATCH with the file-only payload, both logged as
    successes, and a normal end. *)
Example end_to_end_scenario :
  let r := run (still (Demo.two_folders
                         (Demo.git_lists "actions/a/config.yaml
actions/a/main.py
actions/b/main.py")
                         Demo.server_knows_b))
             0 (script Demo.host) in
  requests (trace r)
  = [lookup_request Demo.host Demo.lookup_url_a (lit "secret");
     create_request Demo.host (lit "secret") Demo.full_payload;
     lookup_request Demo.host
       (lit "https://zimmer.superannotate.com/api/v1/custom_task?name=b") (lit "secret");
     patch_request Demo.host (lit "secret") (VStr (lit "t1"))
       (file_only (lit "print('h%C3%A9llo')%0A"))]
  /\ logged (lit "✔ Created successfully (t2)") (trace r) = true
  /\ logged (lit "✔ Update successful") (trace r) = true
  /\ final r = Returned tt.
Proof. vm_compute. split; [|split; [|split]]; reflexivity. Qed.

(** The same scenario with a script file that disappears after the lookup:
    the full payload is built, the task is found, the warning is logged and
    the full payload is sent. *)
Example script_falls_back_to_full_payload :
  let r := run (Demo.script_vanishes 10
                  (Demo.world (Demo.git_lists "actions/a/main.py")
                     (Some Demo.config_ok) (Some Demo.script_text) Demo.server_knows))
             0 (script Demo.host) in
  requests (trace r)
  = [lookup_request Demo.host Demo.lookup_url_a (lit "secret");
     patch_request Demo.host (lit "secret") (VStr (lit "t1")) Demo.full_payload]
  /\ existsb (fun o => match o with Logged WARN _ => true | _ => false end) (trace r) = true
  /\ final r = Returned tt.
Proof. vm_compute. split; [|split]; reflexivity. Qed.

(** C6, as stated, fails for a parse failure: the answer of the failing
    proxy is not JSON, the lookup reports "not found", and nothing is
    logged. *)
Lemma unparsable_answer_is_not_logged :
  JSON_parse Demo.host Demo.body_html = None
  /\ run (still (Demo.world (Demo.git_lists "actions/a/main.py")
                   (Some Demo.config_ok) (Some Demo.script_text) Demo.server_down)) 0
       (checkTaskExists Demo.host (lit "a") (lit "secret"))
     = mkResult [Sent (lookup_request Demo.host Demo.lookup_url_a (lit "secret"))]
         (Returned VNull) 1.
Proof. split; vm_compute; reflexivity. Qed.

(** C6 (amended): the lookup reads the identifier from the first element of
    [results] if there is one, else from the top-level [id], else reports
    "not found" ([null]).  A network failure is logged and reported as "not
    found"; a body that is not JSON is kept as text and reported as "not
    found" without a log line.  Neither is propagated, and both send the
    folder to a create attempt. *)
Theorem lookup_failures_lead_to_create (h : Host) (tl : Timeline) (i : nat)
    (cleanFolder apiToken url : jsstring) (fullPayload : value) :
  let taskName := template h (Val.get fullPayload (lit "name")) in
  let lookup := lookup_request h url apiToken in
  lookup_url h (SA_API_URL h) taskName = inr url ->
  (forall error : Error,
      w_http (tl i) lookup = inl error ->
      run tl i (checkTaskExists h taskName apiToken)
      = mkResult [Sent lookup; Logged ERROR [lit "Error checking task existence:"; error]]
          (Returned VNull) (S i)
      /\ requests (trace (run tl i (sync_payload h cleanFolder apiToken fullPayload)))
         = [lookup; create_request h apiToken fullPayload])
  /\ (forall (statusCode : N) (body : jsstring),
         w_http (tl i) lookup = inr (statusCode, body) ->
         JSON_parse h body = None ->
         run tl i (checkTaskExists h taskName apiToken)
         = mkResult [Sent lookup] (Returned VNull) (S i)
         /\ requests (trace (run tl i (sync_payload h cleanFolder apiToken fullPayload)))
            = [lookup; create_request h apiToken fullPayload])
  /\ (forall (statusCode : N) (body : jsstring) (d : value),
         w_http (tl i) lookup = inr (statusCode, body) ->
         JSON_parse h body = Some d ->
         final (run tl i (checkTaskExists h taskName apiToken))
         = Returned (if Val.truthy (first_result_id d) then first_result_id d
                     else if Val.truthy (top_level_id d) then top_level_id d
                     else VNull)).
Proof.
  intros taskName lookup Hurl.
  pose proof (run_checkTaskExists h tl i taskName apiToken url Hurl) as Hrun.
  pose proof (requests_sync_payload h tl i cleanFolder apiToken url fullPayload Hurl) as Hreq.
  fold taskName lookup in Hrun, Hreq. cbv zeta in Hreq.
  split; [|split].
  - intros error Hnet. rewrite Hnet in Hrun, Hreq. split; [exact Hrun|exact Hreq].
  - intros statusCode body Hans Hparse. rewrite Hans in Hrun, Hreq.
    unfold lookup_result, response_data in Hrun, Hreq. rewrite Hparse in Hrun, Hreq.
    rewrite parse_id_text in Hrun, Hreq. split; [exact Hrun|exact Hreq].
  - intros statusCode body d Hans Hparse. rewrite Hans in Hrun. rewrite Hrun.
    cbn [final]. unfold response_data. rewrite Hparse.
    now rewrite parse_id_cases.
Qed.

Lemma lookup_failures_lead_to_create_witness :
  let w := Demo.world (Demo.git_lists "actions/a/main.py")
             (Some Demo.config_ok) (Some Demo.script_text) Demo.unreachable in
  run (still w) 0 (checkTaskExists Demo.host (lit "a") (lit "secret"))
  = mkResult [Sent (lookup_request Demo.host Demo.lookup_url_a (lit "secret"));
              Logged ERROR [lit "Error checking task existence:";
                            lit "connect ECONNREFUSED 127.0.0.1:443"]]
      (Returned VNull) 1
  /\ requests (trace (run (still w) 0
       (sync_payload Demo.host (lit "actions/a") (lit "secret") Demo.full_payload)))
     = [lookup_request Demo.host Demo.lookup_url_a (lit "secret");
        create_request Demo.host (lit "secret") Demo.full_payload].
Proof.
  intros w.
  apply (proj1 (lookup_failures_lead_to_create Demo.host (still w) 0 (lit "actions/a")
                  (lit "secret") Demo.lookup_url_a Demo.full_payload
                  ltac:(vm_compute; reflexivity))
           (lit "connect ECONNREFUSED 127.0.0.1:443")).
  reflexivity.
Defined.

(** C9: the identifier returned by the lookup is read from the body of the
    answer alone, whatever its status: the first truthy of [results[0].id]
    and [id], which is then the task that is updated; when both are falsy
    the lookup reports "not found" and the folder goes to a create
    attempt. *)
Theorem lookup_ignores_status (h : Host) (tl : Timeline) (i : nat)
    (cleanFolder apiToken url : jsstring) (fullPayload : value)
    (statusCode : N) (body : jsstring) :
  let taskName := template h (Val.get fullPayload (lit "name")) in
  let lookup := lookup_request h url apiToken in
  let d := response_data h body in
  let found := if Val.truthy (first_result_id d) then first_result_id d
               else if Val.truthy (top_level_id d) then top_level_id d
               else VNull in
  lookup_url h (SA_API_URL h) taskName = inr url ->
  w_http (tl i) lookup = inr (statusCode, body) ->
  run tl i (checkTaskExists h taskName apiToken)
  = mkResult [Sent lookup] (Returned found) (S i)
  /\ (Val.truthy found = true ->
      exists payload,
        requests (trace (run tl i (sync_payload h cleanFolder apiToken fullPayload)))
        = [lookup; patch_request h apiToken found payload])
  /\ (Val.truthy (first_result_id d) = false ->
      Val.truthy (top_level_id d) = false ->
      found = VNull
      /\ requests (trace (run tl i (sync_payload h cleanFolder apiToken fullPayload)))
         = [lookup; create_request h apiToken fullPayload]).
Proof.
  intros taskName lookup d found Hurl Hans.
  pose proof (run_checkTaskExists h tl i taskName apiToken url Hurl) as Hrun.
  pose proof (requests_sync_payload h tl i cleanFolder apiToken url fullPayload Hurl) as Hreq.
  fold taskName lookup in Hrun, Hreq. cbv zeta in Hreq.
  rewrite Hans in Hrun, Hreq. unfold lookup_result in Hreq.
  rewrite parse_id_cases in Hrun, Hreq. cbn [data] in Hrun, Hreq.
  fold d in Hrun, Hreq. fold (first_result_id d) (top_level_id d) in Hrun, Hreq.
  fold found in Hrun, Hreq.
  split; [exact Hrun|]. split.
  - intros Htrue. rewrite Htrue in Hreq.
    destruct (requests_update_task_shape h tl (S i) cleanFolder taskName apiToken found
                fullPayload) as (payload & Hp).
    exists payload. now rewrite Hreq, Hp.
  - intros H1 H2. assert (Hnull : found = VNull) by (unfold found; now rewrite H1, H2).
    split; [exact Hnull|]. rewrite Hnull in Hreq. exact Hreq.
Qed.

(** The server answers the lookup with status 500 and the body
    [{"id":"t2"}]: the task [t2] is updated. *)
Lemma lookup_ignores_status_witness :
  let w := Demo.world (Demo.git_lists "actions/a/main.py")
             (Some Demo.config_ok) (Some Demo.script_text) Demo.server_error_with_id in
  run (still w) 0 (checkTaskExists Demo.host (lit "a") (lit "secret"))
  = mkResult [Sent (lookup_request Demo.host Demo.lookup_url_a (lit "secret"))]
      (Returned (VStr (lit "t2"))) 1.
Proof.
  intros w.
  apply (proj1 (lookup_ignores_status Demo.host (still w) 0 (lit "actions/a")
                  (lit "secret") Demo.lookup_url_a Demo.full_payload 500%N Demo.body_created
                  ltac:(vm_compute; reflexivity) ltac:(vm_compute; reflexivity))).
Defined.

(** Falsy identifiers: [0], the empty string and [null] at both places. *)
Example falsy_ids_are_not_found :
  parse_id (mkResponse 200 (VObj [(lit "results", VArr [VObj [(lit "id", VNum 0%float)]]);
                                  (lit "id", VStr [])])) = VNull
  /\ parse_id (mkResponse 200 (VObj [(lit "id", VNull)])) = VNull
  /\ parse_id (mkResponse 404 (VObj [(lit "results", VArr [VObj [(lit "id", VNum 0%float)]]);
                                     (lit "id", VNum 7%float)])) = VNum 7%float.
Proof. split; [|split]; vm_compute; reflexivity. Qed.

(** ** Validation *)

(** The loop over the required keys collects one line per missing key. *)
Lemma check_keys_object (h : Host) (config : value) (keys errors : list jsstring) :
  Val.is_object config = true ->
  check_keys h config keys errors
  = inr (errors
         ++ map required_line
              (filter (fun key => match Val.has key config with Some true => false | _ => true end)
                 keys)).
Proof.
  intros Hobj. revert errors. induction keys as [|key keys IH]; intros errors;
    cbn [check_keys filter map].
  - now rewrite app_nil_r.
  - destruct config; try discriminate Hobj; cbn [Val.has];
      match goal with
      | |- context [match ?c with Some _ => true | None => false end] => destruct c
      | |- context [match ?c with Some i => _ | None => _ end] => destruct c
      end;
      try (match goal with |- context [Nat.ltb ?a ?b] => destruct (Nat.ltb a b) end);
      try (match goal with |- context [Str.eqb ?a ?b] => destruct (Str.eqb a b) end);
      rewrite IH; cbn [map]; rewrite <- ?app_assoc; reflexivity.
Qed.

Lemma validateConfig_missing (h : Host) (config : value) (folder : jsstring) :
  Val.is_object config = true ->
  missing_keys config <> [] ->
  validateConfig h config folder
  = inr (error_object (invalid_config_message folder (missing_keys config))).
Proof.
  intros Hobj Hmiss. unfold validateConfig. rewrite (check_keys_object h config _ _ Hobj).
  cbn [app]. fold (missing_keys config).
  destruct (missing_keys config); [contradiction|]. reflexivity.
Qed.

Lemma validateConfig_complete (h : Host) (config : value) (folder : jsstring) :
  Val.is_object config = true ->
  missing_keys config = [] ->
  validateConfig h config folder = inr VNull.
Proof.
  intros Hobj Hmiss. unfold validateConfig. rewrite (check_keys_object h config _ _ Hobj).
  cbn [app]. fold (missing_keys config). now rewrite Hmiss.
Qed.

Lemma invalid_config_message_marked (folder : jsstring) (missing : list jsstring) :
  Str.includes (invalid_config_message folder missing) (lit "Invalid config.yaml") = true
  /\ Str.is_empty (invalid_config_message folder missing) = false.
Proof.
  unfold invalid_config_message.
  replace (lit "Invalid config.yaml in ") with (lit "Invalid config.yaml" ++ lit " in ")
    by (vm_compute; reflexivity).
  rewrite <- app_assoc. split; [apply StrFacts.includes_app|].
  replace (lit "Invalid config.yaml") with (0x49%N :: lit "nvalid config.yaml")
    by (vm_compute; reflexivity).
  reflexivity.
Qed.

Lemma still_at (w : World) (i : nat) : still w i = w.
Proof. reflexivity. Qed.

(** An error object is an object: it is truthy, whatever its message. *)
Lemma truthy_error_object (message : jsstring) : Val.truthy (error_object message) = true.
Proof. reflexivity. Qed.

Lemma get_error_object (message : jsstring) :
  Val.get (error_object message) (lit "error") = VStr message.
Proof. unfold error_object. cbn [Val.get Val.assoc]. now rewrite StrFacts.eqb_refl. Qed.

Lemma run_generatePayload_invalid (h : Host) (w : World) (i : nat) (cleanFolder : jsstring)
    (content : Buffer) (config : value) :
  w_exists w (Path.join cleanFolder (lit "config.yaml")) = true ->
  w_read w (Path.join cleanFolder (lit "config.yaml")) = inr content ->
  yaml_load h (Utf8.toString content) = inr config ->
  Val.is_object config = true ->
  missing_keys config <> [] ->
  run (still w) i (generatePayload h cleanFolder)
  = mkResult []
      (Returned (error_object (invalid_config_message cleanFolder (missing_keys config))))
      (2 + i).
Proof.
  intros Hex Hrd Hy Hobj Hmiss.
  unfold generatePayload, fs_existsSync, fs_readFileSync, still.
  cbn [run bind try_catch]. rewrite Hex. cbn [negb run bind try_catch lift].
  rewrite Hrd. cbn [run bind try_catch lift]. rewrite Hy. cbn [run bind try_catch lift].
  rewrite (validateConfig_missing h config cleanFolder Hobj Hmiss).
  cbn [run bind try_catch lift]. rewrite truthy_error_object. reflexivity.
Qed.

(** C2, as stated, fails for a folder without [main.py]: its configuration
    lacks three of the five keys, yet the folder is skipped and the run ends
    normally. *)
Lemma invalid_config_without_script_is_skipped :
  yaml_load Demo.host (Utf8.toString (list_byte_of_string Demo.config_partial))
  = inr Demo.config_partial_value
  /\ missing_keys Demo.config_partial_value
     = [lit "description"; lit "time_limit"; lit "concurrency"]
  /\ run (still (Demo.world (Demo.git_lists "actions/a/config.yaml")
                   (Some Demo.config_partial) None Demo.server_empty)) 0
       (script Demo.host)
     = mkResult [Logged LOG [lit "⚠️  Skipping actions/a: No main.py found."]]
         (Returned tt) 5.
Proof. split; [|split]; vm_compute; reflexivity. Qed.

(** C2 (amended): for a folder that holds both [config.yaml] and [main.py]
    and whose configuration parses to a mapping (or a sequence) that lacks
    some of the five required keys, payload building fails with one error
    that lists every missing key, and the run ends there with exit code 1:
    the folders that follow are not processed. *)
Theorem invalid_config_stops_the_run (h : Host) (w : World) (i : nat)
    (folder apiToken : jsstring) (rest : list jsstring)
    (content : Buffer) (config : value) :
  let cleanFolder := Str.strip_trailing_slash folder in
  let message := invalid_config_message cleanFolder (missing_keys config) in
  w_exists w (Path.join cleanFolder (lit "config.yaml")) = true ->
  w_exists w (Path.join cleanFolder (lit "main.py")) = true ->
  w_read w (Path.join cleanFolder (lit "config.yaml")) = inr content ->
  yaml_load h (Utf8.toString content) = inr config ->
  Val.is_object config = true ->
  missing_keys config <> [] ->
  final (run (still w) i (generatePayload h cleanFolder)) = Returned (error_object message)
  /\ run (still w) i (forEach (folder :: rest) (fun f => syncTask h f apiToken))
     = mkResult
         [Logged LOG [lit "🔧 Processing folder: " ++ cleanFolder];
          Logged LOG [lit " 📄 Found config.yaml"];
          Logged LOG [lit " 📄 Found main.py"];
          Logged ERROR [lit "❌ Error processing " ++ cleanFolder ++ lit ": " ++ message]]
         (Exited 1) (4 + i).
Proof.
  intros cleanFolder message Hcfg Hmain Hrd Hy Hobj Hmiss.
  pose proof (invalid_config_message_marked cleanFolder (missing_keys config)) as [Hinc Hne].
  fold message in Hinc, Hne.
  split.
  - now rewrite (run_generatePayload_invalid h w i cleanFolder content config).
  - assert (Hsync : run (still w) i (syncTask h folder apiToken)
                    = mkResult
                        [Logged LOG [lit "🔧 Processing folder: " ++ cleanFolder];
                         Logged LOG [lit " 📄 Found config.yaml"];
                         Logged LOG [lit " 📄 Found main.py"];
                         Logged ERROR [lit "❌ Error processing " ++ cleanFolder ++ lit ": "
                                       ++ message]]
                        (Exited 1) (4 + i)).
    { unfold syncTask. fold cleanFolder. unfold fs_existsSync.
      cbn [run bind]. rewrite still_at, Hcfg.
      cbn [negb run bind]. rewrite still_at, Hmain.
      cbn [negb run bind console]. cbn [emit trace final next].
      rewrite run_bind,
        (run_generatePayload_invalid h w _ cleanFolder content config Hcfg Hrd Hy Hobj Hmiss).
      unfold and_then. cbn [final trace next app]. fold message.
      rewrite get_error_object. cbn [Val.truthy]. rewrite Hne. cbn [negb].
      unfold payload_failed. cbn [template]. rewrite Hinc.
      reflexivity. }
    rewrite (run_forEach_exit (still w) (fun f => syncTask h f apiToken) folder rest i 1);
      [exact Hsync|now rewrite Hsync].
Qed.

Lemma invalid_config_stops_the_run_witness :
  run (still (Demo.world (Demo.git_lists "actions/a/config.yaml")
                (Some Demo.config_partial) (Some Demo.script_text) Demo.server_empty)) 3
    (forEach [lit "actions/a"; lit "actions/b"] (fun f => syncTask Demo.host f (lit "secret")))
  = mkResult
      [Logged LOG [lit "🔧 Processing folder: actions/a"];
       Logged LOG [lit " 📄 Found config.yaml"];
       Logged LOG [lit " 📄 Found main.py"];
       Logged ERROR [lit "❌ Error processing actions/a: Invalid config.yaml in actions/a:"
                     ++ [0x0A%N] ++ lit "  - 'description' is required"
                     ++ [0x0A%N] ++ lit "  - 'time_limit' is required"
                     ++ [0x0A%N] ++ lit "  - 'concurrency' is required"]]
      (Exited 1) 7.
Proof.
  refine (eq_trans
            (proj2 (invalid_config_stops_the_run Demo.host
                      (Demo.world (Demo.git_lists "actions/a/config.yaml")
                         (Some Demo.config_partial) (Some Demo.script_text)
                         Demo.server_empty)
                      3 (lit "actions/a") (lit "secret") [lit "actions/b"]
                      (list_byte_of_string Demo.config_partial) Demo.config_partial_value
                      _ _ _ _ _ _))
            _);
    try (vm_compute; reflexivity).
  vm_compute. discriminate.
Defined.

(** A syntax error in [config.yaml] is logged and the folder is left: unless
    the parser's message happens to contain the marker that the orchestrator
    looks for, the run goes on. *)
Lemma yaml_error_is_not_fatal (h : Host) (w : World) (i : nat)
    (folder apiToken : jsstring) (content : Buffer) (error : Error) :
  let cleanFolder := Str.strip_trailing_slash folder in
  w_exists w (Path.join cleanFolder (lit "config.yaml")) = true ->
  w_exists w (Path.join cleanFolder (lit "main.py")) = true ->
  w_read w (Path.join cleanFolder (lit "config.yaml")) = inr content ->
  yaml_load h (Utf8.toString content) = inl error ->
  Str.includes (lit "Invalid YAML: " ++ error) (lit "Invalid config.yaml") = false ->
  run (still w) i (syncTask h folder apiToken)
  = mkResult
      [Logged LOG [lit "🔧 Processing folder: " ++ cleanFolder];
       Logged LOG [lit " 📄 Found config.yaml"];
       Logged LOG [lit " 📄 Found main.py"];
       Logged ERROR [lit "❌ Error processing " ++ cleanFolder ++ lit ": "
                     ++ lit "Invalid YAML: " ++ error]]
      (Returned tt) (4 + i).
Proof.
  intros cleanFolder Hcfg Hmain Hrd Hy Hinc.
  assert (Hne : Str.is_empty (lit "Invalid YAML: " ++ error) = false).
  { replace (lit "Invalid YAML: ") with (0x49%N :: lit "nvalid YAML: ")
      by (vm_compute; reflexivity). reflexivity. }
  unfold syncTask. fold cleanFolder. unfold fs_existsSync.
  cbn [run bind]. rewrite still_at, Hcfg.
  cbn [negb run bind]. rewrite still_at, Hmain.
  cbn [negb run bind console]. cbn [emit trace final next].
  unfold generatePayload, fs_existsSync, fs_readFileSync.
  cbn [run bind try_catch]. rewrite still_at, Hcfg.
  cbn [negb run bind try_catch lift]. rewrite still_at, Hrd.
  cbn [run bind try_catch lift]. rewrite Hy. cbn [run bind try_catch lift].
  rewrite get_error_object. cbn [Val.truthy]. rewrite Hne. cbn [negb].
  unfold payload_failed. cbn [template run bind console]. rewrite Hinc.
  reflexivity.
Qed.

(** C3 on a failing input: [config.yaml] of [actions/a] has a syntax error.
    The error is logged as [Invalid YAML], the run goes on to the next
    folder and ends normally. *)
Lemma yaml_syntax_error_does_not_stop_the_run :
  yaml_load Demo.host (Utf8.toString (list_byte_of_string Demo.config_broken))
  = inl (lit "unexpected end of the stream within a flow collection (3:1)")
  /\ run (still (Demo.world (Demo.git_lists "actions/a/config.yaml
actions/b/main.py")
                   (Some Demo.config_broken) (Some Demo.script_text) Demo.server_empty)) 0
       (script Demo.host)
     = mkResult
         [Logged LOG [lit "🔧 Processing folder: actions/a"];
          Logged LOG [lit " 📄 Found config.yaml"];
          Logged LOG [lit " 📄 Found main.py"];
          Logged ERROR [lit "❌ Error processing actions/a: Invalid YAML: unexpected end of the stream within a flow collection (3:1)"];
          Logged LOG [lit "⚠️  Skipping actions/b: No config.yaml found."]]
         (Returned tt) 8.
Proof. split; vm_compute; reflexivity. Qed.

(** ** The full payload *)

(** The full payload of a folder with a complete configuration and a
    readable script. *)
Lemma run_generatePayload_ok (h : Host) (tl : Timeline) (i : nat) (folder : jsstring)
    (content fileContent : Buffer) (config : value) :
  w_exists (tl i) (Path.join folder (lit "config.yaml")) = true ->
  w_read (tl (1 + i)) (Path.join folder (lit "config.yaml")) = inr content ->
  yaml_load h (Utf8.toString content) = inr config ->
  Val.is_object config = true ->
  missing_keys config = [] ->
  w_exists (tl (2 + i)) (Path.join folder (lit "main.py")) = true ->
  w_read (tl (3 + i)) (Path.join folder (lit "main.py")) = inr fileContent ->
  exists encodedFile,
    encode_file h fileContent = inr encodedFile
    /\ Uri.decodeURIComponent encodedFile = Some (Utf8.toString fileContent)
    /\ run tl i (generatePayload h folder)
       = mkResult []
           (Returned
              (let config :=
                 Val.set config (lit "interpreter") (Val.get config (lit "interpreter")) in
               let config :=
                 Val.set config (lit "requirements") (Val.get config (lit "requirements")) in
               VObj [(lit "name", VStr (Path.basename folder));
                     (lit "description", Val.get config (lit "description"));
                     (lit "memory", Val.get config (lit "memory"));
                     (lit "time_limit", Val.get config (lit "time_limit"));
                     (lit "concurrency", Val.get config (lit "concurrency"));
                     (lit "config", config);
                     (lit "file", VStr encodedFile)]))
           (4 + i).
Proof.
  intros Hex Hrd Hy Hobj Hmiss Hex' Hrd'.
  destruct (script_text_roundtrip_lemma h fileContent) as (e & He & Hd).
  exists e. split; [exact He|]. split; [exact Hd|].
  unfold generatePayload, fs_existsSync, fs_readFileSync.
  cbn [run bind try_catch lift negb]. rewrite Hex.
  cbn [run bind try_catch lift negb]. cbn [Nat.add] in Hrd. rewrite Hrd.
  cbn [run bind try_catch lift negb]. rewrite Hy.
  cbn [run bind try_catch lift negb].
  rewrite (validateConfig_complete h config folder Hobj Hmiss).
  cbn [run bind try_catch lift negb Val.truthy]. cbn [Nat.add] in Hex'. rewrite Hex'.
  cbn [run bind try_catch lift negb]. cbn [Nat.add] in Hrd'. rewrite Hrd'.
  cbn [run bind try_catch lift negb]. rewrite He.
  cbn [run bind try_catch lift negb]. reflexivity.
Qed.

(** X2: for a folder with a complete configuration and a readable script,
    the full payload has the folder's base name, the four values copied from
    the configuration, the configuration itself (with [requirements] set,
    possibly to [undefined]) and the encoded script, which decodes back to
    the text of the file. *)
Theorem run_generatePayload_complete (h : Host) (tl : Timeline) (i : nat) (folder : jsstring)
    (content fileContent : Buffer) (config : value) :
  w_exists (tl i) (Path.join folder (lit "config.yaml")) = true ->
  w_read (tl (1 + i)) (Path.join folder (lit "config.yaml")) = inr content ->
  yaml_load h (Utf8.toString content) = inr config ->
  Val.is_object config = true ->
  missing_keys config = [] ->
  w_exists (tl (2 + i)) (Path.join folder (lit "main.py")) = true ->
  w_read (tl (3 + i)) (Path.join folder (lit "main.py")) = inr fileContent ->
  exists encodedFile,
    encode_file h fileContent = inr encodedFile
    /\ Uri.decodeURIComponent encodedFile = Some (Utf8.toString fileContent)
    /\ run tl i (generatePayload h folder)
       = mkResult []
           (Returned
              (let config :=
                 Val.set config (lit "interpreter") (Val.get config (lit "interpreter")) in
               let config :=
                 Val.set config (lit "requirements") (Val.get config (lit "requirements")) in
               VObj [(lit "name", VStr (Path.basename folder));
                     (lit "description", Val.get config (lit "description"));
                     (lit "memory", Val.get config (lit "memory"));
                     (lit "time_limit", Val.get config (lit "time_limit"));
                     (lit "concurrency", Val.get config (lit "concurrency"));
                     (lit "config", config);
                     (lit "file", VStr encodedFile)]))
           (4 + i).
Proof. apply run_generatePayload_ok. Qed.

(** The sample folder: its full payload is [Demo.full_payload]. *)
Lemma run_generatePayload_complete_witness :
  final (run (still (Demo.world (Demo.git_lists "actions/a/main.py")
                       (Some Demo.config_ok) (Some Demo.script_text) Demo.server_knows)) 0
           (generatePayload Demo.host (lit "actions/a")))
  = Returned Demo.full_payload.
Proof.
  destruct (run_generatePayload_complete Demo.host
              (still (Demo.world (Demo.git_lists "actions/a/main.py")
                        (Some Demo.config_ok) (Some Demo.script_text) Demo.server_knows))
              0 (lit "actions/a")
              (list_byte_of_string Demo.config_ok) (list_byte_of_string Demo.script_text)
              Demo.config_ok_value
              ltac:(vm_compute; reflexivity) ltac:(vm_compute; reflexivity)
              ltac:(vm_compute; reflexivity) ltac:(vm_compute; reflexivity)
              ltac:(vm_compute; reflexivity) ltac:(vm_compute; reflexivity)
              ltac:(vm_compute; reflexivity))
    as (encodedFile & He & _ & Hrun).
  vm_compute in He. injection He as <-.
  rewrite Hrun. vm_compute. reflexivity.
Defined.

(** The invalid configuration from the entry point: the run ends with exit
    code 1 at the first folder, and [actions/b], changed by the same commit,
    is not looked at. *)
Example script_exits_on_invalid_config :
  let r := run (still (Demo.world (Demo.git_lists "actions/a/config.yaml
actions/b/main.py")
                         (Some Demo.config_partial) (Some Demo.script_text)
                         Demo.server_empty))
             0 (script Demo.host) in
  final r = Exited 1
  /\ requests (trace r) = []
  /\ logged (lit "⚠️  Skipping actions/b: No config.yaml found.") (trace r) = false.
Proof. vm_compute. split; [|split]; reflexivity. Qed.

(** A configuration that is not a mapping is not caught by the validator:
    the [in] operator throws on it, the error is logged under another name
    and the run goes on. *)
Example empty_config_is_not_fatal :
  let r := run (still (Demo.world (Demo.git_lists "actions/a/config.yaml")
                         (Some EmptyString) (Some Demo.script_text) Demo.server_empty))
             0 (script Demo.host) in
  final r = Returned tt
  /\ logged (lit "❌ Error processing actions/a: Cannot use 'in' operator to search for 'description' in undefined")
       (trace r) = true.
Proof. vm_compute. split; reflexivity. Qed.
(** ** The change detectors, on every timeline *)

(** The preamble of the two detectors: a failure of [process.cwd] is thrown,
    the outcome of [git config] plays no part. *)
Lemma run_trust_cwd (tl : Timeline) (i : nat) :
  run tl i trust_cwd
  = match w_cwd (tl i) with
    | inl error => mkResult [] (Thrown error) (1 + i)
    | inr cwd => mkResult [] (Returned tt) (2 + i)
    end.
Proof.
  unfold trust_cwd, process_cwd, execSync. cbn [run bind try_catch lift].
  destruct (w_cwd (tl i)) as [error|cwd]; cbn [run bind try_catch lift]; [reflexivity|].
  destruct (w_exec (tl (S i)) (GitSafeDirectory cwd)); reflexivity.
Qed.

Lemma run_getChangedFolders (h : Host) (tl : Timeline) (i : nat) :
  run tl i (getChangedFolders h)
  = match w_cwd (tl i) with
    | inl error =>
        mkResult [Logged ERROR [lit "Error detecting changed folders:"; error]]
          (Returned []) (1 + i)
    | inr cwd =>
        match w_exec (tl (2 + i)) (GitLog (BITBUCKET_COMMIT h)) with
        | inl error =>
            mkResult [Logged ERROR [lit "Error detecting changed folders:"; error]]
              (Returned []) (3 + i)
        | inr listing => mkResult [] (Returned (changed_folders listing)) (3 + i)
        end
    end.
Proof.
  unfold getChangedFolders. rewrite run_try_catch, run_bind, run_trust_cwd.
  destruct (w_cwd (tl i)) as [error|cwd]; [reflexivity|].
  unfold and_then, or_catch, execSync. cbn [final trace next run bind lift app].
  destruct (w_exec (tl (2 + i)) _) as [error|listing]; reflexivity.
Qed.

Lemma run_getChangedFilesInFolder (h : Host) (tl : Timeline) (i : nat) (folder : jsstring) :
  run tl i (getChangedFilesInFolder h folder)
  = match w_cwd (tl i) with
    | inl error =>
        mkResult [Logged ERROR [lit "Error getting changed files in " ++ folder ++ lit ":"; error]]
          (Returned []) (1 + i)
    | inr cwd =>
        match w_exec (tl (2 + i)) (GitLog (BITBUCKET_COMMIT h)) with
        | inl error =>
            mkResult
              [Logged ERROR [lit "Error getting changed files in " ++ folder ++ lit ":"; error]]
              (Returned []) (3 + i)
        | inr listing => mkResult [] (Returned (files_in_folder folder listing)) (3 + i)
        end
    end.
Proof.
  unfold getChangedFilesInFolder. rewrite run_try_catch, run_bind, run_trust_cwd.
  destruct (w_cwd (tl i)) as [error|cwd]; [reflexivity|].
  unfold and_then, or_catch, execSync. cbn [final trace next run bind lift app].
  destruct (w_exec (tl (2 + i)) _) as [error|listing]; reflexivity.
Qed.

(** X3: the change detector of a folder never throws.  When the working
    directory or the history cannot be read, it writes one error to the
    console and returns the empty list; otherwise it returns the files of
    the folder and writes nothing.  Whether [git config] succeeds plays no
    part, and nothing is ever sent. *)
Theorem changed_files_on_every_timeline (h : Host) (tl : Timeline) (i : nat)
    (folder : jsstring) :
  run tl i (getChangedFilesInFolder h folder)
  = match w_cwd (tl i) with
    | inl error =>
        mkResult [Logged ERROR [lit "Error getting changed files in " ++ folder ++ lit ":"; error]]
          (Returned []) (1 + i)
    | inr cwd =>
        match w_exec (tl (2 + i)) (GitLog (BITBUCKET_COMMIT h)) with
        | inl error =>
            mkResult
              [Logged ERROR [lit "Error getting changed files in " ++ folder ++ lit ":"; error]]
              (Returned []) (3 + i)
        | inr listing => mkResult [] (Returned (files_in_folder folder listing)) (3 + i)
        end
    end.
Proof. apply run_getChangedFilesInFolder. Qed.
(** ** The changed files of a folder *)

Lemma replace_first_unfold (p r s : jsstring) :
  Str.replace_first p r s
  = match Str.strip_prefix p s with
    | Some rest => r ++ rest
    | None => match s with [] => [] | c :: s' => c :: Str.replace_first p r s' end
    end.
Proof. destruct s; reflexivity. Qed.

Lemma drop_spaces_keeps (c : N) (s : jsstring) :
  In c s -> Str.is_space c = false -> In c (Str.drop_spaces s).
Proof.
  intros Hin Hc. induction s as [|x s IH]; [contradiction|]. cbn [Str.drop_spaces].
  destruct (Str.is_space x) eqn:Hx; [|exact Hin].
  destruct Hin as [-> | Hin]; [congruence|]. now apply IH.
Qed.

(** A string that holds a character other than white space is not blank. *)
Lemma trim_not_blank (c : N) (s : jsstring) :
  In c s -> Str.is_space c = false -> Str.is_empty (Str.trim s) = false.
Proof.
  intros Hin Hc.
  assert (H : In c (Str.trim s)).
  { unfold Str.trim. apply -> in_rev. apply drop_spaces_keeps; [|exact Hc].
    apply -> in_rev. now apply drop_spaces_keeps. }
  destruct (Str.trim s); [contradiction|reflexivity].
Qed.

Lemma files_in_folder_flat_map (folder listing : jsstring) :
  files_in_folder folder listing
  = flat_map (fun line =>
                match Str.strip_prefix (Str.strip_trailing_slash folder ++ [Path.slash]) line with
                | Some rest => [rest]
                | None => []
                end)
      (Str.split newline listing).
Proof.
  unfold files_in_folder.
  induction (Str.split newline listing) as [|line lines IH]; cbn [filter map flat_map];
    [reflexivity|].
  unfold Str.startsWith at 1.
  destruct (Str.strip_prefix _ line) as [rest|] eqn:E.
  - pose proof (StrFacts.strip_prefix_inv _ _ _ E) as ->.
    rewrite (trim_not_blank Path.slash).
    + cbn [negb andb map app]. rewrite replace_first_unfold, StrFacts.strip_prefix_app.
      cbn [app]. now rewrite IH.
    + apply in_or_app. left. apply in_or_app. right. now left.
    + reflexivity.
  - rewrite andb_false_r. exact IH.
Qed.

Lemma In_files_in_folder (folder listing file : jsstring) :
  In file (files_in_folder folder listing)
  <-> In (Str.strip_trailing_slash folder ++ [Path.slash] ++ file) (Str.split newline listing).
Proof.
  rewrite files_in_folder_flat_map, in_flat_map. rewrite app_assoc. split.
  - intros (line & Hin & Hf).
    destruct (Str.strip_prefix _ line) as [rest|] eqn:E; [|contradiction].
    destruct Hf as [-> | []]. now rewrite <- (StrFacts.strip_prefix_inv _ _ _ E).
  - intros Hin. eexists. split; [exact Hin|].
    rewrite StrFacts.strip_prefix_app. now left.
Qed.

(** X4: the changed files of a folder are the remainders of the listed paths
    that start with the folder's path (less one final slash) and a slash, in
    the order of the listing and as many times as they are listed.  The test
    for blank lines removes nothing that the test of the prefix keeps, and
    only the prefix is cut off, even when the same text comes again further
    on in the path. *)
Theorem files_in_folder_spec (folder listing : jsstring) :
  let prefix := Str.strip_trailing_slash folder ++ [Path.slash] in
  files_in_folder folder listing
  = flat_map (fun line => match Str.strip_prefix prefix line with
                          | Some rest => [rest]
                          | None => []
                          end)
      (Str.split newline listing)
  /\ (forall file,
         In file (files_in_folder folder listing)
         <-> In (prefix ++ file) (Str.split newline listing)).
Proof.
  cbv zeta. split; [apply files_in_folder_flat_map|].
  intros file. rewrite <- app_assoc. apply In_files_in_folder.
Qed.

(** X5: the file-only payload is chosen exactly when the listing names the
    folder's [main.py] and names no other path under the folder. *)
Theorem file_only_update_chosen_iff (folder listing : jsstring) :
  let prefix := Str.strip_trailing_slash folder ++ [Path.slash] in
  let lines := Str.split newline listing in
  onlyPyFilesChanged (files_in_folder folder listing) = true
  <-> In (prefix ++ lit "main.py") lines
      /\ (forall line,
             In line lines -> Str.startsWith line prefix = true ->
             line = prefix ++ lit "main.py").
Proof.
  cbv zeta. rewrite onlyPyFilesChanged_spec. unfold every_change_is_script. split.
  - intros (Hne & Hall & _). split.
    + assert (Hex : exists file, In file (files_in_folder folder listing)).
      { destruct (files_in_folder folder listing) as [|file files]; [contradiction|].
        exists file. now left. }
      destruct Hex as [file Hin]. rewrite <- (Hall file Hin).
      rewrite <- app_assoc. now apply In_files_in_folder.
    + intros line Hin Hs. apply StrFacts.startsWith_inv in Hs as [rest ->].
      f_equal. apply Hall. apply In_files_in_folder. now rewrite app_assoc.
  - intros (Hmain & Hall).
    assert (Hfiles : forall file, In file (files_in_folder folder listing) -> file = lit "main.py").
    { intros file Hin. apply In_files_in_folder in Hin. rewrite app_assoc in Hin.
      apply Hall in Hin; [|apply StrFacts.startsWith_app].
      now apply app_inv_head in Hin. }
    split; [|split].
    + intros E. rewrite <- app_assoc in Hmain. apply In_files_in_folder in Hmain.
      now rewrite E in Hmain.
    + exact Hfiles.
    + intros Hin. apply Hfiles in Hin. vm_compute in Hin. discriminate.
Qed.

(** ** The token sanitizer, once more *)

(** X6: a token comes back unchanged exactly when it holds no white-space
    character: without white space after it, the word [Bearer] is not a
    prefix to remove. *)
Theorem sanitizeToken_fixed_points (token : jsstring) :
  sanitizeToken (Some token) = token <-> (forall c, In c token -> Str.is_space c = false).
Proof.
  split.
  - intros H c Hin. rewrite <- H in Hin. exact (sanitizeToken_no_space _ _ Hin).
  - intros H. unfold sanitizeToken. destruct token as [|c t]; [reflexivity|].
    cbn [Str.is_empty]. rewrite (strip_bearer_no_space _ H).
    now apply StrFacts.remove_spaces_fixed.
Qed.
(** ** The validator, on every value *)

Lemma filter_nil_iff {A : Type} (f : A -> bool) (l : list A) :
  filter f l = [] <-> (forall x, In x l -> f x = false).
Proof.
  induction l as [|a l IH]; cbn [filter In]; [tauto|].
  destruct (f a) eqn:E; split.
  - discriminate.
  - intros H. specialize (H a (or_introl eq_refl)). congruence.
  - intros H x [<- | Hin]; [exact E|]. now apply IH.
  - intros H. apply IH. intros x Hin. apply H. now right.
Qed.

Lemma validateConfig_null_iff (h : Host) (config : value) (folder : jsstring) :
  Val.is_object config = true ->
  validateConfig h config folder = inr VNull <-> missing_keys config = [].
Proof.
  intros Hobj. split.
  - intros H. destruct (missing_keys config) as [|key keys] eqn:E; [reflexivity|].
    rewrite (validateConfig_missing h config folder Hobj) in H; [discriminate|].
    rewrite E. discriminate.
  - apply validateConfig_complete, Hobj.
Qed.

Lemma assoc_map_values (f : value -> value) (key : jsstring) (fields : list (jsstring * value)) :
  Val.assoc key (map (fun kv => (fst kv, f (snd kv))) fields)
  = option_map f (Val.assoc key fields).
Proof.
  induction fields as [|[k v] fields IH]; cbn [map Val.assoc fst snd]; [reflexivity|].
  destruct (Str.eqb k key); [reflexivity|exact IH].
Qed.

(** X7: the validator accepts a mapping exactly when the mapping has the five
    required keys, and what it answers depends on the keys alone: the values
    are never looked at, so that a required key set to [null] is there. *)
Theorem validateConfig_checks_keys_only (h : Host) (fields : list (jsstring * value))
    (folder : jsstring) :
  (validateConfig h (VObj fields) folder = inr VNull
   <-> (forall key, In key requiredKeys -> Val.assoc key fields <> None))
  /\ (forall f : value -> value,
         validateConfig h (VObj (map (fun kv => (fst kv, f (snd kv))) fields)) folder
         = validateConfig h (VObj fields) folder).
Proof.
  split.
  - rewrite (validateConfig_null_iff h (VObj fields) folder eq_refl).
    unfold missing_keys. rewrite filter_nil_iff. cbn [Val.has].
    split; intros H key Hin; specialize (H key Hin);
      destruct (Val.assoc key fields); congruence.
  - intros f. unfold validateConfig.
    rewrite !(check_keys_object h (VObj _) _ _ eq_refl).
    replace (filter _ requiredKeys) with (missing_keys (VObj fields)); [reflexivity|].
    unfold missing_keys. apply filter_ext. intros key. cbn [Val.has].
    rewrite assoc_map_values. now destruct (Val.assoc key fields).
Qed.

Lemma validateConfig_primitive (h : Host) (config : value) (folder : jsstring) :
  Val.is_object config = false ->
  validateConfig h config folder = inl (type_error_in h (lit "description") config).
Proof. intros Hobj. destruct config; try discriminate Hobj; reflexivity. Qed.

(** X8: a configuration that is not a mapping.  A sequence has none of the
    five keys: all of them are reported missing.  On anything else ([null],
    [undefined], a boolean, a number, a string) the first test throws, and
    nothing is reported as missing. *)
Theorem validateConfig_not_a_mapping (h : Host) (folder : jsstring) :
  (forall items,
      validateConfig h (VArr items) folder
      = inr (error_object (invalid_config_message folder requiredKeys)))
  /\ (forall config,
         Val.is_object config = false ->
         validateConfig h config folder = inl (type_error_in h (lit "description") config)).
Proof.
  split.
  - intros items. rewrite (validateConfig_missing h (VArr items) folder eq_refl).
    + do 3 f_equal.
    + vm_compute. discriminate.
  - intros config. apply validateConfig_primitive.
Qed.

(** An empty [config.yaml] loads as [undefined]. *)
Lemma validateConfig_not_a_mapping_witness :
  validateConfig Demo.host VUndefined (lit "actions/a")
  = inl (lit "Cannot use 'in' operator to search for 'description' in undefined").
Proof.
  refine (eq_trans
            (proj2 (validateConfig_not_a_mapping Demo.host (lit "actions/a")) VUndefined _) _).
  - reflexivity.
  - vm_compute. reflexivity.
Defined.
(** ** The payload builders, on every timeline *)

(** What the validator returns is [null] or an error object. *)
Lemma validateConfig_value (h : Host) (config : value) (folder : jsstring) (v : value) :
  validateConfig h config folder = inr v ->
  v = VNull \/ exists message, v = error_object message.
Proof.
  unfold validateConfig. destruct (check_keys h config requiredKeys []) as [e|errors];
    [discriminate|].
  destruct (Nat.ltb 0 (List.length errors)); intros [= <-]; eauto.
Qed.

Ltac payload_step :=
  cbn [run bind try_catch lift negb final trace next Nat.add].

(** What building the full payload comes to. *)
Lemma generatePayload_shape (h : Host) (tl : Timeline) (i : nat) (folder : jsstring) :
  exists payload n,
    run tl i (generatePayload h folder) = mkResult [] (Returned payload) n
    /\ i < n <= 4 + i
    /\ ((exists message, payload = error_object message)
        \/ (exists config encodedFile, payload = payload_of folder config encodedFile)).
Proof.
  unfold generatePayload, fs_existsSync, fs_readFileSync. payload_step.
  destruct (w_exists (tl i) _); payload_step;
    [|do 2 eexists; split; [reflexivity|split; [lia|left; eauto]]].
  destruct (w_read (tl (S i)) _) as [e|content]; payload_step;
    [do 2 eexists; split; [reflexivity|split; [lia|left; eauto]]|].
  destruct (yaml_load h _) as [e|config]; payload_step;
    [do 2 eexists; split; [reflexivity|split; [lia|left; eauto]]|].
  destruct (validateConfig h config folder) as [e|validationError] eqn:Ev; payload_step;
    [do 2 eexists; split; [reflexivity|split; [lia|left; eauto]]|].
  destruct (validateConfig_value h config folder _ Ev) as [-> | [message ->]];
    cbn [Val.truthy error_object]; payload_step;
    [|do 2 eexists; split; [reflexivity|split; [lia|left; eauto]]].
  destruct (w_exists (tl (S (S i))) _); payload_step;
    [|do 2 eexists; split; [reflexivity|split; [lia|left; eauto]]].
  destruct (w_read (tl (S (S (S i)))) _) as [e|fileContent]; payload_step;
    [do 2 eexists; split; [reflexivity|split; [lia|left; eauto]]|].
  destruct (encode_file h fileContent) as [e|encodedFile]; payload_step;
    do 2 eexists; (split; [reflexivity|split; [lia|]]); [left; eauto|right].
  exists config, encodedFile. reflexivity.
Qed.

(** X9: building the full payload never throws and never ends the process,
    whatever the file system answers; it writes nothing to the console and
    sends nothing; it asks the file system at most four times; and what it
    returns is either an object with the one field [error] or the payload
    of seven fields. *)
Theorem generatePayload_total (h : Host) (tl : Timeline) (i : nat) (folder : jsstring) :
  exists payload n,
    run tl i (generatePayload h folder) = mkResult [] (Returned payload) n
    /\ i < n <= 4 + i
    /\ ((exists message, payload = error_object message)
        \/ (exists config encodedFile, payload = payload_of folder config encodedFile)).
Proof. apply generatePayload_shape. Qed.

(** X10: the failures of the full payload, one by one.  A configuration file
    that is missing, one that cannot be read and one that is not YAML; a
    configuration that is not a mapping; a script that is missing and one
    that cannot be read.  A read error of [config.yaml] goes under the name
    [Invalid YAML]; the errors of [main.py] and of the validator keep their
    own message. *)
Theorem generatePayload_failures (h : Host) (tl : Timeline) (i : nat) (folder : jsstring) :
  let configPath := Path.join folder (lit "config.yaml") in
  let mainPyPath := Path.join folder (lit "main.py") in
  let fails (message : jsstring) (n : nat) :=
    run tl i (generatePayload h folder) = mkResult [] (Returned (error_object message)) n in
  (w_exists (tl i) configPath = false -> fails (lit "No config.yaml found") (1 + i))
  /\ (forall error,
         w_exists (tl i) configPath = true ->
         w_read (tl (1 + i)) configPath = inl error ->
         fails (lit "Invalid YAML: " ++ error) (2 + i))
  /\ (forall content error,
         w_exists (tl i) configPath = true ->
         w_read (tl (1 + i)) configPath = inr content ->
         yaml_load h (Utf8.toString content) = inl error ->
         fails (lit "Invalid YAML: " ++ error) (2 + i))
  /\ (forall content config,
         w_exists (tl i) configPath = true ->
         w_read (tl (1 + i)) configPath = inr content ->
         yaml_load h (Utf8.toString content) = inr config ->
         Val.is_object config = false ->
         fails (type_error_in h (lit "description") config) (2 + i))
  /\ (forall content config,
         w_exists (tl i) configPath = true ->
         w_read (tl (1 + i)) configPath = inr content ->
         yaml_load h (Utf8.toString content) = inr config ->
         validateConfig h config folder = inr VNull ->
         w_exists (tl (2 + i)) mainPyPath = false ->
         fails (lit "No main.py file found") (3 + i))
  /\ (forall content config error,
         w_exists (tl i) configPath = true ->
         w_read (tl (1 + i)) configPath = inr content ->
         yaml_load h (Utf8.toString content) = inr config ->
         validateConfig h config folder = inr VNull ->
         w_exists (tl (2 + i)) mainPyPath = true ->
         w_read (tl (3 + i)) mainPyPath = inl error ->
         fails error (4 + i)).
Proof.
  cbv zeta. unfold generatePayload, fs_existsSync, fs_readFileSync.
  split; [|split; [|split; [|split; [|split]]]].
  - intros Hex. payload_step. rewrite Hex. reflexivity.
  - intros error Hex Hrd. payload_step. rewrite Hex. payload_step.
    cbn [Nat.add] in Hrd. rewrite Hrd. reflexivity.
  - intros content error Hex Hrd Hy. payload_step. rewrite Hex. payload_step.
    cbn [Nat.add] in Hrd. rewrite Hrd. payload_step. rewrite Hy. reflexivity.
  - intros content config Hex Hrd Hy Hobj. payload_step. rewrite Hex. payload_step.
    cbn [Nat.add] in Hrd. rewrite Hrd. payload_step. rewrite Hy. payload_step.
    rewrite (validateConfig_primitive h config folder Hobj). reflexivity.
  - intros content config Hex Hrd Hy Hv Hex'. payload_step. rewrite Hex. payload_step.
    cbn [Nat.add] in Hrd. rewrite Hrd. payload_step. rewrite Hy. payload_step.
    rewrite Hv. payload_step. cbn [Val.truthy]. payload_step.
    cbn [Nat.add] in Hex'. rewrite Hex'. reflexivity.
  - intros content config error Hex Hrd Hy Hv Hex' Hrd'. payload_step. rewrite Hex.
    payload_step. cbn [Nat.add] in Hrd. rewrite Hrd. payload_step. rewrite Hy. payload_step.
    rewrite Hv. payload_step. cbn [Val.truthy]. payload_step.
    cbn [Nat.add] in Hex'. rewrite Hex'. payload_step.
    cbn [Nat.add] in Hrd'. rewrite Hrd'. reflexivity.
Qed.

(** A folder whose script cannot be read although it is there. *)
Lemma generatePayload_failures_witness :
  run (still Sample.locked_script) 0 (generatePayload Demo.host (lit "actions/a"))
  = mkResult [] (Returned (error_object (lit "EACCES: permission denied"))) 4.
Proof.
  refine (proj2 (proj2 (proj2 (proj2 (proj2
            (generatePayload_failures Demo.host (still _) 0 (lit "actions/a"))))))
            (list_byte_of_string Demo.config_ok) Demo.config_ok_value
            (lit "EACCES: permission denied") _ _ _ _ _ _);
    vm_compute; reflexivity.
Defined.
(** What building the file-only payload comes to. *)
Lemma generateFileOnlyPayload_shape (h : Host) (tl : Timeline) (i : nat) (folder : jsstring) :
  let mainPyPath := Path.join folder (lit "main.py") in
  exists payload n,
    run tl i (generateFileOnlyPayload h folder) = mkResult [] (Returned payload) n
    /\ ((w_exists (tl i) mainPyPath = false
         /\ payload = error_object (lit "No main.py file found") /\ n = 1 + i)
        \/ (exists error,
              w_exists (tl i) mainPyPath = true
              /\ w_read (tl (1 + i)) mainPyPath = inl error
              /\ payload = error_object error /\ n = 2 + i)
        \/ (exists fileContent encodedFile,
              w_exists (tl i) mainPyPath = true
              /\ w_read (tl (1 + i)) mainPyPath = inr fileContent
              /\ Uri.decodeURIComponent encodedFile = Some (Utf8.toString fileContent)
              /\ payload = file_only encodedFile /\ n = 2 + i)).
Proof.
  cbv zeta.
  destruct (w_exists (tl i) (Path.join folder (lit "main.py"))) eqn:Hex.
  - destruct (w_read (tl (1 + i)) (Path.join folder (lit "main.py"))) as [error|fileContent]
      eqn:Hrd.
    + exists (error_object error), (2 + i). split.
      * unfold generateFileOnlyPayload, fs_existsSync, fs_readFileSync. payload_step.
        rewrite Hex. payload_step. cbn [Nat.add] in Hrd. rewrite Hrd. reflexivity.
      * right. left. exists error. auto.
    + destruct (generateFileOnlyPayload_readable h tl i folder fileContent Hex Hrd)
        as (encodedFile & _ & Hd & Hrun).
      exists (file_only encodedFile), (2 + i). split; [exact Hrun|].
      right. right. exists fileContent, encodedFile. auto.
  - exists (error_object (lit "No main.py file found")), (1 + i). split.
    + unfold generateFileOnlyPayload, fs_existsSync. payload_step. rewrite Hex. reflexivity.
    + left. auto.
Qed.

(** X11: building the file-only payload never throws either.  It fails in two
    ways only, a script that is missing and a script that cannot be read;
    percent-encoding never fails on the text of a file.  Otherwise the
    payload is the one field [file], which decodes to the text of the
    script. *)
Theorem generateFileOnlyPayload_total (h : Host) (tl : Timeline) (i : nat) (folder : jsstring) :
  let mainPyPath := Path.join folder (lit "main.py") in
  exists payload n,
    run tl i (generateFileOnlyPayload h folder) = mkResult [] (Returned payload) n
    /\ ((w_exists (tl i) mainPyPath = false
         /\ payload = error_object (lit "No main.py file found") /\ n = 1 + i)
        \/ (exists error,
              w_exists (tl i) mainPyPath = true
              /\ w_read (tl (1 + i)) mainPyPath = inl error
              /\ payload = error_object error /\ n = 2 + i)
        \/ (exists fileContent encodedFile,
              w_exists (tl i) mainPyPath = true
              /\ w_read (tl (1 + i)) mainPyPath = inr fileContent
              /\ Uri.decodeURIComponent encodedFile = Some (Utf8.toString fileContent)
              /\ payload = file_only encodedFile /\ n = 2 + i)).
Proof. apply generateFileOnlyPayload_shape. Qed.

Lemma get_file_error_object (message : jsstring) :
  Val.get (error_object message) (lit "file") = VUndefined.
Proof. vm_compute. reflexivity. Qed.

Lemma get_file_payload_of (folder : jsstring) (config : value) (encodedFile : jsstring) :
  Val.get (payload_of folder config encodedFile) (lit "file") = VStr encodedFile.
Proof. vm_compute. reflexivity. Qed.

(** X12: the two builders agree.  While the files of the folder stay as they
    are, the file-only payload is the field [file] of the full payload and
    nothing else. *)
Theorem file_only_payload_agrees (h : Host) (w : World) (i j : nat) (folder : jsstring)
    (payload : value) (encodedFile : jsstring) :
  final (run (still w) i (generatePayload h folder)) = Returned payload ->
  Val.get payload (lit "file") = VStr encodedFile ->
  run (still w) j (generateFileOnlyPayload h folder)
  = mkResult [] (Returned (file_only encodedFile)) (2 + j).
Proof.
  unfold generatePayload, generateFileOnlyPayload, fs_existsSync, fs_readFileSync.
  payload_step. rewrite !still_at.
  destruct (w_exists w (Path.join folder (lit "config.yaml"))); payload_step;
    [|intros [= <-]; rewrite get_file_error_object; discriminate].
  rewrite !still_at.
  destruct (w_read w (Path.join folder (lit "config.yaml"))) as [e|content]; payload_step;
    [intros [= <-]; rewrite get_file_error_object; discriminate|].
  destruct (yaml_load h _) as [e|config]; payload_step;
    [intros [= <-]; rewrite get_file_error_object; discriminate|].
  destruct (validateConfig h config folder) as [e|validationError] eqn:Ev; payload_step;
    [intros [= <-]; rewrite get_file_error_object; discriminate|].
  destruct (validateConfig_value h config folder _ Ev) as [-> | [message ->]];
    cbn [Val.truthy error_object]; payload_step;
    [|intros [= <-]; rewrite get_file_error_object; discriminate].
  rewrite !still_at.
  destruct (w_exists w (Path.join folder (lit "main.py"))); payload_step;
    [|intros [= <-]; rewrite get_file_error_object; discriminate].
  rewrite !still_at.
  destruct (w_read w (Path.join folder (lit "main.py"))) as [e|fileContent]; payload_step;
    [intros [= <-]; rewrite get_file_error_object; discriminate|].
  destruct (encode_file h fileContent) as [e|encoded]; payload_step;
    [intros [= <-]; rewrite get_file_error_object; discriminate|].
  intros [= <-]. fold (payload_of folder config encoded). rewrite get_file_payload_of.
  intros [= <-]. reflexivity.
Qed.

Lemma file_only_payload_agrees_witness :
  run (still (Sample.checkout (Demo.git_lists "actions/a/main.py") Demo.server_knows)) 7
    (generateFileOnlyPayload Demo.host (lit "actions/a"))
  = mkResult [] (Returned (file_only (lit "print('h%C3%A9llo')%0A"))) 9.
Proof.
  apply (file_only_payload_agrees Demo.host _ 0 7 (lit "actions/a") Demo.full_payload).
  - vm_compute. reflexivity.
  - vm_compute. reflexivity.
Defined.
(** ** One folder *)

Lemma run_sync_payload_invalid_url (h : Host) (tl : Timeline) (i : nat)
    (cleanFolder apiToken : jsstring) (fullPayload : value) (error : Error) :
  lookup_url h (SA_API_URL h) (template h (Val.get fullPayload (lit "name"))) = inl error ->
  run tl i (sync_payload h cleanFolder apiToken fullPayload)
  = mkResult [Logged LOG [lit "🔍 Checking existence"]] (Thrown error) i.
Proof.
  intros Hurl. unfold sync_payload. rewrite run_console.
  unfold checkTaskExists. rewrite Hurl. reflexivity.
Qed.

(** The run of [syncTask], up to the point where the payload is built. *)
Lemma run_syncTask (h : Host) (tl : Timeline) (i : nat) (folder apiToken : jsstring) :
  let cleanFolder := Str.strip_trailing_slash folder in
  run tl i (syncTask h folder apiToken)
  = if w_exists (tl i) (Path.join cleanFolder (lit "config.yaml")) then
      if w_exists (tl (1 + i)) (Path.join cleanFolder (lit "main.py")) then
        emit (Logged LOG [lit "🔧 Processing folder: " ++ cleanFolder])
          (emit (Logged LOG [lit " 📄 Found config.yaml"])
             (emit (Logged LOG [lit " 📄 Found main.py"])
                (and_then (run tl (2 + i) (generatePayload h cleanFolder))
                   (fun fullPayload j =>
                      run tl j
                        (if Val.truthy (Val.get fullPayload (lit "error"))
                         then payload_failed h cleanFolder (Val.get fullPayload (lit "error"))
                         else sync_payload h cleanFolder apiToken fullPayload)))))
      else
        mkResult [Logged LOG [lit "⚠️  Skipping " ++ cleanFolder ++ lit ": No main.py found."]]
          (Returned tt) (2 + i)
    else
      mkResult [Logged LOG [lit "⚠️  Skipping " ++ cleanFolder ++ lit ": No config.yaml found."]]
        (Returned tt) (1 + i).
Proof.
  cbv zeta. unfold syncTask, fs_existsSync. cbn [run bind Nat.add].
  destruct (w_exists (tl i) _); cbn [negb]; [|reflexivity].
  cbn [run bind]. destruct (w_exists (tl (S i)) _); cbn [negb]; [|reflexivity].
  rewrite !run_console. now rewrite run_bind.
Qed.

(** The run of a loop, one folder at a time. *)
Lemma run_forEach_cons {A : Type} (tl : Timeline) (f : A -> prog unit) (x : A)
    (rest : list A) (i : nat) :
  run tl i (forEach (x :: rest) f)
  = and_then (run tl i (f x)) (fun _ j => run tl j (forEach rest f)).
Proof. cbn [forEach]. apply run_bind. Qed.

(** X13: a folder that lacks one of its two files is passed over.  One line
    on the console (at the level of [console.log]), no file read, nothing
    sent, and the loop goes on with the next folder; [main.py] is not looked
    for when [config.yaml] is missing. *)
Theorem incomplete_folder_is_skipped (h : Host) (tl : Timeline) (i : nat)
    (folder apiToken : jsstring) (rest : list jsstring) :
  let cleanFolder := Str.strip_trailing_slash folder in
  let each := fun f => syncTask h f apiToken in
  (w_exists (tl i) (Path.join cleanFolder (lit "config.yaml")) = false ->
   run tl i (forEach (folder :: rest) each)
   = emit (Logged LOG [lit "⚠️  Skipping " ++ cleanFolder ++ lit ": No config.yaml found."])
       (run tl (1 + i) (forEach rest each)))
  /\ (w_exists (tl i) (Path.join cleanFolder (lit "config.yaml")) = true ->
      w_exists (tl (1 + i)) (Path.join cleanFolder (lit "main.py")) = false ->
      run tl i (forEach (folder :: rest) each)
      = emit (Logged LOG [lit "⚠️  Skipping " ++ cleanFolder ++ lit ": No main.py found."])
          (run tl (2 + i) (forEach rest each))).
Proof.
  cbv zeta. split.
  - intros Hcfg. rewrite run_forEach_cons, run_syncTask. cbv zeta. rewrite Hcfg.
    unfold and_then, emit. cbn [final trace next app]. reflexivity.
  - intros Hcfg Hmain. rewrite run_forEach_cons, run_syncTask. cbv zeta. rewrite Hcfg, Hmain.
    unfold and_then, emit. cbn [final trace next app]. reflexivity.
Qed.

(** [actions/a] has lost its script, [actions/b] was never there. *)
Lemma incomplete_folder_is_skipped_witness :
  run (still (Demo.world (Demo.git_lists "actions/a/main.py
actions/b/main.py") (Some Demo.config_ok) None Demo.server_knows)) 3
    (forEach [lit "actions/a/"; lit "actions/b"]
       (fun f => syncTask Demo.host f (lit "secret")))
  = mkResult [Logged LOG [lit "⚠️  Skipping actions/a: No main.py found."];
              Logged LOG [lit "⚠️  Skipping actions/b: No config.yaml found."]]
      (Returned tt) 6.
Proof.
  refine (eq_trans
            (proj2 (incomplete_folder_is_skipped Demo.host (still _) 3 (lit "actions/a/")
                      (lit "secret") [lit "actions/b"]) _ _) _);
    vm_compute; reflexivity.
Defined.

(** Every payload is an object. *)
Lemma generatePayload_object (h : Host) (tl : Timeline) (i : nat) (folder : jsstring)
    (payload : value) :
  final (run tl i (generatePayload h folder)) = Returned payload ->
  exists fields, payload = VObj fields.
Proof.
  destruct (generatePayload_shape h tl i folder)
    as (p & n & Hrun & _ & [[message ->] | (config & encodedFile & ->)]);
    rewrite Hrun; intros [= <-]; eexists; reflexivity.
Qed.

Lemma generateFileOnlyPayload_object (h : Host) (tl : Timeline) (i : nat) (folder : jsstring)
    (payload : value) :
  final (run tl i (generateFileOnlyPayload h folder)) = Returned payload ->
  exists fields, payload = VObj fields.
Proof.
  destruct (generateFileOnlyPayload_shape h tl i folder)
    as (p & n & Hrun & [(_ & -> & _) | [(error & _ & _ & -> & _)
                                       | (fileContent & encodedFile & _ & _ & _ & -> & _)]]);
    rewrite Hrun; intros [= <-]; eexists; reflexivity.
Qed.

(** What a folder sends, whatever happens. *)
Lemma requests_syncTask (h : Host) (tl : Timeline) (i : nat) (folder apiToken : jsstring) :
  let sent := requests (trace (run tl i (syncTask h folder apiToken))) in
  sent = []
  \/ (exists url fields,
         sent = [lookup_request h url apiToken; create_request h apiToken (VObj fields)])
  \/ (exists url taskId fields,
         Val.truthy taskId = true
         /\ sent = [lookup_request h url apiToken;
                    patch_request h apiToken taskId (VObj fields)]).
Proof.
  cbv zeta. rewrite run_syncTask. cbv zeta.
  destruct (w_exists (tl i) _); [|left; reflexivity].
  destruct (w_exists (tl (1 + i)) _); [|left; reflexivity].
  cbn [emit trace requests].
  set (cleanFolder := Str.strip_trailing_slash folder).
  destruct (generatePayload_returns h tl (2 + i) cleanFolder) as (fullPayload & Hp & Htr).
  destruct (generatePayload_object h tl (2 + i) cleanFolder fullPayload Hp) as [fields Hfull].
  unfold and_then. rewrite Hp, Htr. cbn [trace app].
  set (n := next (run tl (2 + i) (generatePayload h cleanFolder))).
  destruct (Val.truthy (Val.get fullPayload (lit "error"))).
  - left. unfold payload_failed. rewrite run_console. cbn [emit trace requests].
    destruct (Val.get fullPayload (lit "error")); try reflexivity.
    destruct (Str.includes _ _); reflexivity.
  - destruct (lookup_url h (SA_API_URL h) (template h (Val.get fullPayload (lit "name"))))
      as [error|url] eqn:Hurl.
    + left. now rewrite (run_sync_payload_invalid_url h tl _ _ apiToken fullPayload error Hurl).
    + right. rewrite (requests_sync_payload h tl _ _ apiToken url fullPayload Hurl).
      destruct (Val.truthy (lookup_result h _)) eqn:Hid.
      * right.
        destruct (getChangedFilesInFolder_returns h tl (S n) cleanFolder)
          as (changedFiles & Hc & _).
        destruct (generateFileOnlyPayload_returns h tl
                    (next (run tl (S n) (getChangedFilesInFolder h cleanFolder))) cleanFolder)
          as (partial & Hpart & _).
        destruct (generateFileOnlyPayload_object h tl _ cleanFolder partial Hpart)
          as [fields' Hpartial].
        rewrite (requests_update_task h tl (S n) cleanFolder _ apiToken _ fullPayload
                   changedFiles partial Hc Hpart).
        exists url. eexists.
        destruct (onlyPyFilesChanged changedFiles);
          [destruct (Val.truthy (Val.get partial (lit "error")))|].
        -- exists fields. rewrite <- Hfull. split; [exact Hid|reflexivity].
        -- exists fields'. rewrite <- Hpartial. split; [exact Hid|reflexivity].
        -- exists fields. rewrite <- Hfull. split; [exact Hid|reflexivity].
      * left. exists url, fields. now rewrite <- Hfull.
Qed.

(** X14: what one folder sends.  Nothing at all; or the lookup followed by
    one create request; or the lookup followed by one update request, to an
    identifier that is truthy.  Never a create or an update without the
    lookup before it, never two of them, never both; and what a create or
    an update carries is always an object. *)
Theorem requests_of_a_folder (h : Host) (tl : Timeline) (i : nat) (folder apiToken : jsstring) :
  let sent := requests (trace (run tl i (syncTask h folder apiToken))) in
  sent = []
  \/ (exists url fields,
         sent = [lookup_request h url apiToken; create_request h apiToken (VObj fields)])
  \/ (exists url taskId fields,
         Val.truthy taskId = true
         /\ sent = [lookup_request h url apiToken;
                    patch_request h apiToken taskId (VObj fields)]).
Proof. apply requests_syncTask. Qed.
(** ** A folder without a payload *)

(** X15: what makes a failed payload fatal.  For a folder that has its two
    files and whose payload fails with a message, the message is written to
    the console, and the run ends there, with the exit code 1, exactly when
    the message contains the words [Invalid config.yaml]; with any other
    message the folder is left and the run goes on.  Nothing is sent in
    either case. *)
Theorem payload_failure_is_fatal_iff_marked (h : Host) (tl : Timeline) (i : nat)
    (folder apiToken message : jsstring) :
  let cleanFolder := Str.strip_trailing_slash folder in
  w_exists (tl i) (Path.join cleanFolder (lit "config.yaml")) = true ->
  w_exists (tl (1 + i)) (Path.join cleanFolder (lit "main.py")) = true ->
  final (run tl (2 + i) (generatePayload h cleanFolder)) = Returned (error_object message) ->
  message <> [] ->
  trace (run tl i (syncTask h folder apiToken))
  = [Logged LOG [lit "🔧 Processing folder: " ++ cleanFolder];
     Logged LOG [lit " 📄 Found config.yaml"];
     Logged LOG [lit " 📄 Found main.py"];
     Logged ERROR [lit "❌ Error processing " ++ cleanFolder ++ lit ": " ++ message]]
  /\ final (run tl i (syncTask h folder apiToken))
     = if Str.includes message (lit "Invalid config.yaml") then Exited 1 else Returned tt.
Proof.
  intros cleanFolder Hcfg Hmain Hfail Hne.
  destruct (generatePayload_returns h tl (2 + i) cleanFolder) as (p & Hp & Htr).
  assert (p = error_object message) by congruence. subst p.
  rewrite run_syncTask. cbv zeta. fold cleanFolder. rewrite Hcfg, Hmain.
  unfold and_then. rewrite Hp, Htr, get_error_object.
  assert (Ht : Val.truthy (VStr message) = true).
  { destruct message; [contradiction|reflexivity]. }
  rewrite Ht. unfold payload_failed. rewrite run_console. cbn [template].
  destruct (Str.includes message (lit "Invalid config.yaml")); split; reflexivity.
Qed.

(** The script of [actions/a] cannot be read: the folder is left and the
    run goes on. *)
Lemma payload_failure_is_fatal_iff_marked_witness :
  trace (run (still Sample.locked_script) 3 (syncTask Demo.host (lit "actions/a") (lit "secret")))
  = [Logged LOG [lit "🔧 Processing folder: actions/a"];
     Logged LOG [lit " 📄 Found config.yaml"];
     Logged LOG [lit " 📄 Found main.py"];
     Logged ERROR [lit "❌ Error processing actions/a: EACCES: permission denied"]]
  /\ final (run (still Sample.locked_script) 3
              (syncTask Demo.host (lit "actions/a") (lit "secret")))
     = Returned tt.
Proof.
  destruct (payload_failure_is_fatal_iff_marked Demo.host (still Sample.locked_script) 3
              (lit "actions/a") (lit "secret") (lit "EACCES: permission denied")
              ltac:(vm_compute; reflexivity) ltac:(vm_compute; reflexivity)
              ltac:(vm_compute; reflexivity) ltac:(vm_compute; discriminate)) as [Ht Hf].
  split; [rewrite Ht|rewrite Hf]; vm_compute; reflexivity.
Defined.
(** ** The whole run *)

Lemma sync_payload_final (h : Host) (tl : Timeline) (i : nat)
    (cleanFolder apiToken : jsstring) (fullPayload : value) :
  final (run tl i (sync_payload h cleanFolder apiToken fullPayload))
  = match lookup_url h (SA_API_URL h) (template h (Val.get fullPayload (lit "name"))) with
    | inl error => Thrown error
    | inr _ => Returned tt
    end.
Proof.
  destruct (lookup_url h _ _) as [error|url] eqn:Hurl.
  - now rewrite (run_sync_payload_invalid_url h tl i cleanFolder apiToken fullPayload error Hurl).
  - exact (sync_payload_returned h tl i cleanFolder apiToken url fullPayload Hurl).
Qed.

(** A folder ends the process with the code 1 or not at all. *)
Lemma syncTask_exit_code (h : Host) (tl : Timeline) (i : nat) (folder apiToken : jsstring)
    (code : Z) :
  final (run tl i (syncTask h folder apiToken)) = Exited code -> code = 1%Z.
Proof.
  rewrite run_syncTask. cbv zeta.
  destruct (w_exists (tl i) _); [|discriminate].
  destruct (w_exists (tl (1 + i)) _); [|discriminate].
  cbn [emit final].
  destruct (generatePayload_returns h tl (2 + i) (Str.strip_trailing_slash folder))
    as (fullPayload & Hp & _).
  unfold and_then. rewrite Hp. cbn [final].
  destruct (Val.truthy (Val.get fullPayload (lit "error"))).
  - unfold payload_failed. rewrite run_console. cbn [emit final].
    destruct (Val.get fullPayload (lit "error")); try discriminate.
    destruct (Str.includes _ _); [|discriminate].
    cbn. now intros [= <-].
  - rewrite sync_payload_final. destruct (lookup_url h _ _); discriminate.
Qed.

Lemma forEach_exit_code {A : Type} (tl : Timeline) (f : A -> prog unit) (code0 : Z) :
  (forall x j code, final (run tl j (f x)) = Exited code -> code = code0) ->
  forall xs i code, final (run tl i (forEach xs f)) = Exited code -> code = code0.
Proof.
  intros Hf. induction xs as [|x xs IH]; intros i code; [discriminate|].
  rewrite run_forEach_cons. unfold and_then.
  destruct (final (run tl i (f x))) as [[]|e|c] eqn:E; cbn [final].
  - apply IH.
  - discriminate.
  - intros [= <-]. exact (Hf x i c E).
Qed.

Lemma requests_forEach {A : Type} (tl : Timeline) (f : A -> prog unit) (P : Request -> Prop) :
  (forall x j r, In r (requests (trace (run tl j (f x)))) -> P r) ->
  forall xs i r, In r (requests (trace (run tl i (forEach xs f)))) -> P r.
Proof.
  intros Hf. induction xs as [|x xs IH]; intros i r; [contradiction|].
  rewrite run_forEach_cons. unfold and_then.
  destruct (final (run tl i (f x))) as [[]|e|c]; cbn [trace].
  - rewrite requests_app. intros Hin. apply in_app_or in Hin as [Hin | Hin].
    + exact (Hf x i r Hin).
    + exact (IH _ r Hin).
  - apply Hf.
  - apply Hf.
Qed.

(** The run of [main] when the token is set. *)
Lemma run_main (h : Host) (tl : Timeline) (i : nat) (token : jsstring) :
  SA_TOKEN h = Some token ->
  run tl i (main h)
  = and_then (run tl i (getChangedFolders h))
      (fun changedFolders j =>
         run tl j (forEach changedFolders
                     (fun folder => syncTask h folder (sanitizeToken (Some token))))).
Proof. intros Ht. unfold main. rewrite Ht. apply run_bind. Qed.

Lemma run_main_without_token (h : Host) (tl : Timeline) (i : nat) :
  SA_TOKEN h = None ->
  run tl i (main h)
  = mkResult [Logged ERROR [lit "Please check environment variables."];
              Logged ERROR [lit "Ensure SA_TOKEN is defined."]]
      (Exited 1) i.
Proof. intros Ht. unfold main. rewrite Ht. reflexivity. Qed.

(** The run of the script, from the run of [main]. *)
Lemma run_script (h : Host) (tl : Timeline) (i : nat) :
  run tl i (script h)
  = match final (run tl i (main h)) with
    | Thrown error =>
        mkResult (trace (run tl i (main h)) ++ [Logged ERROR [lit "Fatal error:"; error]])
          (Exited 1) (next (run tl i (main h)))
    | _ => run tl i (main h)
    end.
Proof.
  unfold script. rewrite run_try_catch. unfold or_catch.
  destruct (final (run tl i (main h))); reflexivity.
Qed.

Lemma getChangedFolders_returns (h : Host) (tl : Timeline) (i : nat) :
  exists changedFolders,
    final (run tl i (getChangedFolders h)) = Returned changedFolders
    /\ requests (trace (run tl i (getChangedFolders h))) = [].
Proof.
  rewrite run_getChangedFolders.
  destruct (w_cwd (tl i)); [cbn [final trace requests]; eauto|].
  destruct (w_exec (tl (2 + i)) (GitLog (BITBUCKET_COMMIT h)));
    cbn [final trace requests]; eauto.
Qed.

(** X16: the token is asked for first.  When [SA_TOKEN] is unset or empty the
    script writes its two lines and ends with the code 1, having asked
    nothing of git, of the file system or of the server. *)
Theorem missing_token_ends_the_run (h : Host) (tl : Timeline) (i : nat) :
  env_SA_TOKEN h = None \/ env_SA_TOKEN h = Some [] ->
  run tl i (script h)
  = mkResult [Logged ERROR [lit "Please check environment variables."];
              Logged ERROR [lit "Ensure SA_TOKEN is defined."]]
      (Exited 1) i.
Proof.
  intros Ht.
  assert (Hnone : SA_TOKEN h = None).
  { unfold SA_TOKEN. destruct Ht as [-> | ->]; reflexivity. }
  rewrite run_script, (run_main_without_token h tl i Hnone). reflexivity.
Qed.

Lemma missing_token_ends_the_run_witness :
  run (still (Sample.checkout (Demo.git_lists "actions/a/main.py") Demo.server_knows)) 0
    (script Sample.host_without_token)
  = mkResult [Logged ERROR [lit "Please check environment variables."];
              Logged ERROR [lit "Ensure SA_TOKEN is defined."]]
      (Exited 1) 0.
Proof.
  apply (missing_token_ends_the_run Sample.host_without_token). left. reflexivity.
Defined.

(** X17: however the world answers, the script ends in one of two ways:
    normally, or with the exit code 1.  No exception leaves it and no other
    exit code is ever used. *)
Theorem script_outcome (h : Host) (tl : Timeline) (i : nat) :
  final (run tl i (script h)) = Returned tt \/ final (run tl i (script h)) = Exited 1.
Proof.
  rewrite run_script.
  destruct (final (run tl i (main h))) as [[]|error|code] eqn:E; cbn [final]; auto.
  right. rewrite E. f_equal.
  destruct (SA_TOKEN h) as [token|] eqn:Ht.
  - rewrite (run_main h tl i token Ht) in E. unfold and_then in E.
    destruct (getChangedFolders_returns h tl i) as (changedFolders & Hc & _).
    rewrite Hc in E. cbn [final] in E.
    apply (forEach_exit_code tl _ 1%Z) in E; [exact E|].
    intros folder j c. apply syncTask_exit_code.
  - rewrite (run_main_without_token h tl i Ht) in E. now injection E as <-.
Qed.

(** X18: a history that cannot be read ends the run quietly.  When
    [process.cwd] or [git log] fails, the error is written to the console,
    no folder is looked at, nothing is sent, and the script ends normally. *)
Theorem unreadable_history_ends_the_run_quietly (h : Host) (tl : Timeline) (i : nat)
    (token : jsstring) (error : Error) :
  SA_TOKEN h = Some token ->
  w_cwd (tl i) = inl error
  \/ (exists cwd, w_cwd (tl i) = inr cwd
                  /\ w_exec (tl (2 + i)) (GitLog (BITBUCKET_COMMIT h)) = inl error) ->
  trace (run tl i (script h)) = [Logged ERROR [lit "Error detecting changed folders:"; error]]
  /\ final (run tl i (script h)) = Returned tt.
Proof.
  intros Ht Hfail. rewrite run_script, (run_main h tl i token Ht), run_getChangedFolders.
  destruct Hfail as [-> | (cwd & -> & ->)]; cbn; auto.
Qed.

Lemma unreadable_history_ends_the_run_quietly_witness :
  trace (run (still (Sample.checkout Demo.git_fails Demo.server_knows)) 0 (script Demo.host))
  = [Logged ERROR [lit "Error detecting changed folders:";
                   lit "Command failed: git log: fatal: not a git repository"]]
  /\ final (run (still (Sample.checkout Demo.git_fails Demo.server_knows)) 0
              (script Demo.host))
     = Returned tt.
Proof.
  apply (unreadable_history_ends_the_run_quietly Demo.host _ 0 (lit "Bearer secret")).
  - reflexivity.
  - right. exists (lit "/opt/atlassian/pipelines/agent/build"). split; reflexivity.
Defined.

(** X19: a commit that touches nothing under [actions/] gives the script
    nothing to do: after the query of the history no file is looked at,
    nothing is written to the console, nothing is sent. *)
Theorem nothing_under_actions_nothing_done (h : Host) (tl : Timeline) (i : nat)
    (token cwd listing : jsstring) :
  SA_TOKEN h = Some token ->
  w_cwd (tl i) = inr cwd ->
  w_exec (tl (2 + i)) (GitLog (BITBUCKET_COMMIT h)) = inr listing ->
  (forall file, In file (Str.split newline listing) ->
                Str.startsWith file (lit "actions/") = false) ->
  run tl i (script h) = mkResult [] (Returned tt) (3 + i).
Proof.
  intros Ht Hcwd Hlog Hnone.
  assert (Hf : changed_folders listing = []).
  { rewrite changed_folders_spec. unfold action_folders.
    replace (filter _ _) with (@nil jsstring); [reflexivity|].
    symmetry. apply filter_nil_iff. exact Hnone. }
  rewrite run_script, (run_main h tl i token Ht), run_getChangedFolders, Hcwd, Hlog, Hf.
  reflexivity.
Qed.

Lemma nothing_under_actions_nothing_done_witness :
  run (still (Sample.checkout (Demo.git_lists "README.md
src/actions/a/main.py
") Demo.server_knows)) 0 (script Demo.host)
  = mkResult [] (Returned tt) 3.
Proof.
  apply (nothing_under_actions_nothing_done Demo.host _ 0 (lit "Bearer secret")
           (lit "/opt/atlassian/pipelines/agent/build")
           (lit "README.md
src/actions/a/main.py
")); try reflexivity.
  vm_compute. intros file [<- | [<- | [<- | []]]]; reflexivity.
Defined.
(** ** The requests of a run *)

Lemma script_headers_lookup (h : Host) (url apiToken : jsstring) :
  script_headers h apiToken (lookup_request h url apiToken).
Proof. unfold script_headers. repeat (split; [vm_compute; reflexivity|]). reflexivity. Qed.

Lemma script_headers_create (h : Host) (apiToken : jsstring) (payload : value) :
  script_headers h apiToken (create_request h apiToken payload).
Proof. unfold script_headers. repeat (split; [vm_compute; reflexivity|]). reflexivity. Qed.

Lemma script_headers_patch (h : Host) (apiToken : jsstring) (taskId payload : value) :
  script_headers h apiToken (patch_request h apiToken taskId payload).
Proof. unfold script_headers. repeat (split; [vm_compute; reflexivity|]). reflexivity. Qed.

Lemma requests_script (h : Host) (tl : Timeline) (i : nat) :
  requests (trace (run tl i (script h))) = requests (trace (run tl i (main h))).
Proof.
  rewrite run_script. destruct (final (run tl i (main h))); try reflexivity.
  cbn [trace]. rewrite requests_app. cbn [requests]. apply app_nil_r.
Qed.

(** Every request of a run comes from one of its folders. *)
Lemma requests_main (h : Host) (tl : Timeline) (i : nat) (P : Request -> Prop) :
  (forall folder j r,
      In r (requests (trace (run tl j (syncTask h folder (sanitizeToken (SA_TOKEN h)))))) ->
      P r) ->
  forall r, In r (requests (trace (run tl i (script h)))) -> P r.
Proof.
  intros Hf r. rewrite requests_script.
  destruct (SA_TOKEN h) as [token|] eqn:Ht.
  - rewrite (run_main h tl i token Ht). unfold and_then.
    destruct (getChangedFolders_returns h tl i) as (changedFolders & Hc & Hreq).
    rewrite Hc. cbn [trace]. rewrite requests_app, Hreq. cbn [app].
    apply (requests_forEach tl _ P). exact Hf.
  - rewrite (run_main_without_token h tl i Ht). intros [].
Qed.

(** X20: every request that the script sends, on every run, carries the same
    five headers and no other; the value of [Authorization] is the token of
    the environment as the sanitizer returns it, which holds no white-space
    character (hence no line break). *)
Theorem every_request_carries_the_token (h : Host) (tl : Timeline) (i : nat) (r : Request) :
  In r (requests (trace (run tl i (script h)))) ->
  script_headers h (sanitizeToken (SA_TOKEN h)) r
  /\ (forall c, In c (sanitizeToken (SA_TOKEN h)) -> Str.is_space c = false).
Proof.
  intros Hin. split; [|apply sanitizeToken_no_space].
  revert r Hin. apply requests_main. intros folder j r Hin.
  destruct (requests_syncTask h tl j folder (sanitizeToken (SA_TOKEN h)))
    as [H | [(url & payload & H) | (url & taskId & payload & _ & H)]];
    cbv zeta in H; rewrite H in Hin.
  - contradiction.
  - destruct Hin as [<- | [<- | []]];
      [apply script_headers_lookup|apply script_headers_create].
  - destruct Hin as [<- | [<- | []]];
      [apply script_headers_lookup|apply script_headers_patch].
Qed.

(** The token of the sample host is [Bearer secret]; the update of
    [actions/a] carries [secret]. *)
Lemma every_request_carries_the_token_witness :
  header (lit "Authorization")
    (patch_request Demo.host (lit "secret") (VStr (lit "t1"))
       (file_only (lit "print('h%C3%A9llo')%0A")))
  = Some (lit "secret").
Proof.
  refine (eq_trans
            (proj1 (proj1 (every_request_carries_the_token Demo.host
                             (still (Sample.checkout (Demo.git_lists "actions/a/main.py")
                                       Demo.server_knows))
                             0 _ _))) _).
  - vm_compute. right. left. reflexivity.
  - vm_compute. reflexivity.
Defined.

(** X21: a base URL that the [URL] class refuses is fatal.  The first folder
    that has its two files and a payload ends the run: the exception of the
    lookup is caught nowhere but at the top, where it is written to the
    console and turned into the exit code 1.  Nothing is sent, and the
    folders that follow are not looked at. *)
Theorem invalid_api_url_is_fatal (h : Host) (tl : Timeline) (i : nat)
    (token cwd listing folder : jsstring) (rest : list jsstring)
    (fullPayload : value) (error : Error) :
  let cleanFolder := Str.strip_trailing_slash folder in
  SA_TOKEN h = Some token ->
  w_cwd (tl i) = inr cwd ->
  w_exec (tl (2 + i)) (GitLog (BITBUCKET_COMMIT h)) = inr listing ->
  changed_folders listing = folder :: rest ->
  w_exists (tl (3 + i)) (Path.join cleanFolder (lit "config.yaml")) = true ->
  w_exists (tl (4 + i)) (Path.join cleanFolder (lit "main.py")) = true ->
  final (run tl (5 + i) (generatePayload h cleanFolder)) = Returned fullPayload ->
  Val.truthy (Val.get fullPayload (lit "error")) = false ->
  lookup_url h (SA_API_URL h) (template h (Val.get fullPayload (lit "name"))) = inl error ->
  trace (run tl i (script h))
  = [Logged LOG [lit "🔧 Processing folder: " ++ cleanFolder];
     Logged LOG [lit " 📄 Found config.yaml"];
     Logged LOG [lit " 📄 Found main.py"];
     Logged LOG [lit "🔍 Checking existence"];
     Logged ERROR [lit "Fatal error:"; error]]
  /\ final (run tl i (script h)) = Exited 1.
Proof.
  intros cleanFolder Ht Hcwd Hlog Hfolders Hcfg Hmain Hfull Hok Hurl.
  destruct (generatePayload_returns h tl (5 + i) cleanFolder) as (p & Hp & Htr).
  assert (p = fullPayload) by congruence. subst p.
  assert (Hsync : trace (run tl (3 + i) (syncTask h folder (sanitizeToken (Some token))))
                  = [Logged LOG [lit "🔧 Processing folder: " ++ cleanFolder];
                     Logged LOG [lit " 📄 Found config.yaml"];
                     Logged LOG [lit " 📄 Found main.py"];
                     Logged LOG [lit "🔍 Checking existence"]]
                  /\ final (run tl (3 + i) (syncTask h folder (sanitizeToken (Some token))))
                     = Thrown error).
  { rewrite run_syncTask. cbv zeta. fold cleanFolder.
    change (1 + (3 + i)) with (4 + i). change (2 + (3 + i)) with (5 + i).
    rewrite Hcfg, Hmain. unfold and_then. rewrite Hp, Htr, Hok.
    rewrite (run_sync_payload_invalid_url h tl _ cleanFolder _ fullPayload error Hurl).
    split; reflexivity. }
  destruct Hsync as [Hst Hsf].
  assert (Hmain' : trace (run tl i (main h))
                   = [Logged LOG [lit "🔧 Processing folder: " ++ cleanFolder];
                      Logged LOG [lit " 📄 Found config.yaml"];
                      Logged LOG [lit " 📄 Found main.py"];
                      Logged LOG [lit "🔍 Checking existence"]]
                   /\ final (run tl i (main h)) = Thrown error).
  { rewrite (run_main h tl i token Ht), run_getChangedFolders, Hcwd, Hlog, Hfolders.
    unfold and_then. cbn [final trace next app].
    rewrite run_forEach_cons. unfold and_then. rewrite Hsf. cbn [trace final].
    split; [exact Hst|reflexivity]. }
  destruct Hmain' as [Hmt Hmf].
  rewrite run_script, Hmf. cbn [trace final]. rewrite Hmt. split; reflexivity.
Qed.

Lemma invalid_api_url_is_fatal_witness :
  let r := run (still (Sample.checkout (Demo.git_lists "actions/a/main.py
actions/b/main.py") Demo.server_knows)) 0 (script Sample.host_bad_url) in
  trace r
  = [Logged LOG [lit "🔧 Processing folder: actions/a"];
     Logged LOG [lit " 📄 Found config.yaml"];
     Logged LOG [lit " 📄 Found main.py"];
     Logged LOG [lit "🔍 Checking existence"];
     Logged ERROR [lit "Fatal error:"; lit "Invalid URL"]]
  /\ final r = Exited 1.
Proof.
  cbv zeta.
  destruct (invalid_api_url_is_fatal Sample.host_bad_url
              (still (Sample.checkout (Demo.git_lists "actions/a/main.py
actions/b/main.py") Demo.server_knows))
              0 (lit "Bearer secret") (lit "/opt/atlassian/pipelines/agent/build")
              (lit "actions/a/main.py
actions/b/main.py")
              (lit "actions/a") [lit "actions/b"] Demo.full_payload (lit "Invalid URL")
              ltac:(vm_compute; reflexivity) ltac:(vm_compute; reflexivity)
              ltac:(vm_compute; reflexivity) ltac:(vm_compute; reflexivity)
              ltac:(vm_compute; reflexivity) ltac:(vm_compute; reflexivity)
              ltac:(vm_compute; reflexivity) ltac:(vm_compute; reflexivity)
              ltac:(vm_compute; reflexivity)) as [Ht Hf].
  split; [|exact Hf]. rewrite Ht. vm_compute. reflexivity.
Defined.
(** ** How much a run sends *)

Lemma requests_syncTask_length (h : Host) (tl : Timeline) (i : nat)
    (folder apiToken : jsstring) :
  List.length (requests (trace (run tl i (syncTask h folder apiToken)))) <= 2.
Proof.
  destruct (requests_syncTask h tl i folder apiToken)
    as [H | [(url & fields & H) | (url & taskId & fields & _ & H)]];
    cbv zeta in H; rewrite H; cbn [List.length]; lia.
Qed.

Lemma requests_forEach_length {A : Type} (tl : Timeline) (f : A -> prog unit) (bound : nat) :
  (forall x j, List.length (requests (trace (run tl j (f x)))) <= bound) ->
  forall xs i,
    List.length (requests (trace (run tl i (forEach xs f)))) <= bound * List.length xs.
Proof.
  intros Hf. induction xs as [|x xs IH]; intros i; [cbn; lia|].
  rewrite run_forEach_cons. unfold and_then. specialize (Hf x i).
  destruct (final (run tl i (f x))) as [[]|e|c]; cbn [trace List.length].
  - rewrite requests_app, length_app. specialize (IH (next (run tl i (f x)))). nia.
  - nia.
  - nia.
Qed.

(** X22: a run never sends more than two requests for a changed folder, and
    none for anything else: with [n] folders returned by the detector, the
    whole run sends at most [2 n] requests.  Nothing is tried again, and a
    failure of the detector, which returns no folder, means that nothing is
    sent at all. *)
Theorem at_most_two_requests_per_folder (h : Host) (tl : Timeline) (i : nat)
    (changedFolders : list jsstring) :
  final (run tl i (getChangedFolders h)) = Returned changedFolders ->
  List.length (requests (trace (run tl i (script h)))) <= 2 * List.length changedFolders.
Proof.
  intros Hc. rewrite requests_script.
  destruct (SA_TOKEN h) as [token|] eqn:Ht.
  - rewrite (run_main h tl i token Ht). unfold and_then.
    destruct (getChangedFolders_returns h tl i) as (folders & Hc' & Hreq).
    assert (folders = changedFolders) by congruence. subst folders.
    rewrite Hc. cbn [trace]. rewrite requests_app, Hreq. cbn [app].
    apply requests_forEach_length. intros folder j. apply requests_syncTask_length.
  - rewrite (run_main_without_token h tl i Ht). cbn. lia.
Qed.

Lemma at_most_two_requests_per_folder_witness :
  List.length
    (requests (trace (run (still (Demo.two_folders (Demo.git_lists "actions/a/config.yaml
actions/b/main.py") Demo.server_knows_b)) 0 (script Demo.host))))
  <= 2 * 2.
Proof.
  apply (at_most_two_requests_per_folder Demo.host _ 0 [lit "actions/a"; lit "actions/b"]).
  vm_compute. reflexivity.
Defined.
(** ** The outcome of a create and of an update *)

Lemma next_ge {R : Type} (tl : Timeline) (p : prog R) (i : nat) : i <= next (run tl i p).
Proof.
  revert i. induction p as [r|e|c|k IH|path k IH|path k IH|c k IH|r k IH|lvl args k IH];
    intros i; cbn [run emit next]; try lia;
    try (match goal with |- _ <= next (run tl (S ?n) (k ?a)) => specialize (IH a (S n)) end; lia).
  apply IH.
Qed.

(** The handlers around the create and update branches: an exception is
    written to the console, and the separator comes last. *)
Lemma run_guarded (tl : Timeline) (j : nat) (taskName : jsstring) (p : prog unit) :
  (forall code, final (run tl j p) <> Exited code) ->
  run tl j
    (finally
       (try_catch p
          (fun error =>
             console ERROR [lit "❌ Error syncing task " ++ taskName ++ lit ":"; error]))
       (console LOG [lit "----------------------------------"]))
  = mkResult
      (trace (run tl j p)
       ++ match final (run tl j p) with
          | Thrown error =>
              [Logged ERROR [lit "❌ Error syncing task " ++ taskName ++ lit ":"; error]]
          | _ => []
          end
       ++ [Logged LOG [lit "----------------------------------"]])
      (Returned tt) (next (run tl j p)).
Proof.
  intros Hp. rewrite run_finally, run_try_catch. unfold and_finally, or_catch.
  destruct (final (run tl j p)) as [[]|e|code] eqn:E; cbn [final trace next run console emit];
    rewrite ?E; cbn [final trace next run console emit app].
  - reflexivity.
  - now rewrite <- app_assoc.
  - now destruct (Hp code).
Qed.

Lemma run_create_task (h : Host) (tl : Timeline) (j : nat) (taskName apiToken : jsstring)
    (fullPayload : value) :
  let create := create_request h apiToken fullPayload in
  run tl j (create_task h taskName apiToken fullPayload)
  = mkResult
      ([Logged LOG [lit "🆕 Creating new action: " ++ taskName]; Sent create]
       ++ match w_http (tl j) create with
          | inl _ => []
          | inr answer => [create_verdict h taskName (inr answer)]
          end)
      (match w_http (tl j) create with
       | inl error => Thrown error
       | inr _ => Returned tt
       end)
      (S j).
Proof.
  cbv zeta. unfold create_task. rewrite run_console, run_bind, run_makeRequest.
  fold (create_request h apiToken fullPayload).
  destruct (w_http (tl j) _) as [e|[statusCode body]]; unfold and_then;
    cbn [emit trace final next app]; [reflexivity|].
  unfold create_verdict, ok_status. cbn [status data].
  destruct ((200 <=? statusCode)%N && (statusCode <? 300)%N); reflexivity.
Qed.

Lemma run_update_send (h : Host) (tl : Timeline) (j : nat) (taskName apiToken : jsstring)
    (taskId payload : value) :
  let patch := patch_request h apiToken taskId payload in
  run tl j
    (bind (console LOG [lit "♻ Updating action: " ++ taskName])
       (fun _ =>
          bind (makeRequest h (SA_API_URL h ++ lit "/" ++ template h taskId)
                  (lit "PATCH") (write_headers h apiToken) (Some payload))
            (fun response =>
               if ok_status response then console LOG [lit "✔ Update successful"]
               else console ERROR [lit "❌ Failed to update task: "
                                   ++ JSON_stringify h (data response)])))
  = mkResult
      ([Logged LOG [lit "♻ Updating action: " ++ taskName]; Sent patch]
       ++ match w_http (tl j) patch with
          | inl _ => []
          | inr answer => [update_verdict h taskName (inr answer)]
          end)
      (match w_http (tl j) patch with
       | inl error => Thrown error
       | inr _ => Returned tt
       end)
      (S j).
Proof.
  cbv zeta. rewrite run_console, run_bind, run_makeRequest.
  fold (patch_request h apiToken taskId payload).
  destruct (w_http (tl j) _) as [e|[statusCode body]]; unfold and_then;
    cbn [emit trace final next app]; [reflexivity|].
  unfold update_verdict, ok_status. cbn [status data].
  destruct ((200 <=? statusCode)%N && (statusCode <? 300)%N); reflexivity.
Qed.

(** An update, up to its request: what comes before sends nothing. *)
Lemma run_update_task (h : Host) (tl : Timeline) (i : nat)
    (cleanFolder taskName apiToken : jsstring) (taskId fullPayload : value) :
  exists before payload j,
    i <= j
    /\ requests before = []
    /\ run tl i (update_task h cleanFolder taskName apiToken taskId fullPayload)
       = mkResult
           (before
            ++ [Logged LOG [lit "♻ Updating action: " ++ taskName];
                Sent (patch_request h apiToken taskId payload)]
            ++ match w_http (tl j) (patch_request h apiToken taskId payload) with
               | inl _ => []
               | inr answer => [update_verdict h taskName (inr answer)]
               end)
           (match w_http (tl j) (patch_request h apiToken taskId payload) with
            | inl error => Thrown error
            | inr _ => Returned tt
            end)
           (S j).
Proof.
  destruct (getChangedFilesInFolder_returns h tl i cleanFolder) as (changedFiles & Hc & Hreq).
  pose proof (next_ge tl (getChangedFilesInFolder h cleanFolder) i) as Hn.
  set (n := next (run tl i (getChangedFilesInFolder h cleanFolder))) in *.
  destruct (generateFileOnlyPayload_returns h tl n cleanFolder) as (partial & Hp & Htr).
  pose proof (next_ge tl (generateFileOnlyPayload h cleanFolder) n) as Hm.
  set (m := next (run tl n (generateFileOnlyPayload h cleanFolder))) in *.
  unfold update_task. rewrite run_console.
  rewrite (run_bind_returned tl i _ _ changedFiles Hc). fold n.
  destruct (onlyPyFilesChanged changedFiles).
  - rewrite run_bind, (run_bind_returned tl n _ _ partial Hp). fold m. rewrite Htr.
    unfold and_then. cbn [app final trace next].
    destruct (Val.truthy (Val.get partial (lit "error"))).
    + change (run tl m
                (bind (console WARN
                         [lit "⚠️  Error generating file-only payload, using full payload: "
                          ++ template h (Val.get partial (lit "error"))])
                   (fun _ => Ret fullPayload)))
        with (mkResult [fallback_warning h (Val.get partial (lit "error"))]
                (Returned fullPayload) m).
      cbn [final trace next app].
      rewrite (run_update_send h tl m taskName apiToken taskId fullPayload). cbv zeta.
      exists (Logged LOG [lit "✔ Existing task found (id=" ++ template h taskId ++ lit ")"]
              :: trace (run tl i (getChangedFilesInFolder h cleanFolder))
                 ++ [fallback_warning h (Val.get partial (lit "error"))]),
        fullPayload, m.
      split; [lia|]. split.
      * cbn [requests]. rewrite requests_app, Hreq. reflexivity.
      * unfold emit. cbn [trace final next]. f_equal.
        cbn [app]. f_equal. rewrite <- !app_assoc. reflexivity.
    + cbn [run final trace next app].
      rewrite (run_update_send h tl m taskName apiToken taskId partial). cbv zeta.
      exists (Logged LOG [lit "✔ Existing task found (id=" ++ template h taskId ++ lit ")"]
              :: trace (run tl i (getChangedFilesInFolder h cleanFolder))),
        partial, m.
      split; [lia|]. split.
      * cbn [requests]. exact Hreq.
      * unfold emit. cbn [trace final next]. f_equal.
  - cbn [bind].
    rewrite (run_update_send h tl n taskName apiToken taskId fullPayload). cbv zeta.
    exists (Logged LOG [lit "✔ Existing task found (id=" ++ template h taskId ++ lit ")"]
            :: trace (run tl i (getChangedFilesInFolder h cleanFolder))),
      fullPayload, n.
    split; [lia|]. split.
    + cbn [requests]. exact Hreq.
    + unfold emit. cbn [trace final next]. f_equal.
Qed.

(** X23: the outcome of a create.  When the lookup finds nothing, the folder
    ends with four things in this order: the announcement of the create, the
    POST, one line on its outcome, the separator.  The outcome is a success
    for a status from 200 to 299 and for no other; a refusal of the server
    and an error of the transport are written to the console and go no
    further. *)
Theorem create_outcome (h : Host) (tl : Timeline) (i : nat)
    (cleanFolder apiToken url : jsstring) (fullPayload : value) :
  let taskName := template h (Val.get fullPayload (lit "name")) in
  let create := create_request h apiToken fullPayload in
  lookup_url h (SA_API_URL h) taskName = inr url ->
  Val.truthy (lookup_result h (w_http (tl i) (lookup_request h url apiToken))) = false ->
  exists before,
    requests before = [lookup_request h url apiToken]
    /\ run tl i (sync_payload h cleanFolder apiToken fullPayload)
       = mkResult
           (before
            ++ [Logged LOG [lit "🆕 Creating new action: " ++ taskName];
                Sent create;
                create_verdict h taskName (w_http (tl (1 + i)) create);
                Logged LOG [lit "----------------------------------"]])
           (Returned tt) (2 + i).
Proof.
  intros taskName create Hurl Hid. unfold sync_payload. fold taskName.
  rewrite run_console, run_bind, (run_checkTaskExists h tl i taskName apiToken url Hurl).
  assert (Hguard : run tl (S i)
            (finally
               (try_catch (create_task h taskName apiToken fullPayload)
                  (fun error =>
                     console ERROR [lit "❌ Error syncing task " ++ taskName ++ lit ":"; error]))
               (console LOG [lit "----------------------------------"]))
          = mkResult
              [Logged LOG [lit "🆕 Creating new action: " ++ taskName];
               Sent create;
               create_verdict h taskName (w_http (tl (1 + i)) create);
               Logged LOG [lit "----------------------------------"]]
              (Returned tt) (2 + i)).
  { rewrite run_guarded.
    - rewrite (run_create_task h tl (S i) taskName apiToken fullPayload). cbv zeta.
      fold create. cbn [trace final next Nat.add].
      destruct (w_http (tl (S i)) create) as [e|answer]; reflexivity.
    - intros code. rewrite (run_create_task h tl (S i) taskName apiToken fullPayload).
      cbv zeta. cbn [final]. destruct (w_http (tl (S i)) _); discriminate. }
  unfold lookup_result in Hid. unfold and_then.
  destruct (w_http (tl i) (lookup_request h url apiToken)) as [e|[statusCode body]];
    cbn [final trace next].
  - cbn [Val.truthy negb]. rewrite Hguard. cbn [emit trace final next].
    exists [Logged LOG [lit "🔍 Checking existence"];
            Sent (lookup_request h url apiToken);
            Logged ERROR [lit "Error checking task existence:"; e]].
    split; reflexivity.
  - rewrite Hid. cbn [negb]. rewrite Hguard. cbn [emit trace final next].
    exists [Logged LOG [lit "🔍 Checking existence"]; Sent (lookup_request h url apiToken)].
    split; reflexivity.
Qed.

(** The server knows no task and answers the POST with the status 201. *)
Lemma create_outcome_witness :
  exists before,
    requests before = [lookup_request Demo.host Demo.lookup_url_a (lit "secret")]
    /\ run (still (Sample.checkout (Demo.git_lists "actions/a/main.py") Demo.server_empty)) 9
         (sync_payload Demo.host (lit "actions/a") (lit "secret") Demo.full_payload)
       = mkResult
           (before
            ++ [Logged LOG [lit "🆕 Creating new action: a"];
                Sent (create_request Demo.host (lit "secret") Demo.full_payload);
                Logged LOG [lit "✔ Created successfully (t2)"];
                Logged LOG [lit "----------------------------------"]])
           (Returned tt) 11.
Proof.
  destruct (create_outcome Demo.host
              (still (Sample.checkout (Demo.git_lists "actions/a/main.py") Demo.server_empty))
              9 (lit "actions/a") (lit "secret") Demo.lookup_url_a Demo.full_payload
              ltac:(vm_compute; reflexivity) ltac:(vm_compute; reflexivity))
    as (before & Hreq & Hrun).
  exists before. split; [exact Hreq|]. rewrite Hrun. vm_compute. reflexivity.
Defined.

(** X24: the outcome of an update.  When the lookup finds an identifier, the
    folder ends with the announcement of the update, one PATCH to that
    identifier, one line on its outcome and the separator; nothing is sent
    between the lookup and the PATCH.  The outcome is judged as for a
    create. *)
Theorem update_outcome (h : Host) (tl : Timeline) (i : nat)
    (cleanFolder apiToken url : jsstring) (fullPayload : value) :
  let taskName := template h (Val.get fullPayload (lit "name")) in
  let taskId := lookup_result h (w_http (tl i) (lookup_request h url apiToken)) in
  lookup_url h (SA_API_URL h) taskName = inr url ->
  Val.truthy taskId = true ->
  exists before payload j,
    i < j
    /\ requests before = [lookup_request h url apiToken]
    /\ run tl i (sync_payload h cleanFolder apiToken fullPayload)
       = mkResult
           (before
            ++ [Logged LOG [lit "♻ Updating action: " ++ taskName];
                Sent (patch_request h apiToken taskId payload);
                update_verdict h taskName
                  (w_http (tl j) (patch_request h apiToken taskId payload));
                Logged LOG [lit "----------------------------------"]])
           (Returned tt) (1 + j).
Proof.
  intros taskName taskId Hurl Hid. unfold sync_payload. fold taskName.
  rewrite run_console, run_bind, (run_checkTaskExists h tl i taskName apiToken url Hurl).
  unfold taskId, lookup_result in *. unfold and_then.
  destruct (w_http (tl i) (lookup_request h url apiToken)) as [e|[statusCode body]];
    [discriminate Hid|].
  cbn [final trace next]. rewrite Hid. cbn [negb].
  set (id := parse_id _) in *.
  destruct (run_update_task h tl (S i) cleanFolder taskName apiToken id fullPayload)
    as (before & payload & j & Hj & Hreq & Hrun).
  rewrite run_guarded; [|intros code; apply update_task_no_exit].
  rewrite Hrun. cbn [trace final next emit].
  exists (Logged LOG [lit "🔍 Checking existence"]
          :: Sent (lookup_request h url apiToken) :: before), payload, j.
  split; [lia|]. split.
  - cbn [requests]. now rewrite Hreq.
  - f_equal. cbn [app]. do 2 f_equal. rewrite <- !app_assoc. cbn [app]. do 3 f_equal.
    destruct (w_http (tl j) _) as [e|answer]; reflexivity.
Qed.

(** The server answers the lookup with an error status and a body that
    carries an identifier; the PATCH to that identifier succeeds. *)
Lemma update_outcome_witness :
  exists before payload j,
    9 < j
    /\ requests before = [lookup_request Demo.host Demo.lookup_url_a (lit "secret")]
    /\ run (still (Sample.checkout (Demo.git_lists "actions/a/main.py")
                     Demo.server_error_with_id)) 9
         (sync_payload Demo.host (lit "actions/a") (lit "secret") Demo.full_payload)
       = mkResult
           (before
            ++ [Logged LOG [lit "♻ Updating action: a"];
                Sent (patch_request Demo.host (lit "secret") (VStr (lit "t2")) payload);
                Logged LOG [lit "✔ Update successful"];
                Logged LOG [lit "----------------------------------"]])
           (Returned tt) (1 + j).
Proof.
  destruct (update_outcome Demo.host
              (still (Sample.checkout (Demo.git_lists "actions/a/main.py")
                        Demo.server_error_with_id))
              9 (lit "actions/a") (lit "secret") Demo.lookup_url_a Demo.full_payload
              ltac:(vm_compute; reflexivity) ltac:(vm_compute; reflexivity))
    as (before & payload & j & Hj & Hreq & Hrun).
  exists before, payload, j. split; [exact Hj|]. split; [exact Hreq|].
  rewrite Hrun. vm_compute. reflexivity.
Defined.
(** ** From the files of a folder to its requests *)

Lemma get_name_payload_of (folder : jsstring) (config : value) (encodedFile : jsstring) :
  Val.get (payload_of folder config encodedFile) (lit "name") = VStr (Path.basename folder).
Proof. vm_compute. reflexivity. Qed.

Lemma get_error_payload_of (folder : jsstring) (config : value) (encodedFile : jsstring) :
  Val.get (payload_of folder config encodedFile) (lit "error") = VUndefined.
Proof. vm_compute. reflexivity. Qed.

(** X25: a new folder, from its files to its requests.  In an unchanged
    world, a folder with a complete configuration and a readable script,
    for whose name the lookup finds nothing, sends exactly two requests: the
    lookup of its base name, and a POST whose body is the full payload
    built from the two files, the script percent-encoded.  The folder then
    ends normally, whatever the answer to the POST. *)
Theorem new_folder_is_created (h : Host) (w : World) (i : nat)
    (folder apiToken url : jsstring) (content fileContent : Buffer) (config : value) :
  let cleanFolder := Str.strip_trailing_slash folder in
  w_exists w (Path.join cleanFolder (lit "config.yaml")) = true ->
  w_exists w (Path.join cleanFolder (lit "main.py")) = true ->
  w_read w (Path.join cleanFolder (lit "config.yaml")) = inr content ->
  yaml_load h (Utf8.toString content) = inr config ->
  Val.is_object config = true ->
  missing_keys config = [] ->
  w_read w (Path.join cleanFolder (lit "main.py")) = inr fileContent ->
  lookup_url h (SA_API_URL h) (Path.basename cleanFolder) = inr url ->
  Val.truthy (lookup_result h (w_http w (lookup_request h url apiToken))) = false ->
  exists encodedFile,
    Uri.decodeURIComponent encodedFile = Some (Utf8.toString fileContent)
    /\ requests (trace (run (still w) i (syncTask h folder apiToken)))
       = [lookup_request h url apiToken;
          create_request h apiToken (payload_of cleanFolder config encodedFile)]
    /\ final (run (still w) i (syncTask h folder apiToken)) = Returned tt.
Proof.
  intros cleanFolder Hcfg Hmain Hrd Hy Hobj Hmiss Hrd' Hurl Hid.
  destruct (run_generatePayload_ok h (still w) (2 + i) cleanFolder content fileContent config
              Hcfg Hrd Hy Hobj Hmiss Hmain Hrd') as (encodedFile & _ & Hd & Hrun).
  change (run (still w) (2 + i) (generatePayload h cleanFolder)
          = mkResult [] (Returned (payload_of cleanFolder config encodedFile)) (4 + (2 + i)))
    in Hrun.
  exists encodedFile. split; [exact Hd|].
  assert (Hname : template h (Val.get (payload_of cleanFolder config encodedFile) (lit "name"))
                  = Path.basename cleanFolder).
  { now rewrite get_name_payload_of. }
  rewrite run_syncTask. cbv zeta. fold cleanFolder. rewrite !still_at, Hcfg, Hmain, Hrun.
  unfold and_then. cbn [final trace next emit app requests].
  rewrite get_error_payload_of. cbn [Val.truthy].
  rewrite <- Hname in Hurl. split.
  - rewrite (requests_sync_payload h (still w) _ cleanFolder apiToken url _ Hurl).
    rewrite still_at, Hid. reflexivity.
  - exact (sync_payload_returned h (still w) _ cleanFolder apiToken url _ Hurl).
Qed.

Lemma new_folder_is_created_witness :
  exists encodedFile,
    Uri.decodeURIComponent encodedFile
    = Some (Utf8.toString (list_byte_of_string Demo.script_text))
    /\ requests (trace (run (still (Sample.checkout (Demo.git_lists "actions/a/main.py")
                                      Demo.server_empty)) 3
                          (syncTask Demo.host (lit "actions/a/") (lit "secret"))))
       = [lookup_request Demo.host Demo.lookup_url_a (lit "secret");
          create_request Demo.host (lit "secret")
            (payload_of (Str.strip_trailing_slash (lit "actions/a/")) Demo.config_ok_value
               encodedFile)]
    /\ final (run (still (Sample.checkout (Demo.git_lists "actions/a/main.py")
                            Demo.server_empty)) 3
                (syncTask Demo.host (lit "actions/a/") (lit "secret")))
       = Returned tt.
Proof.
  apply (new_folder_is_created Demo.host
           (Sample.checkout (Demo.git_lists "actions/a/main.py") Demo.server_empty) 3
           (lit "actions/a/") (lit "secret") Demo.lookup_url_a
           (list_byte_of_string Demo.config_ok) (list_byte_of_string Demo.script_text)
           Demo.config_ok_value);
    vm_compute; reflexivity.
Defined.
(** ** The version string *)

Lemma drop_spaces_head (s : jsstring) (c : N) (rest : jsstring) :
  Str.drop_spaces s = c :: rest -> Str.is_space c = false.
Proof.
  induction s as [|x s IH]; cbn [Str.drop_spaces]; [discriminate|].
  destruct (Str.is_space x) eqn:Hx; [exact IH|]. now intros [= <- _].
Qed.

Lemma drop_spaces_suffix (s : jsstring) : exists front, s = front ++ Str.drop_spaces s.
Proof.
  induction s as [|x s [front IH]]; cbn [Str.drop_spaces]; [now exists []|].
  destruct (Str.is_space x).
  - exists (x :: front). cbn [app]. now rewrite <- IH.
  - now exists [].
Qed.

(** What [trim] returns neither starts nor ends with white space. *)
Lemma trim_ends (s : jsstring) (c : N) :
  (exists rest, Str.trim s = c :: rest) \/ (exists front, Str.trim s = front ++ [c]) ->
  Str.is_space c = false.
Proof.
  unfold Str.trim. intros [[rest H] | [front H]].
  - apply (f_equal (@rev N)) in H. rewrite rev_involutive in H. cbn [rev] in H.
    destruct (drop_spaces_suffix (rev (Str.drop_spaces s))) as [pre Hpre].
    rewrite H in Hpre. apply (f_equal (@rev N)) in Hpre.
    rewrite rev_involutive, !rev_app_distr in Hpre. cbn [rev app] in Hpre.
    exact (drop_spaces_head _ _ _ Hpre).
  - apply (f_equal (@rev N)) in H. rewrite rev_involutive, rev_app_distr in H.
    cbn [rev app] in H. exact (drop_spaces_head _ _ _ H).
Qed.

(** X26: the version of the pipe.  For a module in the directory
    [/dirname], [getVersion] reads [version.txt] of that directory, whatever
    the working directory is, and returns its text without the white space
    at both ends; when the file cannot be read it warns and returns
    [unknown].  It never throws, and the version it returns neither starts
    nor ends with a white-space character. *)
Theorem getVersion_spec (tl : Timeline) (i : nat) (dirname : jsstring) :
  let versionPath :=
    Path.slash
    :: Path.normalizeString
         ((Path.slash :: dirname) ++ [Path.slash] ++ lit "version.txt" ++ [Path.slash]) false in
  run tl i (getVersion (Path.slash :: dirname))
  = match w_read (tl i) versionPath with
    | inr data => mkResult [] (Returned (Str.trim (Utf8.toString data))) (1 + i)
    | inl _ =>
        mkResult [Logged WARN [lit "Warning: Could not read version.txt, using default"]]
          (Returned (lit "unknown")) (1 + i)
    end
  /\ (forall version c,
         final (run tl i (getVersion (Path.slash :: dirname))) = Returned version ->
         (exists rest, version = c :: rest) \/ (exists front, version = front ++ [c]) ->
         Str.is_space c = false).
Proof.
  cbv zeta.
  assert (Hrun : run tl i (getVersion (Path.slash :: dirname))
                 = match w_read (tl i)
                           (Path.slash
                            :: Path.normalizeString
                                 ((Path.slash :: dirname) ++ [Path.slash]
                                  ++ lit "version.txt" ++ [Path.slash]) false) with
                   | inr data => mkResult [] (Returned (Str.trim (Utf8.toString data))) (1 + i)
                   | inl _ =>
                       mkResult
                         [Logged WARN [lit "Warning: Could not read version.txt, using default"]]
                         (Returned (lit "unknown")) (1 + i)
                   end).
  { unfold getVersion, path_resolve, fs_readFileSync.
    replace (prepend (lit "version.txt") ([], false))
      with (lit "version.txt" ++ [Path.slash], false) by (vm_compute; reflexivity).
    cbn [prepend fst snd negb run bind try_catch lift].
    replace (Path.slash =? Path.slash)%N with true by reflexivity.
    cbn [prepend fst snd negb run bind try_catch lift app].
    destruct (w_read (tl i) _) as [error|data]; reflexivity. }
  split; [exact Hrun|].
  intros version c Hv. rewrite Hrun in Hv.
  destruct (w_read (tl i) _) as [error|data]; cbn [final] in Hv; injection Hv as <-.
  - intros [[rest H] | [front H]].
    + vm_compute in H. now injection H as <- _.
    + replace (lit "unknown") with (lit "unknow" ++ [0x6E%N]) in H by (vm_compute; reflexivity).
      apply app_inj_tail in H as [_ <-]. reflexivity.
  - apply trim_ends.
Qed.

(** The module of the pipe in its usual place. *)
Example getVersion_ex1 :
  run (still Sample.pipe_module) 0 (getVersion (lit "/usr/src/pipe"))
  = mkResult [] (Returned (lit "1.4.2")) 1
  /\ run (still Sample.pipe_module) 0 (getVersion (lit "/usr/src/app"))
     = mkResult [Logged WARN [lit "Warning: Could not read version.txt, using default"]]
         (Returned (lit "unknown")) 1.
Proof. split; vm_compute; reflexivity. Qed.

(** The line break that ends [version.txt] is not part of the version. *)
Lemma getVersion_spec_witness :
  final (run (still Sample.pipe_module) 0 (getVersion (lit "/usr/src/pipe")))
  = Returned (lit "1.4.2")
  /\ Str.is_space (last (lit "1.4.2") 0%N) = false.
Proof.
  split; [vm_compute; reflexivity|].
  replace (lit "/usr/src/pipe") with (Path.slash :: lit "usr/src/pipe")
    by (vm_compute; reflexivity).
  apply (proj2 (getVersion_spec (still Sample.pipe_module) 0 (lit "usr/src/pipe"))
           (lit "1.4.2")).
  - vm_compute. reflexivity.
  - right. exists (lit "1.4."). vm_compute. reflexivity.
Defined.
(** ** From a detected folder to its name and its files *)

Lemma split_no_sep (sep : N) (s x : jsstring) : In x (Str.split sep s) -> ~ In sep x.
Proof.
  revert x. induction s as [|c s IH]; intros x; cbn [Str.split].
  - intros [<- | []] [].
  - destruct (c =? sep)%N eqn:Hc.
    + intros [<- | Hin]; [intros []|now apply IH].
    + pose proof (split_not_nil sep s) as Hne.
      destruct (Str.split sep s) as [|first others]; [contradiction|].
      intros [<- | Hin].
      * intros [-> | Hin]; [now rewrite N.eqb_refl in Hc|].
        revert Hin. apply IH. now left.
      * apply IH. now right.
Qed.

Lemma split_single (sep : N) (a : jsstring) : ~ In sep a -> Str.split sep a = [a].
Proof.
  induction a as [|c a IH]; intros Hno; cbn [Str.split]; [reflexivity|].
  destruct (c =? sep)%N eqn:Hc.
  - apply N.eqb_eq in Hc. subst c. destruct Hno. now left.
  - rewrite IH; [reflexivity|]. intros Hin. apply Hno. now right.
Qed.

Lemma split_app_sep (sep : N) (a b : jsstring) :
  ~ In sep a -> Str.split sep (a ++ sep :: b) = a :: Str.split sep b.
Proof.
  induction a as [|c a IH]; intros Hno; cbn [app Str.split].
  - now rewrite N.eqb_refl.
  - destruct (c =? sep)%N eqn:Hc.
    + apply N.eqb_eq in Hc. subst c. destruct Hno. now left.
    + rewrite IH; [reflexivity|]. intros Hin. apply Hno. now right.
Qed.

Lemma second_segment_no_slash (file : jsstring) : ~ In Path.slash (second_segment file).
Proof.
  unfold second_segment.
  destruct (nth_in_or_default 1 (Str.split Path.slash file) []) as [Hin | ->].
  - exact (split_no_sep _ _ _ Hin).
  - intros [].
Qed.

Lemma strip_trailing_slash_last (s : jsstring) (c : N) :
  Str.strip_trailing_slash (s ++ [c]) = if (c =? 0x2F)%N then s else s ++ [c].
Proof.
  induction s as [|x s IH]; cbn [app Str.strip_trailing_slash].
  - destruct (c =? 0x2F)%N; reflexivity.
  - destruct (s ++ [c]) as [|y t] eqn:E; [now destruct s|].
    rewrite IH. destruct (c =? 0x2F)%N; reflexivity.
Qed.

Lemma drop_slashes_head (c : N) (s : jsstring) :
  c <> Path.slash -> Path.drop_slashes (c :: s) = c :: s.
Proof.
  intros Hc. cbn [Path.drop_slashes]. apply N.eqb_neq in Hc. now rewrite Hc.
Qed.

Lemma take_segment_app (a b : jsstring) :
  ~ In Path.slash a -> Path.take_segment (a ++ Path.slash :: b) = a.
Proof.
  induction a as [|c a IH]; intros Hno; cbn [app Path.take_segment].
  - now rewrite N.eqb_refl.
  - destruct (c =? Path.slash)%N eqn:Hc.
    + apply N.eqb_eq in Hc. subst c. destruct Hno. now left.
    + rewrite IH; [reflexivity|]. intros Hin. apply Hno. now right.
Qed.

(** The base name of [front/child]. *)
Lemma basename_child (front child : jsstring) :
  child <> [] -> ~ In Path.slash child ->
  Path.basename (front ++ Path.slash :: child) = child.
Proof.
  intros Hne Hno. unfold Path.basename.
  rewrite rev_app_distr. cbn [rev]. rewrite <- app_assoc. cbn [app].
  assert (Hr : ~ In Path.slash (rev child)) by (now rewrite <- in_rev).
  destruct (rev child) as [|c r] eqn:E.
  - apply (f_equal (@rev N)) in E. rewrite rev_involutive in E. now destruct Hne.
  - cbn [app]. rewrite drop_slashes_head; [|intros ->; apply Hr; now left].
    change (c :: r ++ Path.slash :: rev front) with ((c :: r) ++ Path.slash :: rev front).
    rewrite (take_segment_app _ _ Hr), <- E. apply rev_involutive.
Qed.

(** X27: the name under which a folder is synchronised.  Every folder that
    the detector returns is [actions/] followed by a segment without slash;
    the folder is used as it is (there is no final slash to remove) and the
    name of its task is that segment.  The one exception is the empty
    segment, of a listed path such as [actions//x]: the folder is then
    [actions] itself, and so is the name. *)
Theorem task_name_of_a_detected_folder (listing folder : jsstring) :
  In folder (changed_folders listing) ->
  exists child,
    folder = lit "actions/" ++ child
    /\ ~ In Path.slash child
    /\ Str.strip_trailing_slash folder
       = match child with [] => lit "actions" | _ => folder end
    /\ Path.basename (Str.strip_trailing_slash folder)
       = match child with [] => lit "actions" | _ => child end.
Proof.
  rewrite changed_folders_spec. intros Hin.
  apply (proj2 (action_folders_characterised listing folder)) in Hin
    as (file & _ & _ & ->).
  pose proof (second_segment_no_slash file) as Hno.
  exists (second_segment file). split; [reflexivity|]. split; [exact Hno|].
  destruct (second_segment file) as [|c child] eqn:E.
  - split; vm_compute; reflexivity.
  - assert (Hs : Str.strip_trailing_slash (lit "actions/" ++ c :: child)
                 = lit "actions/" ++ c :: child).
    { destruct (exists_last (l := c :: child)) as (front & z & Hz); [discriminate|].
      rewrite Hz, app_assoc, strip_trailing_slash_last.
      destruct (z =? 0x2F)%N eqn:Hzs; [|reflexivity].
      apply N.eqb_eq in Hzs. subst z. destruct Hno. rewrite Hz.
      apply in_or_app. right. now left. }
    split; [exact Hs|]. rewrite Hs.
    replace (lit "actions/") with (lit "actions" ++ [Path.slash]) by (vm_compute; reflexivity).
    rewrite <- app_assoc. cbn [app]. apply basename_child; [discriminate|exact Hno].
Qed.

Lemma task_name_of_a_detected_folder_witness :
  exists child,
    lit "actions/b" = lit "actions/" ++ child
    /\ ~ In Path.slash child
    /\ Str.strip_trailing_slash (lit "actions/b")
       = match child with [] => lit "actions" | _ => lit "actions/b" end
    /\ Path.basename (Str.strip_trailing_slash (lit "actions/b"))
       = match child with [] => lit "actions" | _ => child end.
Proof.
  apply (task_name_of_a_detected_folder (lit Demo.listing_three) (lit "actions/b")).
  vm_compute. right. left. reflexivity.
Defined.

(** A segment that normalisation leaves alone. *)
Lemma push_plain_segment (allowAboveRoot : bool) (stack : list jsstring) (seg : jsstring) :
  seg <> [] -> seg <> Path.dot -> seg <> Path.dotdot ->
  Path.push_segment allowAboveRoot stack seg = seg :: stack.
Proof.
  intros Hne Hdot Hdotdot. unfold Path.push_segment.
  rewrite (proj2 (StrFacts.eqb_neq seg Path.dot) Hdot).
  rewrite (proj2 (StrFacts.eqb_neq seg Path.dotdot) Hdotdot).
  destruct seg; [contradiction|reflexivity].
Qed.

(** A relative path of three plain segments is its own normal form. *)
Lemma normalize_three_segments (x y z : jsstring) :
  ~ In Path.slash x -> x <> [] -> x <> Path.dot -> x <> Path.dotdot ->
  ~ In Path.slash y -> y <> [] -> y <> Path.dot -> y <> Path.dotdot ->
  ~ In Path.slash z -> z <> [] -> z <> Path.dot -> z <> Path.dotdot ->
  Path.normalize (x ++ Path.slash :: y ++ Path.slash :: z)
  = x ++ Path.slash :: y ++ Path.slash :: z.
Proof.
  intros Hx Hxe Hxd Hxdd Hy Hye Hyd Hydd Hz Hze Hzd Hzdd.
  assert (Hq : Path.normalizeString (x ++ Path.slash :: y ++ Path.slash :: z) true
               = x ++ Path.slash :: y ++ Path.slash :: z).
  { unfold Path.normalizeString.
    rewrite (split_app_sep _ _ _ Hx), (split_app_sep _ _ _ Hy), (split_single _ _ Hz).
    cbn [fold_left]. rewrite !push_plain_segment by assumption.
    cbn [rev app Str.join].
    destruct y as [|c y]; [contradiction|]. destruct z as [|d z]; [contradiction|].
    reflexivity. }
  assert (Hlast : (last (x ++ Path.slash :: y ++ Path.slash :: z) 0%N =? Path.slash)%N = false).
  { destruct (exists_last Hze) as (front & t & ->).
    replace (x ++ Path.slash :: y ++ Path.slash :: front ++ [t])
      with ((x ++ Path.slash :: y ++ Path.slash :: front) ++ [t])
      by (rewrite <- !app_assoc; cbn [app]; rewrite <- !app_assoc; reflexivity).
    rewrite last_last. apply N.eqb_neq. intros ->. apply Hz.
    apply in_or_app. right. now left. }
  unfold Path.normalize.
  destruct (x ++ Path.slash :: y ++ Path.slash :: z) as [|c p] eqn:E.
  - destruct x; discriminate E.
  - assert (Hc : (c =? Path.slash)%N = false).
    { destruct x as [|c' x]; [contradiction|]. injection E as <- _.
      apply N.eqb_neq. intros ->. apply Hx. now left. }
    rewrite Hc, Hlast. cbn [negb]. rewrite Hq. reflexivity.
Qed.

(** X28: the two files of a folder.  For a folder [actions/child] whose
    segment is neither empty nor [.] nor [..], the paths that the script
    probes and reads are [actions/child/config.yaml] and
    [actions/child/main.py]: joining changes nothing in them. *)
Theorem files_of_a_detected_folder (child name : jsstring) :
  ~ In Path.slash child ->
  child <> [] -> child <> Path.dot -> child <> Path.dotdot ->
  name = lit "config.yaml" \/ name = lit "main.py" ->
  Path.join (lit "actions/" ++ child) name = lit "actions/" ++ child ++ [Path.slash] ++ name.
Proof.
  intros Hno Hne Hdot Hdotdot Hname.
  assert (Hn : ~ In Path.slash name /\ name <> [] /\ name <> Path.dot /\ name <> Path.dotdot).
  { destruct Hname as [-> | ->]; (split; [|split; [|split]]); try (vm_compute; discriminate);
      vm_compute; intuition discriminate. }
  destruct Hn as (Hnn & Hnne & Hndot & Hndotdot).
  replace (lit "actions/") with (lit "actions" ++ [Path.slash]) by (vm_compute; reflexivity).
  rewrite <- !app_assoc. cbn [app].
  rewrite <- (normalize_three_segments (lit "actions") child name); try assumption;
    try (vm_compute; discriminate); [|vm_compute; intuition discriminate].
  unfold Path.join. cbn [filter].
  replace (Str.is_empty (lit "actions" ++ Path.slash :: child)) with false
    by (vm_compute; reflexivity).
  replace (Str.is_empty name) with false by (destruct name; [contradiction|reflexivity]).
  cbn [negb Str.join]. rewrite <- !app_assoc. reflexivity.
Qed.

Lemma files_of_a_detected_folder_witness :
  Path.join (lit "actions/" ++ lit "my_task") (lit "main.py")
  = lit "actions/" ++ lit "my_task" ++ [Path.slash] ++ lit "main.py".
Proof.
  apply (files_of_a_detected_folder (lit "my_task") (lit "main.py")).
  - vm_compute. intuition discriminate.
  - vm_compute. discriminate.
  - vm_compute. discriminate.
  - vm_compute. discriminate.
  - right. reflexivity.
Defined.
